(** * COSMO-CLM2 case tools: run dates, restart chain, output filter, layout

    A shallow embedding of [COSMO_CLM2_tools/cosmo_clm2.py]: the duration
    parser [add_time_from_str], the [case] methods [_compute_run_dates],
    [_apply_run_dates], [_check_gribout], [_get_gribouts],
    [_build_proc_config], [set_next_run], [_update_controller] and the
    namelist cache [nmldict], together with the part of Python's [datetime]
    module they rely on.

    Conventions.
    - Python exceptions are values of [exn]; a computation that can raise
      returns a [result].
    - Methods of [case] are functions [case -> result A * case]: the object
      is threaded explicitly and keeps the mutations done before a raise.
    - Numeric namelist entries are integers [Z].  The source also stores
      floats with zero fraction there (results of [// 3600.0]); Python
      compares and adds those like the integers they denote, as long as
      they are exact: up to [2 ^ 53] in size ([float_exact]).
    - The names of groups and parameters are the lower-case names that
      f90nml keeps ([stored_name]); the cache and the files of the case
      directory hold the same namelist objects, the text format of the
      files is not part of the model.
    - Dates have a resolution of one second; the program builds its dates
      with [strptime] from formats that stop at the hour and shifts them by
      whole hours, days or seconds. *)

From Stdlib Require Import ZArith String Ascii List Lia.
From Stdlib Require Import DecimalString.
From Stdlib Require Import DecimalZ DecimalPos.
From stdpp Require Import gmap strings list fin_maps.

Local Open Scope Z_scope.

(** ** Exceptions and results *)

Inductive exn :=
| ValueError (msg : string)
| KeyError (key : string)
| IndexError
| TypeError
| AttributeError (attr : string)
| OverflowError
| ZeroDivisionError
| IOError (file : string).

Inductive result (A : Type) :=
| Ok (a : A)
| Raise (e : exn).
Arguments Ok {A} a.
Arguments Raise {A} e.

Definition rbind {A B} (r : result A) (f : A -> result B) : result B :=
  match r with
  | Ok a => f a
  | Raise e => Raise e
  end.

Declare Scope res_scope.
Delimit Scope res_scope with res.
Notation "'do' x <- r ; k" := (rbind r (fun x => k))
  (at level 10, x name, r at level 100, k at level 200) : res_scope.

(** ** Python strings and [int(str)] *)

Module PyStr.

Definition chars (s : string) : list ascii := list_ascii_of_string s.
Definition str (l : list ascii) : string := string_of_list_ascii l.

(** [s[a:b]] for [0 <= a] and [0 <= b]. *)
Definition slice (l : list ascii) (a b : nat) : list ascii :=
  firstn (b - a) (skipn a l).

Definition is_space (c : ascii) : bool :=
  let n := N_of_ascii c in ((9 <=? n) && (n <=? 13) || (n =? 32))%N.

Definition is_digit (c : ascii) : bool :=
  let n := N_of_ascii c in ((48 <=? n) && (n <=? 57))%N.

Definition digit_val (c : ascii) : Z := Z.of_N (N_of_ascii c) - 48.

Fixpoint lstrip (l : list ascii) : list ascii :=
  match l with
  | c :: l' => if is_space c then lstrip l' else l
  | [] => []
  end.

Definition strip (l : list ascii) : list ascii :=
  rev (lstrip (rev (lstrip l))).

Fixpoint digits_val (acc : Z) (l : list ascii) : option Z :=
  match l with
  | [] => Some acc
  | c :: l' =>
      if is_digit c then digits_val (acc * 10 + digit_val c) l' else None
  end.

Definition invalid_literal : exn :=
  ValueError "invalid literal for int() with base 10".

(** [int(s)]: surrounding white space, an optional sign, at least one
    decimal digit.  (The digit-group underscores of Python 3.6 and the
    non-ASCII digits and spaces are left out.) *)
Definition py_int (l : list ascii) : result Z :=
  let t := strip l in
  let '(sgn, body) :=
    match t with
    | "-"%char :: r => (-1, r)
    | "+"%char :: r => (1, r)
    | _ => (1, t)
    end in
  match body with
  | [] => Raise invalid_literal
  | _ =>
      match digits_val 0 body with
      | Some v => Ok (sgn * v)
      | None => Raise invalid_literal
      end
  end.

(** [str(n)] and ['{:d}'.format(n)] for an integer. *)
Definition str_of_Z (z : Z) : string := NilZero.string_of_int (Z.to_int z).

(** ['{:02d}'.format(n)], as [strftime] prints months, days and hours. *)
Definition pad2 (z : Z) : string :=
  if (0 <=? z) && (z <? 10) then ("0" ++ str_of_Z z)%string else str_of_Z z.

End PyStr.
Import PyStr.

(** ** The [datetime] module *)

Module Datetime.

Record datetime := mkdt {
  year : Z; month : Z; day : Z; hour : Z; minute : Z; second : Z
}.

(** A [timedelta] is kept normalised as Python does:
    [0 <= td_seconds < 86400]. *)
Record timedelta := mktd { td_days : Z; td_seconds : Z }.

Definition MAXORDINAL : Z := 3652059.
Definition MAXDELTADAYS : Z := 999999999.

Definition is_leap (y : Z) : bool :=
  (y mod 4 =? 0) && (negb (y mod 100 =? 0) || (y mod 400 =? 0)).

Definition DAYS_IN_MONTH (m : Z) : Z :=
  match m with
  | 1 => 31 | 2 => 28 | 3 => 31 | 4 => 30 | 5 => 31 | 6 => 30
  | 7 => 31 | 8 => 31 | 9 => 30 | 10 => 31 | 11 => 30 | 12 => 31
  | _ => -1
  end.

Definition DAYS_BEFORE_MONTH (m : Z) : Z :=
  match m with
  | 1 => 0 | 2 => 31 | 3 => 59 | 4 => 90 | 5 => 120 | 6 => 151
  | 7 => 181 | 8 => 212 | 9 => 243 | 10 => 273 | 11 => 304 | 12 => 334
  | _ => -1
  end.

Definition days_in_month (y m : Z) : Z :=
  if (m =? 2) && is_leap y then 29 else DAYS_IN_MONTH m.

Definition days_before_year (y : Z) : Z :=
  let y' := y - 1 in y' * 365 + y' / 4 - y' / 100 + y' / 400.

Definition days_before_month (y m : Z) : Z :=
  DAYS_BEFORE_MONTH m + (if (2 <? m) && is_leap y then 1 else 0).

Definition ymd2ord (y m d : Z) : Z :=
  days_before_year y + days_before_month y m + d.

Definition DI400Y : Z := 146097.
Definition DI100Y : Z := 36524.
Definition DI4Y : Z := 1461.

Definition ord2ymd (n0 : Z) : Z * Z * Z :=
  let n := n0 - 1 in
  let n400 := n / DI400Y in let n := n mod DI400Y in
  let y := n400 * 400 + 1 in
  let n100 := n / DI100Y in let n := n mod DI100Y in
  let n4 := n / DI4Y in let n := n mod DI4Y in
  let n1 := n / 365 in let n := n mod 365 in
  let y := y + n100 * 100 + n4 * 4 + n1 in
  if (n1 =? 4) || (n100 =? 4) then (y - 1, 12, 31)
  else
    let leapyear := (n1 =? 3) && (negb (n4 =? 24) || (n100 =? 3)) in
    let m := Z.shiftr (n + 50) 5 in
    let preceding :=
      DAYS_BEFORE_MONTH m + (if (2 <? m) && leapyear then 1 else 0) in
    if n <? preceding then
      let m' := m - 1 in
      let preceding' :=
        preceding
        - (DAYS_IN_MONTH m' + (if (m' =? 2) && leapyear then 1 else 0)) in
      (y, m', n - preceding' + 1)
    else (y, m, n - preceding + 1).

(** [datetime(y, m, d, h)]: the constructor checks every field. *)
Definition datetime_new (y m d h : Z) : result datetime :=
  if negb ((1 <=? y) && (y <=? 9999)) then
    Raise (ValueError "year is out of range")
  else if negb ((1 <=? m) && (m <=? 12)) then
    Raise (ValueError "month must be in 1..12")
  else if negb ((1 <=? d) && (d <=? days_in_month y m)) then
    Raise (ValueError "day is out of range for month")
  else if negb ((0 <=? h) && (h <=? 23)) then
    Raise (ValueError "hour must be in 0..23")
  else Ok (mkdt y m d h 0 0).

Definition valid (d : datetime) : Prop :=
  1 <= year d <= 9999 /\ 1 <= month d <= 12 /\
  1 <= day d <= days_in_month (year d) (month d) /\
  0 <= hour d <= 23 /\ 0 <= minute d <= 59 /\ 0 <= second d <= 59.

(** [timedelta(days=d, seconds=s)] for integers, normalised. *)
Definition timedelta_new (d s : Z) : result timedelta :=
  let d' := d + s / 86400 in
  if Z.abs d' >? MAXDELTADAYS then Raise OverflowError
  else Ok (mktd d' (s mod 86400)).

Definition timedelta_days (n : Z) : result timedelta := timedelta_new n 0.
Definition timedelta_hours (n : Z) : result timedelta :=
  timedelta_new 0 (n * 3600).
Definition timedelta_seconds (n : Z) : result timedelta :=
  timedelta_new 0 n.

Definition total_seconds (t : timedelta) : Z :=
  td_days t * 86400 + td_seconds t.

Definition toordinal (d : datetime) : Z := ymd2ord (year d) (month d) (day d).

Definition secs_of_day (d : datetime) : Z :=
  second d + minute d * 60 + hour d * 3600.

(** [d + t] *)
Definition dt_add (d : datetime) (t : timedelta) : result datetime :=
  (do delta <- timedelta_new (toordinal d + td_days t)
                             (secs_of_day d + td_seconds t);
   let h := td_seconds delta / 3600 in
   let rem := td_seconds delta mod 3600 in
   if (0 <? td_days delta) && (td_days delta <=? MAXORDINAL) then
     let '(y, m, dd) := ord2ymd (td_days delta) in
     Ok (mkdt y m dd h (rem / 60) (rem mod 60))
   else Raise OverflowError)%res.

(** [d1 - d2]; between two dates of the supported range this cannot
    overflow, so the normalisation is written out directly. *)
Definition dt_sub (d1 d2 : datetime) : timedelta :=
  let s := secs_of_day d1 - secs_of_day d2 in
  mktd (toordinal d1 - toordinal d2 + s / 86400) (s mod 86400).

(** Comparison is that of the field tuples. *)
Definition dt_key (d : datetime) : list Z :=
  [year d; month d; day d; hour d; minute d; second d].

Fixpoint lex_ltb (a b : list Z) : bool :=
  match a, b with
  | x :: a', y :: b' => (x <? y) || ((x =? y) && lex_ltb a' b')
  | [], _ :: _ => true
  | _, [] => false
  end.

Definition dt_ltb (a b : datetime) : bool := lex_ltb (dt_key a) (dt_key b).
Definition dt_eqb (a b : datetime) : bool :=
  (year a =? year b) && (month a =? month b) && (day a =? day b) &&
  (hour a =? hour b) && (minute a =? minute b) && (second a =? second b).
Definition dt_leb (a b : datetime) : bool := negb (dt_ltb b a).

(** [min(a, b)]: the first argument unless the second is smaller. *)
Definition dt_min (a b : datetime) : datetime := if dt_ltb b a then b else a.

(** *** Formats *)

Definition all_digits (l : list ascii) : bool := forallb is_digit l.

Definition num (l : list ascii) : Z :=
  match digits_val 0 l with Some v => v | None => 0 end.

(** [strptime(s, '%Y%m%d%H')] and [strptime(s, '%Y%m%d')] on the
    fixed-width, zero-padded text that [strftime] prints.  [strptime] also
    takes some texts with one-digit fields; those are not covered and are
    rejected here. *)
Definition strptime_fixed (with_hour : bool) (s : string)
  : result datetime :=
  let l := chars s in
  let n := if with_hour then 10%nat else 8%nat in
  if negb (Nat.eqb (List.length l) n && all_digits l) then
    Raise (ValueError "time data does not match format")
  else
    let y := num (slice l 0 4) in
    let m := num (slice l 4 6) in
    let d := num (slice l 6 8) in
    let h := if with_hour then num (slice l 8 10) else 0 in
    if negb ((1 <=? m) && (m <=? 12) && (1 <=? d) && (d <=? 31)
             && (h <=? 23)) then
      Raise (ValueError "time data does not match format")
    else datetime_new y m d h.

Definition strptime_cosmo : string -> result datetime := strptime_fixed true.
Definition strptime_cesm : string -> result datetime := strptime_fixed false.

(** [strftime]: ['%Y'] prints the year without padding (glibc); months,
    days and hours take two digits. *)
Definition strftime_cesm (d : datetime) : string :=
  (str_of_Z (year d) ++ pad2 (month d) ++ pad2 (day d))%string.
Definition strftime_cosmo (d : datetime) : string :=
  (strftime_cesm d ++ pad2 (hour d))%string.

End Datetime.
Import Datetime.

(** ** The duration parser *)

Module Duration.

(** The loop variables [ky], [ny], [km], [nm] of [add_time_from_str]. *)
Record ymscan := mkscan { ky : nat; ny : Z; km : nat; nm : Z }.

(** One round of [for k, c in enumerate(dt_str)], first loop. *)
Definition step_ym (s : list ascii) (k : nat) (c : ascii) (st : ymscan)
  : result ymscan :=
  (do st1 <- (if Ascii.eqb c "y" then
                do n <- py_int (slice s 0 k);
                Ok (mkscan k n (km st) (nm st))
              else Ok st);
   if Ascii.eqb c "m" then
     do n <- py_int (slice s (ky st1) k);
     Ok (mkscan (ky st1) (ny st1) k n)
   else Ok st1)%res.

Fixpoint scan_ym (s : list ascii) (k : nat) (rest : list ascii)
         (st : ymscan) : result ymscan :=
  match rest with
  | [] => Ok st
  | c :: rest' =>
      (do st' <- step_ym s k c st; scan_ym s (S k) rest' st')%res
  end.

(** The second loop, over the day form: the variables [kd], [nd]. *)
Fixpoint scan_d (s : list ascii) (k : nat) (rest : list ascii)
         (st : nat * Z) : result (nat * Z) :=
  match rest with
  | [] => Ok st
  | c :: rest' =>
      (do st' <- (if Ascii.eqb c "d" then
                    do n <- py_int (slice s 0 k); Ok (k, n)
                  else Ok st);
       scan_d s (S k) rest' st')%res
  end.

Definition bad_increment (dt_str : string) : exn :=
  ValueError ("date increment '" ++ dt_str
              ++ "' doesn't have the correct format").

Definition add_time_from_str (date1 : datetime) (dt_str : string)
  : result datetime :=
  let s := chars dt_str in
  (do st <- scan_ym s 0 s (mkscan 0 0 0 0);
   if Nat.eqb (km st) 0 && Nat.eqb (ky st) 0 then
     do kn <- scan_d s 0 s (0%nat, 0);
     if Nat.eqb (fst kn) 0 then Raise (bad_increment dt_str)
     else do t <- timedelta_days (snd kn); dt_add date1 t
   else
     let y2 := year date1 + (ny st + (nm st + month date1 - 1) / 12) in
     let m2 := (nm st + month date1 - 1) mod 12 + 1 in
     datetime_new y2 m2 (day date1) (hour date1))%res.

End Duration.
Import Duration.

(** ** Namelists *)

Module Nml.

Inductive scalar :=
| SInt (z : Z)
| SStr (s : string)
| SBool (b : bool).

Inductive value :=
| VScalar (x : scalar)
| VList (l : list scalar).

(** A namelist file maps group names to a group, or to the list of groups
    that f90nml builds when a group name is repeated in the file. *)
Inductive block :=
| BGroup (g : gmap string value)
| BList (l : list (gmap string value)).

Definition VInt (z : Z) : value := VScalar (SInt z).
Definition VStr (s : string) : value := VScalar (SStr s).
Definition VBool (b : bool) : value := VScalar (SBool b).

(** A number where Python expects one ([True] counts as 1). *)
Definition scalar_num (x : scalar) : result Z :=
  match x with
  | SInt z => Ok z
  | SBool b => Ok (if b then 1 else 0)
  | SStr _ => Raise TypeError
  end.

Definition as_num (v : value) : result Z :=
  match v with
  | VScalar x => scalar_num x
  | VList _ => Raise TypeError
  end.

(** A string where [strptime] expects one. *)
Definition as_str (v : value) : result string :=
  match v with
  | VScalar (SStr s) => Ok s
  | _ => Raise TypeError
  end.

(** [str(v)] of a scalar; the text of a list never is a date, and
    [strptime] is the only reader of it. *)
Definition py_str (v : value) : result string :=
  match v with
  | VScalar (SInt z) => Ok (str_of_Z z)
  | VScalar (SStr s) => Ok s
  | VScalar (SBool b) => Ok (if b then "True" else "False")%string
  | VList _ => Raise (ValueError "time data does not match format")
  end.

(** [f[b]] where a group is expected: indexing the list of a repeated
    group with a string is a [TypeError]. *)
Definition get_group (f : gmap string block) (b : string)
  : result (gmap string value) :=
  match f !! b with
  | Some (BGroup g) => Ok g
  | Some (BList _) => Raise TypeError
  | None => Raise (KeyError b)
  end.

Definition get_param (g : gmap string value) (p : string) : result value :=
  match g !! p with
  | Some v => Ok v
  | None => Raise (KeyError p)
  end.

End Nml.
Import Nml.

(** ** The case object *)

(** The regular-expression substitution [re.sub(pattern, repl, text)] is a
  library function of the host language; the case methods only pass
  texts through it. *)
Class RegexLib := {
re_sub : string -> string -> string -> bool (* MULTILINE *) -> string
}.

Module Case.

(** The attributes of a [case] instance, and the case directory it works
    in: [disk_nml] holds the namelist files as f90nml reads and writes
    them, [files] the text files, both by file name relative to
    [self.path].  An attribute that is [None] in [_start_date],
    [_run_start_date], [_run_end_date], [_runtime] or [_n_nodes] has not
    been assigned yet; [_end_date] and [run_length] hold Python's
    [None]. *)
Record case := mkcase {
  run_length : option string;
  COSMO_exe : string;
  CESM_exe : string;
  wall_time : string;
  account : string;
  gpu_mode : bool;
  module_purge : bool;
  dummy_day : bool;
  _name : string;
  _start_date : option datetime;
  _end_date : option datetime;
  _run_start_date : option datetime;
  _run_end_date : option datetime;
  _runtime : option timedelta;
  _n_nodes : option Z;
  nml : gmap string (gmap string block);
  disk_nml : gmap string (gmap string block);
  files : gmap string string
}.

Definition set_name (x : string) (c : case) : case :=
  mkcase (run_length c) (COSMO_exe c) (CESM_exe c) (wall_time c)
    (account c) (gpu_mode c) (module_purge c) (dummy_day c)
    x (_start_date c) (_end_date c) (_run_start_date c)
    (_run_end_date c) (_runtime c) (_n_nodes c)
    (nml c) (disk_nml c) (files c).

Definition set_start_date (x : option datetime) (c : case) : case :=
  mkcase (run_length c) (COSMO_exe c) (CESM_exe c) (wall_time c)
    (account c) (gpu_mode c) (module_purge c) (dummy_day c)
    (_name c) x (_end_date c) (_run_start_date c)
    (_run_end_date c) (_runtime c) (_n_nodes c)
    (nml c) (disk_nml c) (files c).

Definition set_end_date (x : option datetime) (c : case) : case :=
  mkcase (run_length c) (COSMO_exe c) (CESM_exe c) (wall_time c)
    (account c) (gpu_mode c) (module_purge c) (dummy_day c)
    (_name c) (_start_date c) x (_run_start_date c)
    (_run_end_date c) (_runtime c) (_n_nodes c)
    (nml c) (disk_nml c) (files c).

Definition set_run_start_date (x : option datetime) (c : case) : case :=
  mkcase (run_length c) (COSMO_exe c) (CESM_exe c) (wall_time c)
    (account c) (gpu_mode c) (module_purge c) (dummy_day c)
    (_name c) (_start_date c) (_end_date c) x
    (_run_end_date c) (_runtime c) (_n_nodes c)
    (nml c) (disk_nml c) (files c).

Definition set_run_end_date (x : option datetime) (c : case) : case :=
  mkcase (run_length c) (COSMO_exe c) (CESM_exe c) (wall_time c)
    (account c) (gpu_mode c) (module_purge c) (dummy_day c)
    (_name c) (_start_date c) (_end_date c) (_run_start_date c)
    x (_runtime c) (_n_nodes c)
    (nml c) (disk_nml c) (files c).

Definition set_runtime (x : option timedelta) (c : case) : case :=
  mkcase (run_length c) (COSMO_exe c) (CESM_exe c) (wall_time c)
    (account c) (gpu_mode c) (module_purge c) (dummy_day c)
    (_name c) (_start_date c) (_end_date c) (_run_start_date c)
    (_run_end_date c) x (_n_nodes c)
    (nml c) (disk_nml c) (files c).

Definition set_n_nodes (x : option Z) (c : case) : case :=
  mkcase (run_length c) (COSMO_exe c) (CESM_exe c) (wall_time c)
    (account c) (gpu_mode c) (module_purge c) (dummy_day c)
    (_name c) (_start_date c) (_end_date c) (_run_start_date c)
    (_run_end_date c) (_runtime c) x
    (nml c) (disk_nml c) (files c).

Definition set_nml (x : gmap string (gmap string block)) (c : case) : case :=
  mkcase (run_length c) (COSMO_exe c) (CESM_exe c) (wall_time c)
    (account c) (gpu_mode c) (module_purge c) (dummy_day c)
    (_name c) (_start_date c) (_end_date c) (_run_start_date c)
    (_run_end_date c) (_runtime c) (_n_nodes c)
    x (disk_nml c) (files c).

Definition set_disk_nml (x : gmap string (gmap string block)) (c : case)
  : case :=
  mkcase (run_length c) (COSMO_exe c) (CESM_exe c) (wall_time c)
    (account c) (gpu_mode c) (module_purge c) (dummy_day c)
    (_name c) (_start_date c) (_end_date c) (_run_start_date c)
    (_run_end_date c) (_runtime c) (_n_nodes c)
    (nml c) x (files c).

Definition set_files (x : gmap string string) (c : case) : case :=
  mkcase (run_length c) (COSMO_exe c) (CESM_exe c) (wall_time c)
    (account c) (gpu_mode c) (module_purge c) (dummy_day c)
    (_name c) (_start_date c) (_end_date c) (_run_start_date c)
    (_run_end_date c) (_runtime c) (_n_nodes c)
    (nml c) (disk_nml c) x.

(** *** Methods as state transformers that may raise *)

Definition M (A : Type) : Type := case -> result A * case.

Definition ret {A} (a : A) : M A := fun c => (Ok a, c).
Definition raise {A} (e : exn) : M A := fun c => (Raise e, c).
Definition bind {A B} (m : M A) (f : A -> M B) : M B :=
  fun c =>
    match m c with
    | (Ok a, c') => f a c'
    | (Raise e, c') => (Raise e, c')
    end.
Definition lift {A} (r : result A) : M A := fun c => (r, c).
Definition get : M case := fun c => (Ok c, c).
Definition modify (f : case -> case) : M unit := fun c => (Ok tt, f c).

(** Reading an attribute; an unassigned one raises. *)
Definition attr {A} (name : string) (f : case -> option A) : M A :=
  fun c =>
    match f c with
    | Some a => (Ok a, c)
    | None => (Raise (AttributeError name), c)
    end.

End Case.
Import Case.

Declare Scope case_scope.
Delimit Scope case_scope with M.
Notation "'do' x <- r ; k" := (bind r (fun x => k))
(at level 10, x name, r at level 100, k at level 200) : case_scope.
Notation "r ;; k" := (bind r (fun _ => k))
(at level 100, k at level 200, right associativity) : case_scope.

(** ** The namelist cache [nmldict] *)

Module Store.
Local Open Scope case_scope.

(** [self.nml[key]]: a file is read from the case directory the first
    time it is asked for, and kept. *)
Definition nml_getitem (key : string) : M (gmap string block) :=
  fun c =>
    match nml c !! key with
    | Some f => (Ok f, c)
    | None =>
        match disk_nml c !! key with
        | Some f => (Ok f, set_nml (<[key := f]> (nml c)) c)
        | None => (Raise (IOError key), c)
        end
    end.

(** [self.nml[file][blk][par]]; [blk] and [par] are looked up as they are
    given, which is what f90nml does for names without capital letters
    ([stored_name]). *)
Definition nml_read (file blk par : string) : M value :=
  do f <- nml_getitem file;
  lift (do g <- get_group f blk; get_param g par)%res.

(** [self.nml[file][blk][par] = v] *)
Definition nml_assign (file blk par : string) (v : value) : M unit :=
  do f <- nml_getitem file;
  do g <- lift (get_group f blk);
  modify (fun c =>
    set_nml (<[file := <[blk := BGroup (<[par := v]> g)]> f]> (nml c)) c).

(** [self.nml[file][blk] = b] *)
Definition nml_assign_block (file blk : string) (b : block) : M unit :=
  do f <- nml_getitem file;
  modify (fun c => set_nml (<[file := <[blk := b]> f]> (nml c)) c).

(** [del self.nml[file][blk]] *)
Definition nml_del_block (file blk : string) : M unit :=
  do f <- nml_getitem file;
  match f !! blk with
  | None => raise (KeyError blk)
  | Some _ =>
      modify (fun c => set_nml (<[file := delete blk f]> (nml c)) c)
  end.

(** [write_all]: every file of the cache goes to the case directory.  The
    file holds the namelist object of the cache: which text f90nml writes
    and what it reads back from it is outside the model, as is a failure
    of the file system. *)
Definition write_all : M unit :=
  modify (fun c => set_disk_nml (nml c ∪ disk_nml c) c).

(** Text files of the case directory. *)
Definition read_file (name : string) : M string :=
  fun c =>
    match files c !! name with
    | Some t => (Ok t, c)
    | None => (Raise (IOError name), c)
    end.

Definition write_file (name text : string) : M unit :=
  modify (fun c => set_files (<[name := text]> (files c)) c).

End Store.
Import Store.

(** ** The methods of [case] *)

Module Methods.
Local Open Scope case_scope.
Local Open Scope string_scope.

Definition nl : string := String (ascii_of_nat 10) EmptyString.

Definition start_mismatch : exn :=
  ValueError "start dates are not identical in COSMO and CESM namelists".
Definition start_after_end : exn :=
  ValueError "run sart date is larger than case end date".
Definition length_mismatch : exn :=
  ValueError "run lengths are not identical in COSMO and CESM namelists".

(** [_compute_run_dates], the part that reads the two start dates. *)
Definition read_start_dates : M (datetime * datetime) :=
  do _ <- nml_getitem "INPUT_ORG";
  do _ <- nml_getitem "drv_in";
  do ydate_ini <- nml_read "INPUT_ORG" "runctl" "ydate_ini";
  do d0 <- lift (do s <- as_str ydate_ini; strptime_cosmo s)%res;
  do hstart <- nml_read "INPUT_ORG" "runctl" "hstart";
  do date_cosmo <- lift (do h <- as_num hstart;
                         do t <- timedelta_hours h;
                         dt_add d0 t)%res;
  do start_ymd <- nml_read "drv_in" "seq_timemgr_inparm" "start_ymd";
  do date_cesm <- lift (do s <- py_str start_ymd; strptime_cesm s)%res;
  ret (date_cosmo, date_cesm).

(** The branch of [_compute_run_dates] for a case with an end date. *)
Definition run_dates_bounded (run_start e : datetime) : M unit :=
  if dt_ltb e run_start then raise start_after_end
  else if dt_eqb run_start e then
    do t <- lift (timedelta_days 1);
    modify (set_runtime (Some t)) ;;
    do e' <- lift (dt_add e t);
    modify (set_run_end_date (Some e'))
  else
    do c <- get;
    do run_end <-
      match run_length c with
      | None => ret e
      | Some rl =>
          do d <- lift (add_time_from_str run_start rl);
          ret (dt_min d e)
      end;
    modify (set_run_end_date (Some run_end)) ;;
    modify (set_runtime (Some (dt_sub run_end run_start))).

(** The branch for an open-ended case.  [runtime_cosmo] is a float in the
    source; it is the integer computed here under [runtime_exact]. *)
Definition run_dates_open (run_start : datetime) : M unit :=
  do c <- get;
  do run_end <-
    match run_length c with
    | None =>
        do nstop <- nml_read "INPUT_ORG" "runctl" "nstop";
        do dt <- nml_read "INPUT_ORG" "runctl" "dt";
        do hstart <- nml_read "INPUT_ORG" "runctl" "hstart";
        do runtime_cosmo <- lift (do n <- as_num nstop;
                                  do d <- as_num dt;
                                  do h <- as_num hstart;
                                  Ok ((n + 1) * d - h * 3600))%res;
        do stop_n <- nml_read "drv_in" "seq_timemgr_inparm" "stop_n";
        match as_num stop_n with
        | Ok runtime_cesm =>
            if negb (runtime_cosmo =? runtime_cesm)%Z
            then raise length_mismatch
            else
              do t <- lift (timedelta_seconds runtime_cosmo);
              modify (set_runtime (Some t)) ;;
              lift (dt_add run_start t)
        | Raise _ => raise length_mismatch
        end
    | Some rl => lift (add_time_from_str run_start rl)
    end;
  modify (set_run_end_date (Some run_end)) ;;
  modify (set_end_date (Some run_end)).

Definition _compute_run_dates : M unit :=
  do dd <- read_start_dates;
  let '(date_cosmo, date_cesm) := dd in
  if negb (dt_eqb date_cosmo date_cesm) then raise start_mismatch
  else
    modify (set_run_start_date (Some date_cosmo)) ;;
    do c <- get;
    match _end_date c with
    | Some e => run_dates_bounded date_cosmo e
    | None => run_dates_open date_cosmo
    end.

(** [_get_gribouts] *)
Definition _get_gribouts : M (list (gmap string value)) :=
  do f <- nml_getitem "INPUT_IO";
  match f !! "gribout" with
  | None => ret []
  | Some (BGroup g) => ret [g]
  | Some (BList l) => ret l
  end.

(** The groups that [_get_gribouts] hands out are the objects of the
    cache: what a loop assigns to one of them shows in the namelist.
    [store_gribouts] puts the groups back in the shape they came in. *)
Definition store_gribouts (gs : list (gmap string value)) : M unit :=
  do f <- nml_getitem "INPUT_IO";
  match f !! "gribout", gs with
  | Some (BGroup _), g :: _ => nml_assign_block "INPUT_IO" "gribout" (BGroup g)
  | Some (BList _), _ => nml_assign_block "INPUT_IO" "gribout" (BList gs)
  | _, _ => ret tt
  end.

(** [for x in l: body(x)] where the body updates [x] in place and may
    raise: the elements before the failing one stay updated. *)
Fixpoint map_until {A} (f : A -> result A) (l : list A)
  : option exn * list A :=
  match l with
  | [] => (None, [])
  | x :: l' =>
      match f x with
      | Ok y => let '(e, r) := map_until f l' in (e, y :: r)
      | Raise e => (Some e, x :: l')
      end
  end.

Definition for_gribouts (body : gmap string value -> result (gmap string value))
  : M unit :=
  do gs <- _get_gribouts;
  let '(e, gs') := map_until body gs in
  store_gribouts gs' ;;
  match e with
  | None => ret tt
  | Some e => raise e
  end.

(** [gribout['hcomb'][2]] *)
Definition threshold (g : gmap string value) : result Z :=
  match g !! "hcomb" with
  | None => Raise (KeyError "hcomb")
  | Some (VScalar _) => Raise TypeError
  | Some (VList l) =>
      match l !! 2%nat with
      | None => Raise IndexError
      | Some x => scalar_num x
      end
  end.

(** The loop of [_check_gribout]. *)
Fixpoint keep_gribouts (runtime_hours : Z) (l : list (gmap string value))
  : result (list (gmap string value)) :=
  match l with
  | [] => Ok []
  | g :: l' =>
      (do t <- threshold g;
       do r <- keep_gribouts runtime_hours l';
       Ok (if (t <=? runtime_hours)%Z then g :: r else r))%res
  end.

Definition _check_gribout : M unit :=
  do rt <- attr "_runtime" _runtime;
  let runtime_hours := (total_seconds rt / 3600)%Z in
  do gribouts_in <- _get_gribouts;
  do gribouts_out <- lift (keep_gribouts runtime_hours gribouts_in);
  match gribouts_out with
  | _ :: _ =>
      nml_assign_block "INPUT_IO" "gribout" (BList gribouts_out) ;;
      nml_assign "INPUT_IO" "ioctl" "ngribout"
        (VInt (Z.of_nat (List.length gribouts_out)))
  | [] =>
      match gribouts_in with
      | _ :: _ => nml_del_block "INPUT_IO" "gribout"
      | [] => ret tt
      end
  end.

Definition write_open_nml : M unit := write_all.

(** Class-wide constant. *)
Definition n_tasks_per_node : Z := 12.

(** ['{:d}-{:d} ./{:s}\n'.format(a, b, exe)] *)
Definition proc_line (a b : Z) (exe : string) : string :=
  str_of_Z a ++ "-" ++ str_of_Z b ++ " ./" ++ exe ++ nl.

Definition _build_proc_config : M unit :=
  do nprocx <- nml_read "INPUT_ORG" "runctl" "nprocx";
  do nprocy <- nml_read "INPUT_ORG" "runctl" "nprocy";
  do n_cos <- lift (do x <- as_num nprocx; do y <- as_num nprocy;
                    Ok (x * y)%Z)%res;
  do lnd <- nml_read "drv_in" "ccsm_pes" "lnd_ntasks";
  do n_cesm <- lift (as_num lnd);
  let n_tot := (n_cos + n_cesm)%Z in
  modify (set_n_nodes (Some (n_tot / n_tasks_per_node)%Z)) ;;
  do c <- get;
  write_file "proc_config"
    (proc_line 0 (n_cos - 1) (COSMO_exe c)
     ++ proc_line n_cos (n_tot - 1) (CESM_exe c)).

End Methods.
Import Methods.

Module Chain.
Section WithRegex.
Context `{RegexLib}.
Local Open Scope case_scope.
Local Open Scope string_scope.

(** [gribout['hcomb'][0:2] = hstart, hstop] *)
Definition set_hcomb (hstart hstop : Z) (g : gmap string value)
  : result (gmap string value) :=
  match g !! "hcomb" with
  | None => Raise (KeyError "hcomb")
  | Some (VScalar _) => Raise TypeError
  | Some (VList l) =>
      Ok (<["hcomb" := VList (SInt hstart :: SInt hstop :: skipn 2 l)]> g)
  end.

(** The hours and seconds are floats in the source; they are the
    integers computed here under [schedule_exact]. *)
Definition _apply_run_dates : M unit :=
  do run_start <- attr "_run_start_date" _run_start_date;
  do start <- attr "_start_date" _start_date;
  let hstart := (total_seconds (dt_sub run_start start) / 3600)%Z in
  do rt <- attr "_runtime" _runtime;
  let runtime_seconds := total_seconds rt in
  let runtime_hours := (runtime_seconds / 3600)%Z in
  let hstop := (hstart + runtime_hours)%Z in
  do _ <- nml_getitem "INPUT_ORG";
  do _ <- nml_getitem "INPUT_IO";
  do _ <- nml_getitem "drv_in";
  do dt <- nml_read "INPUT_ORG" "runctl" "dt";
  do d <- lift (as_num dt);
  (if (d =? 0)%Z then raise ZeroDivisionError
   else nml_assign "INPUT_ORG" "runctl" "nstop"
          (VInt (hstop * 3600 / d - 1))) ;;
  for_gribouts (set_hcomb hstart hstop) ;;
  nml_assign "INPUT_IO" "ioctl" "nhour_restart"
    (VList [SInt hstop; SInt hstop; SInt 24]) ;;
  nml_assign "drv_in" "seq_timemgr_inparm" "stop_n" (VInt runtime_seconds) ;;
  nml_assign "drv_in" "seq_timemgr_inparm" "restart_n"
    (VInt runtime_seconds) ;;
  do content <- read_file "namcouple_tmpl";
  write_file "namcouple"
    (re_sub "_runtime_" (str_of_Z runtime_seconds) content false).

(** ['{:s}_{:s}-{:s}.out'.format(name, start, end)] *)
Definition logfile_name (c : case) (run_start run_end : datetime) : string :=
  _name c ++ "_" ++ strftime_cesm run_start ++ "-" ++ strftime_cesm run_end
  ++ ".out".

Definition _build_controller : M unit :=
  do run_start <- attr "_run_start_date" _run_start_date;
  do run_end <- attr "_run_end_date" _run_end_date;
  do n_nodes <- attr "_n_nodes" _n_nodes;
  do c <- get;
  let logfile := logfile_name c run_start run_end in
  write_file "controller"
    ("#!/bin/bash -l" ++ nl
     ++ "#SBATCH --constraint=gpu" ++ nl
     ++ "#SBATCH --job-name=" ++ _name c ++ nl
     ++ "#SBATCH --nodes=" ++ str_of_Z n_nodes ++ nl
     ++ "#SBATCH --output=" ++ logfile ++ nl
     ++ "#SBATCH --error=" ++ logfile ++ nl
     ++ "#SBATCH --account=" ++ account c ++ nl
     ++ "#SBATCH --time=" ++ wall_time c ++ nl
     ++ nl
     ++ (if module_purge c then
           "module purge" ++ nl
           ++ "module load PrgEnv-pgi" ++ nl
           ++ "module load cray-netcdf" ++ nl
         else
           "module switch PrgEnv-cray PrgEnv-pgi" ++ nl
           ++ "module load cray-netcdf" ++ nl)
     ++ "module list" ++ nl
     ++ nl
     ++ "export MALLOC_MMAP_MAX_=0" ++ nl
     ++ "export MALLOC_TRIM_THRESHOLD_=536870912" ++ nl
     ++ nl
     ++ "# Set this to avoid segmentation faults" ++ nl
     ++ "ulimit -s unlimited" ++ nl
     ++ "ulimit -a" ++ nl
     ++ nl
     ++ "export OMP_NUM_THREADS=1" ++ nl
     ++ (if gpu_mode c then
           nl
           ++ "# Use for gpu mode" ++ nl
           ++ "export MV2_ENABLE_AFFINITY=0" ++ nl
           ++ "export MV2_USE_CUDA=1" ++ nl
           ++ "MPICH_RDMA_ENABLED_CUDA=1" ++ nl
           ++ "export MPICH_G2G_PIPELINE=256" ++ nl
           ++ nl
         else EmptyString)
     ++ "cc2_control_case ./config.xml" ++ nl).

Definition _update_controller : M unit :=
  do run_start <- attr "_run_start_date" _run_start_date;
  do run_end <- attr "_run_end_date" _run_end_date;
  do c <- get;
  let logfile := logfile_name c run_start run_end in
  do content <- read_file "controller";
  let content :=
    re_sub "#SBATCH +--output=.*$" ("#SBATCH --output=" ++ logfile)
           content true in
  let content :=
    re_sub "#SBATCH +--error=.*$" ("#SBATCH --error=" ++ logfile)
           content true in
  write_file "controller" content.

(** [gribout['lwrite_const'] = False] *)
Definition clear_lwrite_const (g : gmap string value)
  : result (gmap string value) :=
  Ok (<["lwrite_const" := VBool false]> g).

(** The assignments of [set_next_run] to the namelists, up to
    [write_open_nml]. *)
Definition set_continuation : M unit :=
  do run_end <- attr "_run_end_date" _run_end_date;
  do start <- attr "_start_date" _start_date;
  let hstart := (total_seconds (dt_sub run_end start) / 3600)%Z in
  nml_assign "INPUT_ORG" "runctl" "hstart" (VInt hstart) ;;
  do ymd <- lift (py_int (chars (strftime_cesm run_end)));
  nml_assign "drv_in" "seq_timemgr_inparm" "start_ymd" (VInt ymd) ;;
  do dir <- nml_read "INPUT_IO" "ioctl" "ydir_restart_out";
  nml_assign "INPUT_IO" "gribin" "ydirini" dir ;;
  for_gribouts clear_lwrite_const ;;
  nml_assign "drv_in" "seq_infodata_inparm" "start_type" (VStr "continue").

Definition set_next_run : M bool :=
  do run_start <- attr "_run_start_date" _run_start_date;
  do c <- get;
  match _end_date c with
  | None => raise TypeError
  | Some e =>
      if dt_leb e run_start then ret false
      else
        set_continuation ;;
        write_open_nml ;;
        _compute_run_dates ;;
        _update_controller ;;
        do run_start <- attr "_run_start_date" _run_start_date;
        do c <- get;
        match _end_date c with
        | None => ret true
        | Some e => ret (negb (dt_eqb run_start e && negb (dummy_day c)))
        end
  end.

End WithRegex.
End Chain.
Import Chain.

(** ** Construction of a case *)

Module Setup.
Section WithRegex.
Context `{RegexLib}.
Local Open Scope case_scope.
Local Open Scope string_scope.

(** [strptime(s, '%Y-%m-%d-%H')] on the fixed-width text
    [YYYY-MM-DD-HH]. *)
Definition strptime_in (s : string) : result datetime :=
  let l := chars s in
  let dash (i : nat) :=
    match l !! i with Some c => Ascii.eqb c "-" | None => false end in
  if Nat.eqb (List.length l) 13 && dash 4%nat && dash 7%nat && dash 10%nat
  then
    strptime_cosmo
      (str (slice l 0 4 ++ slice l 5 7 ++ slice l 8 10 ++ slice l 11 13))
  else Raise (ValueError "time data does not match format").

Definition name_setter (name : string) : M unit :=
  modify (set_name name) ;;
  nml_assign "drv_in" "seq_infodata_inparm" "case_name" (VStr name).

Definition start_date_setter (start_date : option string) : M unit :=
  match start_date with
  | Some s =>
      do d <- lift (strptime_in s);
      modify (set_start_date (Some d)) ;;
      nml_assign "INPUT_ORG" "runctl" "ydate_ini" (VStr (strftime_cosmo d))
  | None =>
      do f <- nml_getitem "INPUT_ORG";
      do g <- lift (get_group f "runctl");
      match g !! "ydate_ini" with
      | Some v =>
          do d <- lift (do s <- as_str v; strptime_cosmo s)%res;
          modify (set_start_date (Some d))
      | None =>
          raise (ValueError
            "ydate_ini has to be given in INPUT_ORG/runctl if no start_date is provided")
      end
  end.

Definition end_date_setter (end_date : option string) : M unit :=
  match end_date with
  | Some s =>
      do d <- lift (strptime_in s);
      modify (set_end_date (Some d)) ;;
      nml_assign "INPUT_ORG" "runctl" "ydate_end" (VStr (strftime_cosmo d))
  | None =>
      do f <- nml_getitem "INPUT_ORG";
      do g <- lift (get_group f "runctl");
      match g !! "ydate_end" with
      | Some v =>
          do d <- lift (do s <- as_str v; strptime_cosmo s)%res;
          modify (set_end_date (Some d))
      | None => modify (set_end_date None)
      end
  end.

(** The setters of [ncosx], [ncosy] and [ncesm]; the private copies
    [_ncosx], [_ncosy], [_ncesm] are never read and are not kept. *)
Definition nproc_setter (par : string) (n : option Z) : M unit :=
  match n with
  | Some n => nml_assign "INPUT_ORG" "runctl" par (VInt n)
  | None => ret tt
  end.

Definition components : list string :=
  ["atm"; "cpl"; "glc"; "ice"; "lnd"; "ocn"; "rof"; "wav"].

Fixpoint assign_ntasks (comps : list string) (n : Z) : M unit :=
  match comps with
  | [] => ret tt
  | comp :: rest =>
      nml_assign "drv_in" "ccsm_pes" (comp ++ "_ntasks") (VInt n) ;;
      assign_ntasks rest n
  end.

Definition ncesm_setter (n : option Z) : M unit :=
  match n with
  | Some n => assign_ntasks components n
  | None => ret tt
  end.

(** The object before [__init__] has assigned the computed attributes:
    the keyword arguments that are stored as they come, an empty cache,
    and the case directory. *)
Definition blank_case (run_length : option string)
    (COSMO_exe CESM_exe wall_time account : string)
    (gpu_mode module_purge dummy_day : bool)
    (disk : gmap string (gmap string block)) (texts : gmap string string)
  : case :=
  mkcase run_length COSMO_exe CESM_exe wall_time account
    gpu_mode module_purge dummy_day
    EmptyString None None None None None None ∅ disk texts.

(** [__init__] from the assignment of [name] on.  Its last two calls,
    [_create_missing_dirs] and [to_xml], make directories and write the
    XML descriptor; neither is part of [case] and they are left out. *)
Definition case_init (name : string) (start_date end_date : option string)
    (ncosx ncosy ncesm : option Z) : M unit :=
  name_setter name ;;
  start_date_setter start_date ;;
  end_date_setter end_date ;;
  _compute_run_dates ;;
  _apply_run_dates ;;
  _check_gribout ;;
  nproc_setter "nprocx" ncosx ;;
  nproc_setter "nprocy" ncosy ;;
  ncesm_setter ncesm ;;
  write_open_nml ;;
  _build_proc_config ;;
  _build_controller.

End WithRegex.
End Setup.
Import Setup.

(** ** Vocabulary of the statements *)

Module Spec.

(** The characters an integer literal is made of. *)
Definition int_char (c : ascii) : bool :=
  is_space c || is_digit c || Ascii.eqb c "+" || Ascii.eqb c "-".

(** A character that neither loop of [add_time_from_str] reacts to. *)
Definition no_ym (c : ascii) : bool :=
  negb (Ascii.eqb c "y") && negb (Ascii.eqb c "m").

(** [ky] points at a letter [y] that was read before position [k]. *)
Definition y_before (s : list ascii) (k : nat) (st : ymscan) : Prop :=
  (ky st < k)%nat /\ s !! ky st = Some "y"%char.

Definition unit_letter (by_year : bool) : string :=
  if by_year then "y"%string else "m"%string.

(** The namelist file [name] as the case sees it: the cached copy, else the
    one in the case directory. *)
Definition file_of (c : case) (name : string) : option (gmap string block) :=
  match nml c !! name with
  | Some f => Some f
  | None => disk_nml c !! name
  end.

(** The case once [name] has been asked for. *)
Definition cache_in (name : string) (c : case) : case :=
  match nml c !! name, disk_nml c !! name with
  | None, Some f => set_nml (<[name := f]> (nml c)) c
  | _, _ => c
  end.

(** The case with [f] as cached content of the file [name]. *)
Definition put_file (name : string) (f : gmap string block) (c : case) : case :=
  set_nml (<[name := f]> (nml c)) c.

(** A method keeps [P] when [P] holds after it whenever it held before,
    whether the method returns or raises. *)
Definition keeps (P : case -> Prop) {A} (m : M A) : Prop :=
  forall c, P c -> P (snd (m c)).

(** [c] differs from [c0] in the namelist cache at most. *)
Definition attrs_eq (c0 c : case) : Prop := exists m, c = set_nml m c0.

Definition store_is (m d : gmap string (gmap string block)) (c : case) : Prop :=
  nml c = m /\ disk_nml c = d.

(** The output blocks of an INPUT_IO file. *)
Definition gribouts_of (io : gmap string block) : list (gmap string value) :=
  match io !! "gribout"%string with
  | None => []
  | Some (BGroup g) => [g]
  | Some (BList l) => l
  end.

(** The block's threshold is at most the run time in hours. *)
Definition reaches (runtime_hours : Z) (g : gmap string value) : bool :=
  match threshold g with
  | Ok t => t <=? runtime_hours
  | Raise _ => false
  end.

(** The INPUT_IO file with [f] applied to each of its output blocks. *)
Definition relabel_gribouts (f : gmap string value -> gmap string value)
    (io : gmap string block) : gmap string block :=
  match io !! "gribout"%string with
  | None => io
  | Some (BGroup g) => <["gribout"%string := BGroup (f g)]> io
  | Some (BList l) => <["gribout"%string := BList (map f l)]> io
  end.

(** The outcome of [_check_gribout] on a case whose run time is [rt] and
    whose INPUT_IO file is [io], spelled out on the file. *)
Definition check_gribout_result (c : case) (rt : timedelta)
    (io : gmap string block) : result unit * case :=
  match keep_gribouts (total_seconds rt / 3600) (gribouts_of io) with
  | Raise e => (Raise e, cache_in "INPUT_IO" c)
  | Ok [] =>
      match gribouts_of io with
      | [] => (Ok tt, cache_in "INPUT_IO" c)
      | _ :: _ => (Ok tt, put_file "INPUT_IO" (delete "gribout"%string io) c)
      end
  | Ok (g :: r) =>
      let io1 := <["gribout"%string := BList (g :: r)]> io in
      match io !! "ioctl"%string with
      | Some (BGroup ctl) =>
          (Ok tt,
           put_file "INPUT_IO"
             (<["ioctl"%string :=
                  BGroup (<["ngribout"%string :=
                              VInt (Z.of_nat (List.length (g :: r)))]> ctl)]> io1) c)
      | Some (BList _) => (Raise TypeError, put_file "INPUT_IO" io1 c)
      | None => (Raise (KeyError "ioctl"), put_file "INPUT_IO" io1 c)
      end
  end.

End Spec.
Import Spec.

(** ** A two-day case *)

Module Example.
Local Open Scope string_scope.

(** A substitution that finds no match in any text. *)
Definition never_matches : RegexLib :=
  {| re_sub := fun _ _ text _ => text |}.

Definition date (y m d : Z) : datetime := mkdt y m d 0 0 0.

Definition runctl0 : gmap string value :=
  list_to_map
    [("ydate_ini", VStr "2020010100"); ("hstart", VInt 0);
     ("nstop", VInt 959); ("dt", VInt 90);
     ("nprocx", VInt 4); ("nprocy", VInt 3)].

Definition INPUT_ORG0 : gmap string block := {[ "runctl" := BGroup runctl0 ]}.

Definition block_1h : gmap string value :=
  {[ "hcomb" := VList [SInt 0; SInt 24; SInt 1] ]}.

Definition block_48h : gmap string value :=
  list_to_map [("hcomb", VList [SInt 0; SInt 24; SInt 48]);
               ("lwrite_const", VBool true)].

Definition gribin0 : gmap string value := {[ "ydirini" := VStr "COSMO_input" ]}.

Definition ioctl0 : gmap string value :=
  list_to_map [("ydir_restart_out", VStr "COSMO_output/restart");
               ("ngribout", VInt 2)].

Definition INPUT_IO0 : gmap string block :=
  list_to_map [("gribin", BGroup gribin0); ("ioctl", BGroup ioctl0);
               ("gribout", BList [block_1h; block_48h])].

Definition timemgr0 : gmap string value :=
  list_to_map [("start_ymd", VInt 20200101); ("stop_n", VInt 86400)].

Definition infodata0 : gmap string value :=
  list_to_map [("case_name", VStr "x"); ("start_type", VStr "startup")].

Definition pes0 : gmap string value := {[ "lnd_ntasks" := VInt 12 ]}.

Definition drv_in0 : gmap string block :=
  list_to_map [("seq_timemgr_inparm", BGroup timemgr0);
               ("seq_infodata_inparm", BGroup infodata0);
               ("ccsm_pes", BGroup pes0)].

Definition disk0 : gmap string (gmap string block) :=
  list_to_map [("INPUT_ORG", INPUT_ORG0); ("INPUT_IO", INPUT_IO0);
               ("drv_in", drv_in0)].

(** The object handed to [__init__]: run length ['1d']. *)
Definition fresh (dummy : bool) : case :=
  blank_case (Some "1d") "cosmo" "cesm.exe" "24:00:00" "acc"
    false false dummy disk0 {[ "namcouple_tmpl" := "x _runtime_ y" ]}.

Section WithRegex.
Context `{RegexLib}.

(** [case(name='CC2', start_date='2020-01-01-00', end_date='2020-01-03-00',
    run_length='1d', dummy_day=dummy)] *)
Definition build (dummy : bool) : result unit * case :=
  case_init "CC2" (Some "2020-01-01-00") (Some "2020-01-03-00")
    None None None (fresh dummy).

Definition built (dummy : bool) : case := snd (build dummy).

(** The case after one more call of [set_next_run], and what the call
    returns. *)
Definition advance (c : case) : case := snd (set_next_run c).
Definition answer (c : case) : result bool := fst (set_next_run c).

End WithRegex.

Definition chunk (c : case) : option datetime * option datetime :=
  (_run_start_date c, _run_end_date c).

(** A case on its first day, all three namelist files in the cache. *)
Definition loaded : case :=
  mkcase (Some "1d") "cosmo" "cesm.exe" "24:00:00" "acc" false false false
    "CC2" (Some (date 2020 1 1)) (Some (date 2020 1 3))
    (Some (date 2020 1 1)) (Some (date 2020 1 2)) (Some (mktd 1 0)) (Some 2)
    disk0 disk0 {[ "controller" := "#SBATCH --output=old.out" ]}.

(** The same case with the atmosphere start one hour late. *)
Definition runctl_late : gmap string value := <["hstart" := VInt 1]> runctl0.
Definition skewed : case :=
  put_file "INPUT_ORG" {[ "runctl" := BGroup runctl_late ]} loaded.

(** The same case with both namelists at the end date. *)
Definition last_day : case :=
  put_file "drv_in"
    (<["seq_timemgr_inparm" := BGroup (<["start_ymd" := VInt 20200103]> timemgr0)]>
       drv_in0)
    (put_file "INPUT_ORG"
       {[ "runctl" := BGroup (<["hstart" := VInt 48]> runctl0) ]} loaded).

(** The same case after its last chunk was computed. *)
Definition finished : case := set_run_start_date (Some (date 2020 1 3)) loaded.

End Example.
Import Example.

(** ** Vocabulary of the further statements *)

Module SpecMore.

(** A character that neither loop of [add_time_from_str] reacts to, the
    loop over the day form included. *)
Definition no_unit (c : ascii) : bool :=
  negb (Ascii.eqb c "y") && negb (Ascii.eqb c "m") && negb (Ascii.eqb c "d").

(** A property of the attributes: the namelists and files do not enter. *)
Definition store_blind (P : case -> Prop) : Prop :=
  forall c, P c ->
    (forall m, P (set_nml m c)) /\
    (forall d, P (set_disk_nml d c)) /\
    (forall f, P (set_files f c)).

(** The run start has been assigned and is a midnight. *)
Definition starts_at_midnight (c : case) : Prop :=
  exists rs, _run_start_date c = Some rs /\
             hour rs = 0 /\ minute rs = 0 /\ second rs = 0.

(** The block with its window of hours set, as [_apply_run_dates] does. *)
Definition with_window (hstart hstop : Z) (g : gmap string value)
  : gmap string value :=
  match g !! "hcomb"%string with
  | Some (VList l) =>
      <["hcomb"%string := VList (SInt hstart :: SInt hstop :: skipn 2 l)]> g
  | _ => g
  end.

Definition has_hcomb_list (g : gmap string value) : Prop :=
  exists l, g !! "hcomb"%string = Some (VList l).

(** What [set_next_run] leaves alone once the new run start is assigned. *)
Definition chain_attrs (rs : option datetime) (c0 c : case) : Prop :=
  _run_start_date c = rs /\ _start_date c = _start_date c0 /\
  _end_date c = _end_date c0 /\ dummy_day c = dummy_day c0 /\
  disk_nml c = disk_nml c0.

(** Every namelist of the cache has a file of its name in the case
    directory. *)
Definition all_on_disk (c : case) : Prop :=
  forall name, is_Some (nml c !! name) -> is_Some (disk_nml c !! name).

(** A name of a group or parameter as f90nml keeps it.  The library lowers
    a name when it stores it and when it looks it up, so that ['HSTART']
    and ['hstart'] are one entry: names tell entries apart only when they
    are written without capital letters. *)
Definition stored_char (a : ascii) : bool :=
  let n := N_of_ascii a in
  ((n <? 128) && negb ((65 <=? n) && (n <=? 90)))%N.

Definition stored_name (s : string) : bool :=
  forallb stored_char (list_ascii_of_string s).

(** A whole number that a Python float holds exactly. *)
Definition float_exact (z : Z) : Prop := Z.abs z <= 2 ^ 53.

(** [(nstop + 1) * dt - hstart * 3600.0] of [_compute_run_dates] is the
    number the integers give when the operands, both products and the
    difference are exact as floats. *)
Definition runtime_exact (nstop dt hstart : Z) : Prop :=
  float_exact (nstop + 1) /\ float_exact dt /\
  float_exact ((nstop + 1) * dt) /\
  float_exact hstart /\ float_exact (hstart * 3600) /\
  float_exact ((nstop + 1) * dt - hstart * 3600).

(** The floats of [_apply_run_dates]: the seconds since the case start,
    the seconds of the run time, the time step and [hstop * 3600.0]. *)
Definition schedule_exact (since runtime dt : Z) : Prop :=
  float_exact since /\ float_exact runtime /\ float_exact dt /\
  float_exact ((since / 3600 + runtime / 3600) * 3600).

(** [text.replace(pat, repl)] for a [pat] that is not empty: the
    occurrences of [pat] are replaced from the left, none overlapping
    another.  [skip] characters of an occurrence are still to be passed. *)
Fixpoint replace_from (pat repl : string) (skip : nat) (text : string)
  : string :=
  match text with
  | EmptyString => EmptyString
  | String a rest =>
      match skip with
      | S k => replace_from pat repl k rest
      | O =>
          if String.prefix pat text
          then (repl ++ replace_from pat repl (String.length pat - 1) rest)%string
          else String a (replace_from pat repl 0 rest)
      end
  end.

Definition str_replace (pat repl text : string) : string :=
  replace_from pat repl 0 text.

(** A pattern in which no character is special to [re]: letters, digits
    and underscores, at least one. *)
Definition word_char (a : ascii) : bool :=
  let n := N_of_ascii a in
  (((48 <=? n) && (n <=? 57)) || ((65 <=? n) && (n <=? 90))
   || ((97 <=? n) && (n <=? 122)) || (n =? 95))%N.

Definition plain_pattern (pat : string) : bool :=
  match pat with
  | EmptyString => false
  | _ => forallb word_char (list_ascii_of_string pat)
  end.

(** A replacement that [re.sub] puts in as it is: no backslash. *)
Definition plain_repl (repl : string) : bool :=
  forallb (fun a => negb (N_of_ascii a =? 92)%N) (list_ascii_of_string repl).

(** The dates and the name of a case. *)
Definition same_run (c0 c : case) : Prop :=
  _name c = _name c0 /\ _start_date c = _start_date c0 /\
  _end_date c = _end_date c0 /\ _run_start_date c = _run_start_date c0 /\
  _run_end_date c = _run_end_date c0 /\ _runtime c = _runtime c0.

(** The task counts of the coupler components, all set to [n]. *)
Definition with_ntasks (n : Z) (comps : list string) (pes : gmap string value)
  : gmap string value :=
  fold_left (fun g comp => <[(comp ++ "_ntasks")%string := VInt n]> g) comps pes.

(** The month and the day of [_ord2ymd], from the day of the year [n]
    (counted from 0) and whether the year is a leap year. *)
Definition month_day (leapyear : bool) (n : Z) : Z * Z :=
  let m := Z.shiftr (n + 50) 5 in
  let preceding :=
    DAYS_BEFORE_MONTH m + (if (2 <? m) && leapyear then 1 else 0) in
  if n <? preceding then
    let m' := m - 1 in
    let preceding' :=
      preceding
      - (DAYS_IN_MONTH m' + (if (m' =? 2) && leapyear then 1 else 0)) in
    (m', n - preceding' + 1)
  else (m, n - preceding + 1).

End SpecMore.
Import SpecMore.

(** ** More cases to run the statements on *)

Module Cases.
Local Open Scope string_scope.

(** The case of [loaded] with an end date before its start. *)
Definition overdue : case := set_end_date (Some (date 2019 12 31)) loaded.

(** A case without end date, with and without a run length, before its
    run dates are computed. *)
Definition open_case (run_length : option string) : case :=
  mkcase run_length "cosmo" "cesm.exe" "24:00:00" "acc" false false false
    "CC2" (Some (date 2020 1 1)) None None None None None
    disk0 disk0 ∅.

(** [loaded] with the template of the coupler file in its directory. *)
Definition ready : case :=
  set_files {[ "namcouple_tmpl" := "x _runtime_ y" ]} loaded.

(** The same with a time step of zero. *)
Definition runctl_still : gmap string value := <["dt" := VInt 0]> runctl0.
Definition stalled : case :=
  put_file "INPUT_ORG" {[ "runctl" := BGroup runctl_still ]} ready.

(** [loaded] with a first chunk that ends at noon. *)
Definition midday : case :=
  set_run_end_date (Some (mkdt 2020 1 2 12 0 0)) loaded.

(** A regular-expression library to run the coupler file on: a plain
    pattern is replaced wherever it stands, as [re.sub] does; a pattern
    with special characters matches nothing. *)
Definition plain_patterns : RegexLib :=
  {| re_sub := fun pat repl text _ =>
       if plain_pattern pat && plain_repl repl
       then str_replace pat repl text else text |}.

End Cases.
Import Cases.

(** ** The transfer of the atmosphere input *)

Module Transfer.
Local Open Scope string_scope.

(** [check_input]: the directory [src_dir] is the set of its file names,
    [file_list] the lines written so far.  In the branch for a missing
    file of the dummy day the assignment [dummy_date.hour = date.hour]
    comes before the copy, and the fields of a [datetime] cannot be
    assigned. *)
Definition missing_input (file_name : string) : exn :=
  ValueError ("input file " ++ file_name ++ " is missing").

Definition check_input (src : gset string) (root : string) (date : datetime)
    (dummy : bool) (file_list : list string) : result (list string) :=
  let file_name := root ++ strftime_cosmo date in
  if decide (file_name ∈ src) then Ok (file_list ++ [file_name])%list
  else if dummy then Raise (AttributeError "hour")
  else Raise (missing_input file_name).

(** [while cur_date <= stop: check_input('lbfd', cur_date, ...);
    cur_date += delta], with [fuel] rounds at most; [stop] is evaluated in
    every round and may raise.  [None]: the rounds did not suffice. *)
Fixpoint check_while (fuel : nat) (src : gset string) (dummy : bool)
    (stop : result datetime) (delta : timedelta) (cur_date : datetime)
    (file_list : list string) : option (result (datetime * list string)) :=
  match fuel with
  | O => None
  | S fuel' =>
      match stop with
      | Raise e => Some (Raise e)
      | Ok b =>
          if dt_leb cur_date b then
            match check_input src "lbfd" cur_date dummy file_list with
            | Raise e => Some (Raise e)
            | Ok file_list' =>
                match dt_add cur_date delta with
                | Raise e => Some (Raise e)
                | Ok cur_date' =>
                    check_while fuel' src dummy stop delta cur_date' file_list'
                end
            end
          else Some (Ok (cur_date, file_list))
      end
  end.

(** [transfer_COSMO_input] up to the list handed to [rsync]: the result
    is the content of [transfer_list].  The dates come from the command
    line and may be [None]; [dh] is the number of hours [hincbound], a
    whole number (an integer, or a float with zero fraction): steps of a
    fraction of an hour are not covered. *)
Definition transfer_COSMO_input (fuel : nat) (src : gset string)
    (start_date end_date : option string) (dh : Z)
  : option (result (list string)) :=
  match start_date, end_date with
  | None, _ => Some (Raise TypeError)
  | Some s1, e =>
      match strptime_in s1 with
      | Raise x => Some (Raise x)
      | Ok d1 =>
          match e with
          | None => Some (Raise TypeError)
          | Some s2 =>
              match strptime_in s2 with
              | Raise x => Some (Raise x)
              | Ok d2 =>
                  match timedelta_seconds (dh * 3600) with
                  | Raise x => Some (Raise x)
                  | Ok delta =>
                      match check_input src "laf" d1 false [] with
                      | Raise x => Some (Raise x)
                      | Ok l0 =>
                          match check_while fuel src false (Ok d2) delta d1 l0 with
                          | None => None
                          | Some (Raise x) => Some (Raise x)
                          | Some (Ok (cur, l1)) =>
                              match check_while fuel src true
                                      (do t <- timedelta_days 1; dt_add d2 t)%res
                                      delta cur l1 with
                              | None => None
                              | Some (Raise x) => Some (Raise x)
                              | Some (Ok (_, l2)) => Some (Ok l2)
                              end
                          end
                      end
                  end
              end
          end
      end
  end.

End Transfer.
Import Transfer.

(** ** Vocabulary of the statements on the transfer *)

Module Rounds.

(** The dates [ds] are the rounds of a loop that starts at [cur] and goes
    on by [delta]; [next] is the date after the last of them. *)
Fixpoint follows (delta : timedelta) (cur : datetime) (ds : list datetime)
    (next : datetime) : Prop :=
  match ds with
  | [] => next = cur
  | d :: ds' =>
      d = cur /\ exists c', dt_add cur delta = Ok c' /\ follows delta c' ds' next
  end.

(** The boundary file of a date. *)
Definition lbfd (d : datetime) : string := ("lbfd" ++ strftime_cosmo d)%string.

(** The seconds from the first midnight of the calendar to a date. *)
Definition stamp_of (d : datetime) : Z := toordinal d * 86400 + secs_of_day d.

End Rounds.
Import Rounds.

(** ** Input directories to run the transfer on *)

Module Inputs.
Local Open Scope string_scope.

(** Twelve hours of 2020-01-01 in steps of six, and the day after. *)
Definition period : list datetime :=
  [mkdt 2020 1 1 0 0 0; mkdt 2020 1 1 6 0 0; mkdt 2020 1 1 12 0 0].
Definition day_after : list datetime :=
  [mkdt 2020 1 1 18 0 0; mkdt 2020 1 2 0 0 0; mkdt 2020 1 2 6 0 0;
   mkdt 2020 1 2 12 0 0].

Definition src_period : gset string :=
  list_to_set ("laf2020010100" :: map lbfd period).
Definition src_full : gset string :=
  list_to_set ("laf2020010100" :: map lbfd (period ++ day_after)).
Definition src_gap : gset string :=
  list_to_set ["laf2020010100"; "lbfd2020010100"].

End Inputs.
Import Inputs.

(** ** Options: command line, setup file, defaults *)

Module Options.
Local Open Scope string_scope.

(** The values an option takes. *)
Inductive pyval :=
| PNone
| PStr (s : string)
| PInt (z : Z)
| PBool (b : bool).

(** A child of the [cmd_line] element of the setup file: its tag, its
    text ([None] for an empty element) and its attribute [type]. *)
Record element := mkel {
  tag : string; text : option string; typ : option string
}.

(** [xml_node.find(opt)]: the first child with that tag. *)
Definition find (node : list element) (opt : string) : option element :=
  List.find (fun e => String.eqb (tag e) opt) node.

(** [eval(s)] for the text of a [type] attribute: it raises, or gives an
    object that is no type ([None]), or a type, which is then called on
    the text of the element. *)
Class PyEval := {
  eval_type : string -> result (option (string -> result pyval))
}.

(** [bool(s)] for a string. *)
Definition to_bool (s : string) : result pyval :=
  Ok (PBool (negb (String.eqb s EmptyString))).

Definition bad_type (opt : string) : exn :=
  ValueError ("xml atribute 'type' for option " ++ opt
              ++ " is not a valid python type").

Section WithEval.
Context `{PyEval}.

(** One round of the loop of [apply_defaults]; [opts] maps the
    attributes of the namespace to their values. *)
Definition apply_default (xml_node : option (list element))
    (opts : gmap string pyval) (opt : string) (default : pyval)
  : result (gmap string pyval) :=
  match opts !! opt with
  | None => Raise (AttributeError opt)
  | Some PNone =>
      match xml_node with
      | None => Ok (<[opt := default]> opts)
      | Some node =>
          match find node opt with
          | None => Ok (<[opt := default]> opts)
          | Some xml_opt =>
              match text xml_opt with
              | None => Ok (<[opt := default]> opts)
              | Some opt_val =>
                  match typ xml_opt with
                  | None => Ok (<[opt := PStr opt_val]> opts)
                  | Some ty =>
                      (do opt_type <- eval_type ty;
                       match opt_type with
                       | Some conv =>
                           do v <- conv opt_val; Ok (<[opt := v]> opts)
                       | None => Raise (bad_type opt)
                       end)%res
                  end
              end
          end
      end
  | Some _ => Ok opts
  end.

(** [apply_defaults]: [defaults] in the order of the dictionary. *)
Fixpoint apply_defaults (opts : gmap string pyval)
    (xml_node : option (list element)) (defaults : list (string * pyval))
  : result (gmap string pyval) :=
  match defaults with
  | [] => Ok opts
  | (opt, default) :: rest =>
      (do opts' <- apply_default xml_node opts opt default;
       apply_defaults opts' xml_node rest)%res
  end.

(** What the setup file and the default give for an option that the
    command line left out. *)
Definition setup_value (xml_node : option (list element)) (opt : string)
    (default : pyval) : result pyval :=
  match xml_node with
  | None => Ok default
  | Some node =>
      match find node opt with
      | None => Ok default
      | Some xml_opt =>
          match text xml_opt, typ xml_opt with
          | None, _ => Ok default
          | Some opt_val, None => Ok (PStr opt_val)
          | Some opt_val, Some ty =>
              (do opt_type <- eval_type ty;
               match opt_type with
               | Some conv => conv opt_val
               | None => Raise (bad_type opt)
               end)%res
          end
      end
  end.

End WithEval.

(** An evaluator that knows [bool], [int] and [str] and takes every other
    text for something that is no type. *)
Definition three_types : PyEval :=
  {| eval_type := fun s =>
       if String.eqb s "bool" then Ok (Some to_bool)
       else if String.eqb s "int" then
         Ok (Some (fun t => do n <- py_int (chars t); Ok (PInt n))%res)
       else if String.eqb s "str" then Ok (Some (fun t => Ok (PStr t)))
       else Ok None |}.

(** A command line that names the case only, a setup file, and some of
    the defaults of [create_new_case]. *)
Definition opts0 : gmap string pyval :=
  list_to_map [("name", PStr "alps"); ("ncosx", PNone);
               ("dummy_day", PNone); ("wall_time", PNone);
               ("submit", PBool true)].
Definition cmd_line0 : list element :=
  [mkel "name" (Some "jura") None; mkel "ncosx" (Some "4") (Some "int");
   mkel "dummy_day" (Some "False") (Some "bool")].
Definition defaults0 : list (string * pyval) :=
  [("name", PStr "COSMO_CLM2"); ("ncosx", PNone);
   ("wall_time", PStr "24:00:00"); ("dummy_day", PBool true)].


(** The namespace that [apply_defaults] leaves for them. *)
Definition opts1 : gmap string pyval :=
  list_to_map [("name", PStr "alps"); ("ncosx", PInt 4);
               ("dummy_day", PBool true); ("wall_time", PStr "24:00:00");
               ("submit", PBool true)].

End Options.
Import Options.



(** * Facts *)

(** ** Integer literals *)

Section IntLiterals.

Lemma py_int_cases l :
  (exists n, py_int l = Ok n) \/ py_int l = Raise invalid_literal.
Proof.
  unfold py_int.
  destruct (match strip l with
            | "-"%char :: r => (-1, r)
            | "+"%char :: r => (1, r)
            | _ => (1, strip l)
            end) as [sgn body].
  destruct body; [now right|].
  destruct (digits_val 0 (a :: body)); [left; eauto | now right].
Qed.

Lemma lstrip_snoc a c :
  is_space c = false -> lstrip (a ++ [c]) = lstrip a ++ [c].
Proof.
  intros Hc. induction a as [|x a IH]; simpl.
  - now rewrite Hc.
  - destruct (is_space x); [exact IH | reflexivity].
Qed.

Lemma strip_cons c l :
  is_space c = false -> strip (c :: l) = c :: rev (lstrip (rev l)).
Proof.
  intros Hc. unfold strip. simpl lstrip at 2. rewrite Hc.
  simpl rev at 2. rewrite lstrip_snoc by exact Hc.
  rewrite rev_app_distr. reflexivity.
Qed.

(** No text that starts with the letter [y] is an integer. *)
Lemma py_int_y l : py_int ("y"%char :: l) = Raise invalid_literal.
Proof. unfold py_int. rewrite strip_cons by reflexivity. reflexivity. Qed.

Lemma lstrip_split l :
  exists a, l = a ++ lstrip l /\ forallb is_space a = true.
Proof.
  induction l as [|x l [a [E Ha]]]; simpl.
  - exists []. split; reflexivity.
  - destruct (is_space x) eqn:Hx.
    + exists (x :: a). simpl. rewrite Hx, Ha. split; [congruence | reflexivity].
    + exists []. split; reflexivity.
Qed.

Lemma forallb_rev {A} (p : A -> bool) l : forallb p (rev l) = forallb p l.
Proof.
  induction l as [|x l IH]; simpl; [reflexivity|].
  rewrite forallb_app, IH. simpl. rewrite andb_true_r. apply andb_comm.
Qed.

Lemma strip_split l :
  exists a b, l = a ++ strip l ++ b /\
              forallb is_space a = true /\ forallb is_space b = true.
Proof.
  destruct (lstrip_split l) as [a [Ea Ha]].
  destruct (lstrip_split (rev (lstrip l))) as [b [Eb Hb]].
  exists a, (rev b). unfold strip. split; [|split; [exact Ha|]].
  - rewrite <- rev_app_distr, <- Eb, rev_involutive. exact Ea.
  - now rewrite forallb_rev.
Qed.

Lemma digits_val_digits l :
  forall acc v, digits_val acc l = Some v -> forallb is_digit l = true.
Proof.
  induction l as [|x l IH]; simpl; intros acc v Hv; [reflexivity|].
  destruct (is_digit x); [|discriminate]. simpl. eapply IH, Hv.
Qed.

Lemma forallb_weaken {A} (p q : A -> bool) l :
  (forall x, p x = true -> q x = true) ->
  forallb p l = true -> forallb q l = true.
Proof.
  intros Hpq. induction l as [|x l IH]; simpl; [easy|].
  intros [Hx Hl]%andb_true_iff. rewrite (Hpq _ Hx), (IH Hl). reflexivity.
Qed.

Lemma digits_body_chars sgn body n :
  match body with
  | [] => Raise invalid_literal
  | _ :: _ =>
      match digits_val 0 body with
      | Some v => Ok (sgn * v)
      | None => Raise invalid_literal
      end
  end = Ok n ->
  forallb int_char body = true.
Proof.
  intros Hb. destruct body as [|x body]; [reflexivity|].
  destruct (digits_val 0 (x :: body)) eqn:Hv; [|discriminate].
  apply digits_val_digits in Hv. revert Hv. apply forallb_weaken.
  intros y Hy. unfold int_char. rewrite Hy. now rewrite orb_true_r.
Qed.

(** An accepted literal is made of spaces, signs and digits only. *)
Lemma py_int_chars l n : py_int l = Ok n -> forallb int_char l = true.
Proof.
  unfold py_int. intros Hn.
  destruct (strip_split l) as [a [b [E [Ha Hb]]]].
  assert (Ht : forallb int_char (strip l) = true).
  { destruct (strip l) as [|c t] eqn:Et; [reflexivity|].
    destruct (Ascii.eqb c "-") eqn:Hm.
    { apply Ascii.eqb_eq in Hm. subst c. simpl. eapply digits_body_chars, Hn. }
    destruct (Ascii.eqb c "+") eqn:Hp.
    { apply Ascii.eqb_eq in Hp. subst c. simpl. eapply digits_body_chars, Hn. }
    assert (E1 : match c :: t with
                 | "-"%char :: r => (-1, r)
                 | "+"%char :: r => (1, r)
                 | _ => (1, c :: t)
                 end = (1, c :: t)).
    { destruct c as [[] [] [] [] [] [] [] []]; try reflexivity; discriminate. }
    rewrite E1 in Hn. eapply digits_body_chars, Hn. }
  rewrite E, !forallb_app, Ht.
  rewrite (forallb_weaken is_space int_char a), (forallb_weaken is_space int_char b);
    auto.
  all: intros y Hy; unfold int_char; now rewrite Hy.
Qed.

Lemma length_pos_of_int l n : py_int l = Ok n -> Nat.eqb (length l) 0 = false.
Proof. destruct l; [discriminate | reflexivity]. Qed.

End IntLiterals.

(** ** The duration parser *)

Section Scanning.

Lemma int_char_no_ym c : int_char c = true -> no_ym c = true.
Proof. destruct c as [[] [] [] [] [] [] [] []]; try reflexivity; discriminate. Qed.

Lemma chars_app (a b : string) : chars (a ++ b) = chars a ++ chars b.
Proof.
  unfold chars. induction a as [|c a IH]; simpl; [reflexivity|]. now rewrite IH.
Qed.

Lemma slice_prefix (l r : list ascii) : slice (l ++ r) 0 (length l) = l.
Proof.
  unfold slice. rewrite Nat.sub_0_r. change (skipn 0 (l ++ r)) with (l ++ r).
  rewrite firstn_app, firstn_all, Nat.sub_diag. simpl. apply app_nil_r.
Qed.

Lemma slice_from_y (s : list ascii) (a k : nat) :
  s !! a = Some "y"%char -> (a < k)%nat -> exists t, slice s a k = "y"%char :: t.
Proof.
  intros Hy Hk. unfold slice. rewrite (drop_S _ _ _ Hy).
  destruct (k - a)%nat as [|j] eqn:E; [lia|]. simpl. eauto.
Qed.

Lemma scan_ym_app s a : forall b k st,
  scan_ym s k (a ++ b) st
  = (do st' <- scan_ym s k a st; scan_ym s (k + length a) b st')%res.
Proof.
  induction a as [|c a IH]; intros b k st; simpl.
  - now rewrite Nat.add_0_r.
  - destruct (step_ym s k c st) as [st'|e]; simpl; [|reflexivity].
    rewrite IH. now rewrite Nat.add_succ_r.
Qed.

Lemma step_ym_other s k c st : no_ym c = true -> step_ym s k c st = Ok st.
Proof.
  unfold no_ym, step_ym. intros [Hy Hm]%andb_true_iff.
  apply negb_true_iff in Hy, Hm. now rewrite Hy, Hm.
Qed.

Lemma scan_ym_other s a : forall k st,
  forallb no_ym a = true -> scan_ym s k a st = Ok st.
Proof.
  induction a as [|c a IH]; intros k st; simpl; [reflexivity|].
  intros [Hc Ha]%andb_true_iff. rewrite step_ym_other by exact Hc.
  simpl. now apply IH.
Qed.

(** A round of the first loop passes or raises the error of [int]. *)
Lemma step_ym_cases s k c st :
  (exists st', step_ym s k c st = Ok st') \/
  step_ym s k c st = Raise invalid_literal.
Proof.
  unfold step_ym.
  destruct (Ascii.eqb c "y").
  - destruct (py_int_cases (slice s 0 k)) as [[n ->]| ->]; simpl; [|now right].
    destruct (Ascii.eqb c "m"); [|left; eauto].
    destruct (py_int_cases (slice s k k)) as [[m ->]| ->]; simpl;
      [left; eauto | now right].
  - simpl. destruct (Ascii.eqb c "m"); [|left; eauto].
    destruct (py_int_cases (slice s (ky st) k)) as [[m ->]| ->]; simpl;
      [left; eauto | now right].
Qed.

(** Once a [y] was read, the next [m] makes the loop raise: the text that
    goes to [int] starts at the [y]. *)
Lemma scan_after_y rest : forall pre st,
  y_before (pre ++ rest) (length pre) st -> In "m"%char rest ->
  scan_ym (pre ++ rest) (length pre) rest st = Raise invalid_literal.
Proof.
  induction rest as [|c rest IH]; intros pre st [Hlt Hy] Hm; [destruct Hm|].
  assert (Es : pre ++ c :: rest = (pre ++ [c]) ++ rest)
    by now rewrite <- app_assoc.
  assert (El : S (length pre) = length (pre ++ [c]))
    by (rewrite length_app; simpl; lia).
  simpl scan_ym.
  destruct (Ascii.eqb c "m") eqn:Ecm.
  - unfold step_ym. rewrite Ecm.
    apply Ascii.eqb_eq in Ecm. subst c. simpl.
    destruct (slice_from_y _ _ _ Hy Hlt) as [t ->].
    rewrite py_int_y. reflexivity.
  - assert (Hm' : In "m"%char rest).
    { destruct Hm as [E|]; [|assumption]. subst c. discriminate. }
    unfold step_ym. rewrite Ecm.
    destruct (Ascii.eqb c "y") eqn:Ecy.
    + destruct (py_int_cases (slice (pre ++ c :: rest) 0 (length pre)))
        as [[n ->]| ->]; simpl; [|reflexivity].
      rewrite Es, El. apply IH; [|exact Hm'].
      split; simpl; [rewrite length_app; simpl; lia|].
      apply Ascii.eqb_eq in Ecy. subst c.
      rewrite <- Es. apply list_lookup_middle. reflexivity.
    + simpl. rewrite Es, El. apply IH; [|exact Hm'].
      split; [rewrite length_app; simpl; lia | now rewrite <- Es].
Qed.

Lemma scan_y_then_m a : forall pre b st,
  In "m"%char b ->
  scan_ym (pre ++ a ++ "y"%char :: b) (length pre) (a ++ "y"%char :: b) st
  = Raise invalid_literal.
Proof.
  induction a as [|c a IH]; intros pre b st Hm.
  - simpl app. simpl scan_ym.
    assert (Es : pre ++ "y"%char :: b = (pre ++ ["y"%char]) ++ b)
      by now rewrite <- app_assoc.
    assert (El : S (length pre) = length (pre ++ ["y"%char]))
      by (rewrite length_app; simpl; lia).
    unfold step_ym. simpl.
    destruct (py_int_cases (slice (pre ++ "y"%char :: b) 0 (length pre)))
      as [[n ->]| ->]; simpl; [|reflexivity].
    rewrite Es, El. apply scan_after_y; [|exact Hm].
    split; simpl; [rewrite length_app; simpl; lia|].
    rewrite <- Es. apply list_lookup_middle. reflexivity.
  - simpl app. simpl scan_ym.
    destruct (step_ym_cases (pre ++ c :: a ++ "y"%char :: b) (length pre) c st)
      as [[st' ->]| ->]; simpl; [|reflexivity].
    replace (pre ++ c :: a ++ "y"%char :: b)
      with ((pre ++ [c]) ++ a ++ "y"%char :: b) by now rewrite <- app_assoc.
    replace (S (length pre)) with (length (pre ++ [c]))
      by (rewrite length_app; simpl; lia).
    now apply IH.
Qed.

(** C2 (the code departs from it): the claim has [add_time_from_str] return
    the date advanced by N1 years and N2 months on the combined form
    'N1yN2m'.  The code raises instead, on that form and on every text in
    which a letter [y] comes before a letter [m]: the number of months is
    read from [dt_str[ky:k]], which starts at the [y] itself, and [int]
    rejects it with ValueError. *)
Theorem combined_form_raises (d : datetime) (s1 s2 s3 : string) :
  add_time_from_str d (s1 ++ "y" ++ s2 ++ "m" ++ s3) = Raise invalid_literal.
Proof.
  unfold add_time_from_str.
  rewrite !chars_app.
  change (chars "y") with ["y"%char]. change (chars "m") with ["m"%char].
  pose proof (scan_y_then_m (chars s1) [] (chars s2 ++ ["m"%char] ++ chars s3)
                (mkscan 0 0 0 0)) as Hs.
  simpl in Hs. simpl. rewrite Hs; [reflexivity|].
  apply in_or_app. right. now left.
Qed.

Lemma scan_one_unit l n (u : ascii) :
  py_int l = Ok n ->
  scan_ym (l ++ [u]) 0 (l ++ [u]) (mkscan 0 0 0 0)
  = step_ym (l ++ [u]) (length l) u (mkscan 0 0 0 0).
Proof.
  intros Hn. rewrite scan_ym_app, scan_ym_other.
  2:{ eapply forallb_weaken; [apply int_char_no_ym | eapply py_int_chars, Hn]. }
  simpl. destruct (step_ym _ _ _ _); reflexivity.
Qed.

(** The forms 'N1y' and 'N2m' reach the constructor [datetime(y2, m2, d2,
    h2)]. *)
Lemma add_time_one_unit (d : datetime) (s : string) (n : Z) (by_year : bool) :
  py_int (chars s) = Ok n ->
  let ny := if by_year then n else 0 in
  let nm := if by_year then 0 else n in
  add_time_from_str d (s ++ unit_letter by_year)
  = datetime_new (year d + (ny + (nm + month d - 1) / 12))
                 ((nm + month d - 1) mod 12 + 1) (day d) (hour d).
Proof.
  intros Hn. unfold add_time_from_str. rewrite chars_app.
  destruct by_year; simpl unit_letter.
  - change (chars "y") with ["y"%char]. rewrite (scan_one_unit _ _ _ Hn).
    unfold step_ym. simpl. rewrite slice_prefix, Hn. simpl.
    rewrite (length_pos_of_int _ _ Hn). reflexivity.
  - change (chars "m") with ["m"%char]. rewrite (scan_one_unit _ _ _ Hn).
    unfold step_ym. simpl. rewrite slice_prefix, Hn. simpl.
    rewrite (length_pos_of_int _ _ Hn). reflexivity.
Qed.

Lemma datetime_new_ok y m dd h r :
  datetime_new y m dd h = Ok r -> r = mkdt y m dd h 0 0.
Proof.
  unfold datetime_new. repeat (destruct (negb _); [discriminate|]). congruence.
Qed.

(** C7 (amended): for every date and every duration of the form 'N1y' or
    'N2m', a result of [add_time_from_str] has the day of month and the hour
    of the source date and its minutes and seconds are zero; the result
    exists when the source day exists in the target month of a year in
    1..9999; and when the source day does not exist in the target month the
    call raises ValueError: the day is not clamped. *)
Theorem year_month_form_keeps_day_and_hour
    (d : datetime) (s : string) (n : Z) (by_year : bool) :
  py_int (chars s) = Ok n ->
  let ny := if by_year then n else 0 in
  let nm := if by_year then 0 else n in
  let y2 := year d + ny + (nm + month d - 1) / 12 in
  let m2 := (nm + month d - 1) mod 12 + 1 in
  let res := add_time_from_str d (s ++ unit_letter by_year) in
  (forall r, res = Ok r ->
     year r = y2 /\ month r = m2 /\ day r = day d /\ hour r = hour d /\
     minute r = 0 /\ second r = 0) /\
  (1 <= y2 <= 9999 -> 1 <= day d <= days_in_month y2 m2 ->
   0 <= hour d <= 23 ->
     res = Ok (mkdt y2 m2 (day d) (hour d) 0 0)) /\
  (1 <= y2 <= 9999 -> days_in_month y2 m2 < day d ->
     res = Raise (ValueError "day is out of range for month")).
Proof.
  intros Hn ny nm y2 m2 res.
  assert (Hres : res = datetime_new y2 m2 (day d) (hour d)).
  { unfold res. rewrite (add_time_one_unit d s n by_year Hn).
    unfold y2, m2, ny, nm. f_equal. lia. }
  assert (Hm2 : 1 <= m2 <= 12)
    by (unfold m2; pose proof (Z.mod_pos_bound (nm + month d - 1) 12); lia).
  rewrite Hres. split; [|split].
  - intros r Hr. apply datetime_new_ok in Hr. subst r. simpl. tauto.
  - intros Hy Hd Hh. unfold datetime_new.
    replace ((1 <=? y2) && (y2 <=? 9999)) with true
      by (symmetry; apply andb_true_iff; lia).
    replace ((1 <=? m2) && (m2 <=? 12)) with true
      by (symmetry; apply andb_true_iff; lia).
    replace ((1 <=? day d) && (day d <=? days_in_month y2 m2)) with true
      by (symmetry; apply andb_true_iff; lia).
    replace ((0 <=? hour d) && (hour d <=? 23)) with true
      by (symmetry; apply andb_true_iff; lia).
    reflexivity.
  - intros Hy Hd. unfold datetime_new.
    replace ((1 <=? y2) && (y2 <=? 9999)) with true
      by (symmetry; apply andb_true_iff; lia).
    replace ((1 <=? m2) && (m2 <=? 12)) with true
      by (symmetry; apply andb_true_iff; lia).
    replace ((1 <=? day d) && (day d <=? days_in_month y2 m2)) with false
      by (symmetry; apply andb_false_iff; right; lia).
    reflexivity.
Qed.

End Scanning.

(** ** Sequencing *)

Section Sequencing.

Lemma bind_ok {A B} (m : M A) (f : A -> M B) c a c1 :
  m c = (Ok a, c1) -> bind m f c = f a c1.
Proof. unfold bind. now intros ->. Qed.

Lemma bind_raise {A B} (m : M A) (f : A -> M B) c e c1 :
  m c = (Raise e, c1) -> bind m f c = (Raise e, c1).
Proof. unfold bind. now intros ->. Qed.

Lemma keeps_bind P {A B} (m : M A) (f : A -> M B) :
  keeps P m -> (forall a, keeps P (f a)) -> keeps P (bind m f).
Proof.
  intros Hm Hf c Hc. unfold bind. specialize (Hm c Hc).
  destruct (m c) as [[a|e] c1]; simpl in *; [now apply Hf | exact Hm].
Qed.

Lemma keeps_ret P {A} (a : A) : keeps P (ret a).
Proof. now intros c Hc. Qed.

Lemma keeps_raise P {A} e : keeps P (@raise A e).
Proof. now intros c Hc. Qed.

Lemma keeps_lift P {A} (r : result A) : keeps P (lift r).
Proof. now intros c Hc. Qed.

Lemma keeps_get P : keeps P get.
Proof. now intros c Hc. Qed.

Lemma keeps_attr P {A} name (f : case -> option A) : keeps P (attr name f).
Proof. intros c Hc. unfold attr. now destruct (f c). Qed.

Lemma keeps_modify P (f : case -> case) :
  (forall c, P c -> P (f c)) -> keeps P (modify f).
Proof. intros Hf c Hc. now apply Hf. Qed.

Lemma keeps_read_file P name : keeps P (read_file name).
Proof. intros c Hc. unfold read_file. now destruct (files c !! name). Qed.

End Sequencing.

(** ** Order of dates *)

Section DateOrder.

Lemma lex_ltb_irrefl a : lex_ltb a a = false.
Proof.
  induction a as [|x a IH]; simpl; [reflexivity|].
  rewrite Z.ltb_irrefl, Z.eqb_refl, IH. reflexivity.
Qed.

Lemma dt_leb_refl a : dt_leb a a = true.
Proof. unfold dt_leb, dt_ltb. now rewrite lex_ltb_irrefl. Qed.

Lemma dt_min_le a b : dt_leb (dt_min a b) b = true.
Proof.
  unfold dt_min. destruct (dt_ltb b a) eqn:E.
  - apply dt_leb_refl.
  - unfold dt_leb. now rewrite E.
Qed.

Lemma dt_eqb_eq a b : dt_eqb a b = true <-> a = b.
Proof.
  unfold dt_eqb. destruct a, b; simpl. rewrite !andb_true_iff, !Z.eqb_eq.
  split.
  - intros [[[[[-> ->] ->] ->] ->] ->]. reflexivity.
  - intros E. injection E as -> -> -> -> -> ->. tauto.
Qed.

End DateOrder.

(** ** The namelist cache *)

Section Cache.

Lemma attrs_eq_refl c : attrs_eq c c.
Proof. exists (nml c). now destruct c. Qed.

Lemma cache_in_attrs n c : exists m, cache_in n c = set_nml m c.
Proof.
  unfold cache_in. destruct (nml c !! n); [exists (nml c); now destruct c|].
  destruct (disk_nml c !! n); [eauto | exists (nml c); now destruct c].
Qed.

Lemma cache_in_chain3 n1 n2 n3 c :
  exists m, cache_in n1 (cache_in n2 (cache_in n3 c)) = set_nml m c.
Proof.
  destruct (cache_in_attrs n3 c) as [m3 ->].
  destruct (cache_in_attrs n2 (set_nml m3 c)) as [m2 ->].
  destruct (cache_in_attrs n1 (set_nml m2 (set_nml m3 c))) as [m1 ->].
  now exists m1.
Qed.

Lemma file_of_cache_in n n' c : file_of (cache_in n c) n' = file_of c n'.
Proof.
  unfold cache_in, file_of.
  destruct (nml c !! n) eqn:En; [reflexivity|].
  destruct (disk_nml c !! n) eqn:Ed; [|reflexivity].
  simpl. destruct (decide (n = n')) as [<-|Hne].
  - now rewrite lookup_insert_eq, En.
  - now rewrite lookup_insert_ne.
Qed.

Lemma cache_in_cached c n f : nml c !! n = Some f -> cache_in n c = c.
Proof. unfold cache_in. now intros ->. Qed.

Lemma nml_cache_in c n f :
  file_of c n = Some f -> nml (cache_in n c) !! n = Some f.
Proof.
  unfold file_of, cache_in. destruct (nml c !! n) eqn:E; [now intros [= <-]|].
  intros ->. simpl. apply lookup_insert_eq.
Qed.

Lemma cache_in_idem n c : cache_in n (cache_in n c) = cache_in n c.
Proof.
  destruct (file_of c n) as [f|] eqn:E.
  - eapply cache_in_cached, nml_cache_in, E.
  - unfold file_of in E. unfold cache_in at 2.
    destruct (nml c !! n) eqn:E1; [discriminate|]. rewrite E.
    unfold cache_in. now rewrite E1, E.
Qed.

Lemma put_file_cache_in n f c : put_file n f (cache_in n c) = put_file n f c.
Proof.
  unfold put_file, cache_in.
  destruct (nml c !! n); [reflexivity|].
  destruct (disk_nml c !! n); [|reflexivity].
  simpl. unfold set_nml. simpl. now rewrite insert_insert_eq.
Qed.

Lemma put_file_put_file n f f' c :
  put_file n f (put_file n f' c) = put_file n f c.
Proof. unfold put_file, set_nml. simpl. now rewrite insert_insert_eq. Qed.

Lemma put_file_same n f c : nml c !! n = Some f -> put_file n f c = c.
Proof.
  intros E. unfold put_file. rewrite insert_id by exact E. now destruct c.
Qed.

Lemma put_file_loaded n f c :
  file_of c n = Some f -> put_file n f c = cache_in n c.
Proof.
  intros Hf. unfold file_of in Hf. unfold cache_in.
  destruct (nml c !! n) eqn:E.
  - injection Hf as ->. now apply put_file_same.
  - now rewrite Hf.
Qed.

Lemma nml_put_file n f c : nml (put_file n f c) !! n = Some f.
Proof. unfold put_file. simpl. apply lookup_insert_eq. Qed.

Lemma nml_put_file_ne n n' f c :
  n <> n' -> nml (put_file n f c) !! n' = nml c !! n'.
Proof. intros Hne. unfold put_file. simpl. now rewrite lookup_insert_ne. Qed.

Lemma file_of_put_file n f c : file_of (put_file n f c) n = Some f.
Proof. unfold file_of. now rewrite nml_put_file. Qed.

Lemma file_of_put_file_ne n n' f c :
  n <> n' -> file_of (put_file n f c) n' = file_of c n'.
Proof. intros Hne. unfold file_of. now rewrite nml_put_file_ne. Qed.

Lemma cache_in_put_file n f c : cache_in n (put_file n f c) = put_file n f c.
Proof. eapply cache_in_cached, nml_put_file. Qed.

Lemma runtime_cache_in n c : _runtime (cache_in n c) = _runtime c.
Proof. destruct (cache_in_attrs n c) as [m ->]. reflexivity. Qed.

(** What each access does, told on [file_of]. *)

Lemma nml_getitem_some c n f :
  file_of c n = Some f -> nml_getitem n c = (Ok f, cache_in n c).
Proof.
  unfold file_of, nml_getitem, cache_in.
  destruct (nml c !! n); [now intros [= ->]|]. now intros ->.
Qed.

Lemma nml_getitem_none c n :
  file_of c n = None -> nml_getitem n c = (Raise (IOError n), c).
Proof.
  unfold file_of, nml_getitem. destruct (nml c !! n); [discriminate|].
  now intros ->.
Qed.

Lemma nml_read_some c n b p f g v :
  file_of c n = Some f -> f !! b = Some (BGroup g) -> g !! p = Some v ->
  nml_read n b p c = (Ok v, cache_in n c).
Proof.
  intros Hf Hb Hp. unfold nml_read.
  rewrite (bind_ok _ _ _ _ _ (nml_getitem_some _ _ _ Hf)).
  unfold lift, get_group. rewrite Hb. unfold rbind, get_param. now rewrite Hp.
Qed.

Lemma nml_assign_block_some c n b blk f :
  file_of c n = Some f ->
  nml_assign_block n b blk c = (Ok tt, put_file n (<[b := blk]> f) c).
Proof.
  intros Hf. unfold nml_assign_block.
  rewrite (bind_ok _ _ _ _ _ (nml_getitem_some _ _ _ Hf)).
  unfold modify. now rewrite <- put_file_cache_in.
Qed.

Lemma nml_del_block_some c n b f x :
  file_of c n = Some f -> f !! b = Some x ->
  nml_del_block n b c = (Ok tt, put_file n (delete b f) c).
Proof.
  intros Hf Hb. unfold nml_del_block.
  rewrite (bind_ok _ _ _ _ _ (nml_getitem_some _ _ _ Hf)).
  rewrite Hb. unfold modify. now rewrite <- put_file_cache_in.
Qed.

Lemma nml_assign_some c n b p v f g :
  file_of c n = Some f -> f !! b = Some (BGroup g) ->
  nml_assign n b p v c
  = (Ok tt, put_file n (<[b := BGroup (<[p := v]> g)]> f) c).
Proof.
  intros Hf Hb. unfold nml_assign.
  rewrite (bind_ok _ _ _ _ _ (nml_getitem_some _ _ _ Hf)).
  unfold bind, lift, get_group. rewrite Hb. unfold modify.
  now rewrite <- put_file_cache_in.
Qed.

Lemma get_gribouts_some c io :
  file_of c "INPUT_IO" = Some io ->
  _get_gribouts c = (Ok (gribouts_of io), cache_in "INPUT_IO" c).
Proof.
  intros Hf. unfold _get_gribouts.
  rewrite (bind_ok _ _ _ _ _ (nml_getitem_some _ _ _ Hf)).
  unfold gribouts_of. destruct (io !! "gribout"%string) as [[g|l]|]; reflexivity.
Qed.

(** Reading touches the cache only. *)

Lemma keeps_getitem_attrs c0 name : keeps (attrs_eq c0) (nml_getitem name).
Proof.
  intros c [m ->]. unfold nml_getitem.
  destruct (nml _ !! name); [now exists m|].
  destruct (disk_nml _ !! name); simpl; [|now exists m].
  eexists. reflexivity.
Qed.

Lemma keeps_nml_read_attrs c0 f b p : keeps (attrs_eq c0) (nml_read f b p).
Proof.
  apply keeps_bind; [apply keeps_getitem_attrs | intros; apply keeps_lift].
Qed.

(** With the file in the cache, reading changes nothing. *)

Lemma keeps_store_getitem m d n f :
  m !! n = Some f -> keeps (store_is m d) (nml_getitem n).
Proof.
  intros Hn c [Hm Hd]. unfold nml_getitem. rewrite Hm, Hn. now split.
Qed.

Lemma keeps_store_read m d n f b p :
  m !! n = Some f -> keeps (store_is m d) (nml_read n b p).
Proof.
  intros Hn. apply keeps_bind;
    [eapply keeps_store_getitem, Hn | intros; apply keeps_lift].
Qed.

End Cache.

Ltac read_step :=
  erewrite bind_ok
    by (eapply nml_read_some;
        [rewrite ?file_of_cache_in; eassumption | eassumption..]).

Ltac keeps_attr_update :=
  apply keeps_modify; intros ? [? ?]; split; assumption.

Ltac keeps_store org drv :=
  repeat first
    [ apply keeps_bind; [|intros ?]
    | apply keeps_ret | apply keeps_raise | apply keeps_lift | apply keeps_get
    | apply keeps_attr | apply keeps_read_file
    | eapply keeps_store_getitem; first [exact org | exact drv]
    | eapply keeps_store_read; first [exact org | exact drv]
    | keeps_attr_update
    | match goal with
      | |- keeps _ (match ?x with _ => _ end) => destruct x
      end ].

(** ** Run dates *)

Section RunDates.

Lemma keeps_read_start_dates c0 : keeps (attrs_eq c0) read_start_dates.
Proof.
  unfold read_start_dates.
  repeat first [ apply keeps_bind; [|intros ?] | apply keeps_getitem_attrs
               | apply keeps_nml_read_attrs | apply keeps_lift | apply keeps_ret ].
Qed.

Lemma read_start_dates_attrs c : attrs_eq c (snd (read_start_dates c)).
Proof. apply keeps_read_start_dates, attrs_eq_refl. Qed.

Lemma compute_run_dates_unfold c :
  _compute_run_dates c =
  match read_start_dates c with
  | (Ok (date_cosmo, date_cesm), c1) =>
      if negb (dt_eqb date_cosmo date_cesm) then (Raise start_mismatch, c1)
      else
        match _end_date c with
        | Some e =>
            run_dates_bounded date_cosmo e
              (set_run_start_date (Some date_cosmo) c1)
        | None =>
            run_dates_open date_cosmo (set_run_start_date (Some date_cosmo) c1)
        end
  | (Raise e, c1) => (Raise e, c1)
  end.
Proof.
  unfold _compute_run_dates, bind at 1.
  pose proof (read_start_dates_attrs c) as [m Hm].
  destruct (read_start_dates c) as [[[dc de]|e] c1]; [|reflexivity].
  simpl in Hm. subst c1.
  destruct (negb (dt_eqb dc de)); [reflexivity|].
  unfold bind, modify, get. simpl. destruct (_end_date c); reflexivity.
Qed.

Lemma keeps_store_compute m d org drv :
  m !! "INPUT_ORG"%string = Some org -> m !! "drv_in"%string = Some drv ->
  keeps (store_is m d) _compute_run_dates.
Proof.
  intros Horg Hdrv.
  unfold _compute_run_dates, read_start_dates, run_dates_bounded,
    run_dates_open.
  keeps_store Horg Hdrv.
Qed.

(** C1 (amended): for a case with an end date, when [_compute_run_dates]
    returns, the run start is not after the end date.  As long as the run
    start is before the end date, the run end does not exceed the end date:
    it is [min(run start + run_length, end date)] when a run length is set
    and the end date itself when none is.  When the run start equals the end
    date the run end is the end date plus one day.  The end date itself is
    left as it was. *)
Theorem run_end_bounded_before_final_day (c : case) (e : datetime) :
  _end_date c = Some e ->
  fst (_compute_run_dates c) = Ok tt ->
  let c' := snd (_compute_run_dates c) in
  exists run_start run_end,
    _run_start_date c' = Some run_start /\
    _run_end_date c' = Some run_end /\
    _end_date c' = Some e /\
    dt_leb run_start e = true /\
    (dt_eqb run_start e = false ->
       dt_leb run_end e = true /\
       match run_length c with
       | Some rl =>
           exists d, add_time_from_str run_start rl = Ok d /\
                     run_end = dt_min d e
       | None => run_end = e
       end) /\
    (dt_eqb run_start e = true ->
       exists day1, timedelta_days 1 = Ok day1 /\ dt_add e day1 = Ok run_end).
Proof.
  intros He. rewrite compute_run_dates_unfold, He.
  pose proof (read_start_dates_attrs c) as [m Hm].
  destruct (read_start_dates c) as [[[dc de]|ex] c1]; [|discriminate].
  simpl in Hm. subst c1.
  destruct (negb (dt_eqb dc de)); [discriminate|].
  unfold run_dates_bounded.
  destruct (dt_ltb e dc) eqn:Hlt; [discriminate|].
  assert (Hle : dt_leb dc e = true) by (unfold dt_leb; now rewrite Hlt).
  destruct (dt_eqb dc e) eqn:Heq.
  - unfold bind, lift, modify. simpl.
    destruct (dt_add e _) as [e'|] eqn:Hadd; [|discriminate].
    intros _. exists dc, e'. simpl. rewrite He.
    do 4 (split; [first [reflexivity | assumption]|]).
    split; [congruence|].
    intros _. eexists. split; [reflexivity | exact Hadd].
  - unfold bind, get, lift, ret, modify. simpl.
    destruct (run_length c) as [rl|].
    + destruct (add_time_from_str dc rl) as [d|] eqn:Ed; [|discriminate].
      simpl. intros _. exists dc, (dt_min d e). simpl. rewrite He.
      do 4 (split; [first [reflexivity | assumption]|]).
      split; [|congruence].
      intros _. split; [apply dt_min_le|].
      exists d. split; [exact Ed | reflexivity].
    + intros _. exists dc, e. simpl. rewrite He.
      do 4 (split; [first [reflexivity | assumption]|]).
      split; [|congruence].
      intros _. split; [apply dt_leb_refl | reflexivity].
Qed.

Lemma read_start_dates_some
    c org runctl s d0 vh h t date_cosmo drv tm v sy date_cesm :
  file_of c "INPUT_ORG" = Some org ->
  org !! "runctl"%string = Some (BGroup runctl) ->
  runctl !! "ydate_ini"%string = Some (VStr s) ->
  strptime_cosmo s = Ok d0 ->
  runctl !! "hstart"%string = Some vh ->
  as_num vh = Ok h ->
  timedelta_hours h = Ok t ->
  dt_add d0 t = Ok date_cosmo ->
  file_of c "drv_in" = Some drv ->
  drv !! "seq_timemgr_inparm"%string = Some (BGroup tm) ->
  tm !! "start_ymd"%string = Some v ->
  py_str v = Ok sy ->
  strptime_cesm sy = Ok date_cesm ->
  fst (read_start_dates c) = Ok (date_cosmo, date_cesm).
Proof.
  intros Horg Hrun Hini Hd0 Hvh Hh Ht Hdc Hdrv Htm Hv Hsy Hde.
  unfold read_start_dates.
  erewrite bind_ok by (apply nml_getitem_some; eassumption).
  erewrite bind_ok
    by (apply nml_getitem_some; rewrite ?file_of_cache_in; eassumption).
  read_step.
  unfold as_str at 1. simpl rbind. rewrite Hd0.
  erewrite bind_ok by reflexivity.
  read_step.
  rewrite Hh. simpl rbind. rewrite Ht. simpl rbind. rewrite Hdc.
  erewrite bind_ok by reflexivity.
  read_step.
  rewrite Hsy. simpl rbind. rewrite Hde.
  erewrite bind_ok by reflexivity. reflexivity.
Qed.

(** C4: when the atmosphere start date, [ydate_ini] plus [hstart] hours,
    and the coupler start date [start_ymd] are both readable and are not the
    same date, [_compute_run_dates] raises the ValueError of the start-date
    mismatch and assigns no run date. *)
Theorem differing_start_dates_raise
    c org runctl s d0 vh h t date_cosmo drv tm v sy date_cesm :
  file_of c "INPUT_ORG" = Some org ->
  org !! "runctl"%string = Some (BGroup runctl) ->
  runctl !! "ydate_ini"%string = Some (VStr s) ->
  strptime_cosmo s = Ok d0 ->
  runctl !! "hstart"%string = Some vh ->
  as_num vh = Ok h ->
  timedelta_hours h = Ok t ->
  dt_add d0 t = Ok date_cosmo ->
  file_of c "drv_in" = Some drv ->
  drv !! "seq_timemgr_inparm"%string = Some (BGroup tm) ->
  tm !! "start_ymd"%string = Some v ->
  py_str v = Ok sy ->
  strptime_cesm sy = Ok date_cesm ->
  date_cosmo <> date_cesm ->
  fst (_compute_run_dates c) = Raise start_mismatch /\
  _run_start_date (snd (_compute_run_dates c)) = _run_start_date c /\
  _run_end_date (snd (_compute_run_dates c)) = _run_end_date c /\
  _runtime (snd (_compute_run_dates c)) = _runtime c.
Proof.
  intros Horg Hrun Hini Hd0 Hvh Hh Ht Hdc Hdrv Htm Hv Hsy Hde Hne.
  pose proof (read_start_dates_some _ _ _ _ _ _ _ _ _ _ _ _ _ _
                Horg Hrun Hini Hd0 Hvh Hh Ht Hdc Hdrv Htm Hv Hsy Hde) as Hr.
  pose proof (read_start_dates_attrs c) as [m Hm].
  rewrite compute_run_dates_unfold.
  destruct (read_start_dates c) as [r c1]. simpl in Hr, Hm. subst r c1.
  assert (E : dt_eqb date_cosmo date_cesm = false).
  { destruct (dt_eqb date_cosmo date_cesm) eqn:E; [|reflexivity].
    apply dt_eqb_eq in E. contradiction. }
  rewrite E. simpl. auto.
Qed.

End RunDates.

(** ** The output filter *)

Section OutputFilter.

Lemma keep_gribouts_filter rh l :
  Forall (fun g => exists t, threshold g = Ok t) l ->
  keep_gribouts rh l = Ok (List.filter (reaches rh) l).
Proof.
  induction 1 as [|g l [t Ht] _ IH]; simpl; [reflexivity|].
  rewrite Ht, IH. simpl. unfold reaches. rewrite Ht. reflexivity.
Qed.

Lemma keep_gribouts_sound rh l : forall r,
  keep_gribouts rh l = Ok r ->
  Forall (fun g => exists t, threshold g = Ok t /\ t <= rh) r.
Proof.
  induction l as [|g l IH]; simpl; intros r Hr.
  - injection Hr as <-. constructor.
  - destruct (threshold g) as [t|] eqn:Ht; [|discriminate]. simpl in Hr.
    destruct (keep_gribouts rh l) as [r'|]; [|discriminate]. simpl in Hr.
    injection Hr as <-. specialize (IH r' eq_refl).
    destruct (t <=? rh) eqn:Hle; [|exact IH].
    constructor; [|exact IH]. exists t. split; [exact Ht | lia].
Qed.

Lemma keep_gribouts_fixed rh r :
  Forall (fun g => exists t, threshold g = Ok t /\ t <= rh) r ->
  keep_gribouts rh r = Ok r.
Proof.
  induction 1 as [|g r [t [Ht Hle]] _ IH]; simpl; [reflexivity|].
  rewrite Ht, IH. simpl.
  now replace (t <=? rh) with true by (symmetry; apply Z.leb_le; lia).
Qed.

Lemma keep_gribouts_idem rh l r :
  keep_gribouts rh l = Ok r -> keep_gribouts rh r = Ok r.
Proof. intros Hr. eapply keep_gribouts_fixed, keep_gribouts_sound, Hr. Qed.

Lemma gribouts_of_nonempty io g l :
  gribouts_of io = g :: l -> exists b, io !! "gribout"%string = Some b.
Proof.
  unfold gribouts_of. destruct (io !! "gribout"%string); [eauto | discriminate].
Qed.

Lemma delete_gribouts_of io : gribouts_of (delete "gribout"%string io) = [].
Proof. unfold gribouts_of. now rewrite lookup_delete_eq. Qed.

Lemma check_gribout_eq c rt io :
  _runtime c = Some rt -> file_of c "INPUT_IO" = Some io ->
  _check_gribout c = check_gribout_result c rt io.
Proof.
  intros Hrt Hio. unfold _check_gribout, check_gribout_result.
  unfold bind at 1, attr. rewrite Hrt.
  rewrite (bind_ok _ _ _ _ _ (get_gribouts_some _ _ Hio)).
  unfold bind at 1, lift.
  destruct (keep_gribouts _ (gribouts_of io)) as [[|g r]|e]; [| |reflexivity].
  - destruct (gribouts_of io) as [|g0 l0] eqn:Eg; [reflexivity|].
    destruct (gribouts_of_nonempty _ _ _ Eg) as [b Hb].
    erewrite nml_del_block_some;
      [| rewrite file_of_cache_in; eassumption | eassumption].
    now rewrite put_file_cache_in.
  - erewrite bind_ok
      by (apply nml_assign_block_some; rewrite file_of_cache_in; eassumption).
    rewrite put_file_cache_in.
    unfold nml_assign.
    erewrite bind_ok by (apply nml_getitem_some, file_of_put_file).
    erewrite cache_in_cached by apply nml_put_file.
    unfold bind, lift, get_group.
    rewrite lookup_insert_ne by discriminate.
    destruct (io !! "ioctl"%string) as [[ctl|l]|]; try reflexivity.
    unfold modify.
    fold (put_file "INPUT_IO"
            (<["ioctl"%string :=
                 BGroup (<["ngribout"%string :=
                             VInt (Z.of_nat (length (g :: r)))]> ctl)]>
               (<["gribout"%string := BList (g :: r)]> io))
            (put_file "INPUT_IO" (<["gribout"%string := BList (g :: r)]> io) c)).
    now rewrite put_file_put_file.
Qed.

(** C5: with every output block carrying a threshold, [_check_gribout]
    retains exactly the blocks whose threshold, the third entry of [hcomb],
    is at most the run time in hours.  When some block is retained the
    namelist gets the retained list and [ngribout] its length; when none is
    retained and there were blocks, the entry [gribout] is deleted and
    [ngribout] is not touched; without blocks nothing changes. *)
Theorem check_gribout_keeps_blocks_reaching_threshold c rt io :
  _runtime c = Some rt ->
  file_of c "INPUT_IO" = Some io ->
  Forall (fun g => exists t, threshold g = Ok t) (gribouts_of io) ->
  let runtime_hours := total_seconds rt / 3600 in
  let retained := List.filter (reaches runtime_hours) (gribouts_of io) in
  (forall g, In g retained <->
     In g (gribouts_of io) /\
     exists t, threshold g = Ok t /\ t <= runtime_hours) /\
  (retained <> [] ->
     forall ctl, io !! "ioctl"%string = Some (BGroup ctl) ->
     _check_gribout c
     = (Ok tt,
        put_file "INPUT_IO"
          (<["ioctl"%string :=
               BGroup (<["ngribout"%string :=
                           VInt (Z.of_nat (length retained))]> ctl)]>
             (<["gribout"%string := BList retained]> io)) c)) /\
  (retained = [] -> gribouts_of io <> [] ->
     _check_gribout c
     = (Ok tt, put_file "INPUT_IO" (delete "gribout"%string io) c)) /\
  (gribouts_of io = [] -> _check_gribout c = (Ok tt, cache_in "INPUT_IO" c)).
Proof.
  intros Hrt Hio Hall runtime_hours retained.
  pose proof (check_gribout_eq c rt io Hrt Hio) as E.
  unfold check_gribout_result in E.
  rewrite (keep_gribouts_filter _ _ Hall) in E.
  fold runtime_hours in E. fold retained in E.
  split; [|split; [|split]].
  - intros g. unfold retained. rewrite filter_In. unfold reaches.
    split.
    + intros [Hin Hr]. split; [exact Hin|].
      destruct (threshold g) as [t|]; [|discriminate].
      exists t. split; [reflexivity | lia].
    + intros [Hin [t [Ht Hle]]]. split; [exact Hin|]. rewrite Ht. lia.
  - intros Hne ctl Hctl. rewrite E.
    destruct retained as [|g r]; [contradiction|]. now rewrite Hctl.
  - intros He Hne. rewrite E, He.
    destruct (gribouts_of io); [contradiction | reflexivity].
  - intros He. rewrite E. unfold retained. rewrite He. reflexivity.
Qed.

(** A case that [_check_gribout] has filtered passes it unchanged. *)
Lemma check_gribout_fixed c c1 :
  _check_gribout c = (Ok tt, c1) -> _check_gribout c1 = (Ok tt, c1).
Proof.
  intros H1.
  destruct (_runtime c) as [rt|] eqn:Hrt.
  2:{ unfold _check_gribout, bind, attr in H1. rewrite Hrt in H1. discriminate. }
  destruct (file_of c "INPUT_IO") as [io|] eqn:Hio.
  2:{ unfold _check_gribout in H1. unfold bind at 1, attr in H1.
      rewrite Hrt in H1. unfold _get_gribouts in H1.
      rewrite (bind_raise _ _ _ _ _
                 (bind_raise _ _ _ _ _ (nml_getitem_none _ _ Hio))) in H1.
      discriminate. }
  rewrite (check_gribout_eq c rt io Hrt Hio) in H1.
  unfold check_gribout_result in H1.
  destruct (keep_gribouts _ (gribouts_of io)) as [[|g r]|e] eqn:Hk;
    [| |discriminate].
  - destruct (gribouts_of io) as [|g0 l0] eqn:Eg.
    + injection H1 as <-.
      rewrite (check_gribout_eq _ rt io);
        [|now rewrite runtime_cache_in|now rewrite file_of_cache_in].
      unfold check_gribout_result. rewrite Eg. simpl.
      now rewrite cache_in_idem.
    + injection H1 as <-.
      rewrite (check_gribout_eq _ rt (delete "gribout"%string io));
        [|exact Hrt|apply file_of_put_file].
      unfold check_gribout_result. rewrite delete_gribouts_of. simpl.
      now rewrite cache_in_put_file.
  - destruct (io !! "ioctl"%string) as [[ctl|l]|] eqn:Hctl; try discriminate.
    injection H1 as <-.
    set (io1 := <["ioctl"%string := _]> _).
    assert (Hg : io1 !! "gribout"%string = Some (BList (g :: r))).
    { unfold io1. rewrite lookup_insert_ne by discriminate.
      apply lookup_insert_eq. }
    rewrite (check_gribout_eq _ rt io1); [|exact Hrt|apply file_of_put_file].
    unfold check_gribout_result.
    assert (Eg : gribouts_of io1 = g :: r) by (unfold gribouts_of; now rewrite Hg).
    rewrite Eg, (keep_gribouts_idem _ _ _ Hk).
    assert (Hc : io1 !! "ioctl"%string
                 = Some (BGroup (<["ngribout"%string :=
                                     VInt (Z.of_nat (length (g :: r)))]> ctl))).
    { unfold io1. apply lookup_insert_eq. }
    rewrite Hc. rewrite insert_insert_eq.
    rewrite (insert_id io1 "gribout"%string) by exact Hg.
    rewrite (insert_id io1 "ioctl"%string) by exact Hc.
    now rewrite put_file_put_file.
Qed.

(** C9: [_check_gribout] run twice in a row gives the outcome and the case,
    namelists included, of a single run, and [_get_gribouts] then returns
    the same blocks. *)
Theorem check_gribout_idempotent (c : case) :
  bind _check_gribout (fun _ => _check_gribout) c = _check_gribout c /\
  bind _check_gribout (fun _ => bind _check_gribout (fun _ => _get_gribouts)) c
  = bind _check_gribout (fun _ => _get_gribouts) c.
Proof.
  destruct (_check_gribout c) as [[[]|e] c1] eqn:E.
  - pose proof (check_gribout_fixed _ _ E) as E2.
    rewrite !(bind_ok _ _ _ _ _ E).
    split; [exact E2 | now rewrite (bind_ok _ _ _ _ _ E2)].
  - rewrite !(bind_raise _ _ _ _ _ E). split; reflexivity.
Qed.

End OutputFilter.

(** ** The process layout *)

Section Layout.

(** C6: [_build_proc_config] counts [nprocx * nprocy] atmosphere processes,
    adds [lnd_ntasks] for the total, sets the node count to the total
    divided by 12, rounded down, and writes two lines to [proc_config]: the
    ranks 0 to [n_atm - 1] for the atmosphere executable and the ranks
    [n_atm] to [total - 1] for the coupler executable. *)
Theorem proc_config_layout c org runctl x y drv pes n :
  file_of c "INPUT_ORG" = Some org ->
  org !! "runctl"%string = Some (BGroup runctl) ->
  runctl !! "nprocx"%string = Some (VInt x) ->
  runctl !! "nprocy"%string = Some (VInt y) ->
  file_of c "drv_in" = Some drv ->
  drv !! "ccsm_pes"%string = Some (BGroup pes) ->
  pes !! "lnd_ntasks"%string = Some (VInt n) ->
  let n_atm := x * y in
  let total := n_atm + n in
  let c' := snd (_build_proc_config c) in
  fst (_build_proc_config c) = Ok tt /\
  n_tasks_per_node = 12 /\
  _n_nodes c' = Some (total / 12) /\
  files c' !! "proc_config"%string
  = Some (String.concat EmptyString
            [str_of_Z 0; "-"; str_of_Z (n_atm - 1); " ./"; COSMO_exe c; nl]
          ++ String.concat EmptyString
            [str_of_Z n_atm; "-"; str_of_Z (total - 1); " ./"; CESM_exe c; nl])%string.
Proof.
  intros Horg Hrun Hx Hy Hdrv Hpes Hn n_atm total c'.
  destruct (cache_in_chain3 "drv_in" "INPUT_ORG" "INPUT_ORG" c) as [m Em].
  assert (E : _build_proc_config c
              = (Ok tt,
                 set_files
                   (<["proc_config"%string :=
                        (proc_line 0 (n_atm - 1) (COSMO_exe c)
                         ++ proc_line n_atm (total - 1) (CESM_exe c))%string]>
                      (files c))
                   (set_n_nodes (Some (total / 12)) (set_nml m c)))).
  { unfold _build_proc_config.
    read_step. read_step.
    erewrite bind_ok by reflexivity.
    read_step.
    erewrite bind_ok by reflexivity.
    erewrite bind_ok by reflexivity.
    erewrite bind_ok by reflexivity.
    unfold write_file, modify. rewrite Em. reflexivity. }
  unfold c'. rewrite E. simpl files. simpl _n_nodes. simpl fst.
  repeat split; try reflexivity.
  rewrite lookup_insert_eq. reflexivity.
Qed.

End Layout.

(** ** The restart chain *)

Section OutputBlocks.

Lemma gribouts_of_relabel f io :
  gribouts_of (relabel_gribouts f io) = map f (gribouts_of io).
Proof.
  unfold relabel_gribouts, gribouts_of.
  destruct (io !! "gribout"%string) as [[g|l]|] eqn:E.
  - now rewrite lookup_insert_eq.
  - now rewrite lookup_insert_eq.
  - now rewrite E.
Qed.

Lemma map_until_total {A} (body : A -> result A) (f : A -> A) l :
  (forall x, body x = Ok (f x)) -> map_until body l = (None, map f l).
Proof.
  intros Hb. induction l as [|x l IH]; simpl; [reflexivity|].
  now rewrite Hb, IH.
Qed.

(** A loop over the output blocks whose body cannot raise rewrites every
    block of the cached file. *)
Lemma for_gribouts_total body f c io :
  (forall g, body g = Ok (f g)) ->
  file_of c "INPUT_IO" = Some io ->
  for_gribouts body c = (Ok tt, put_file "INPUT_IO" (relabel_gribouts f io) c).
Proof.
  intros Hb Hio. unfold for_gribouts.
  rewrite (bind_ok _ _ _ _ _ (get_gribouts_some _ _ Hio)).
  rewrite (map_until_total _ _ _ Hb).
  assert (Hio' : file_of (cache_in "INPUT_IO" c) "INPUT_IO" = Some io)
    by now rewrite file_of_cache_in.
  unfold store_gribouts, relabel_gribouts, gribouts_of.
  unfold bind at 1.
  rewrite (bind_ok _ _ _ _ _ (nml_getitem_some _ _ _ Hio')).
  rewrite cache_in_idem.
  destruct (io !! "gribout"%string) as [[g|l]|] eqn:E; cbn [map].
  - rewrite (nml_assign_block_some _ _ _ _ _ Hio').
    now rewrite put_file_cache_in.
  - rewrite (nml_assign_block_some _ _ _ _ _ Hio').
    now rewrite put_file_cache_in.
  - unfold ret. now rewrite (put_file_loaded _ _ _ Hio).
Qed.

End OutputBlocks.

Section RestartChain.
Context `{RegexLib}.

Lemma keeps_store_update_controller m d :
  keeps (store_is m d) _update_controller.
Proof.
  unfold _update_controller, write_file.
  repeat first
    [ apply keeps_bind; [|intros ?] | apply keeps_attr | apply keeps_get
    | apply keeps_read_file | keeps_attr_update ].
Qed.

Lemma set_next_run_stops (c : case) (run_start e : datetime) :
  _run_start_date c = Some run_start ->
  _end_date c = Some e ->
  dt_leb e run_start = true ->
  set_next_run c = (Ok false, c).
Proof.
  intros Hs He Hle. unfold set_next_run, bind, attr, get.
  rewrite Hs, He, Hle. reflexivity.
Qed.

(** C10: called with the run start at or after the case end date,
    [set_next_run] returns [False] and the case is what it was: attributes,
    cached namelists, namelist files and text files, the controller script
    among them. *)
Theorem set_next_run_terminal_is_noop (c : case) (run_start e : datetime) :
  _run_start_date c = Some run_start ->
  _end_date c = Some e ->
  dt_leb e run_start = true ->
  set_next_run c = (Ok false, c) /\
  nml (snd (set_next_run c)) = nml c /\
  disk_nml (snd (set_next_run c)) = disk_nml c /\
  files (snd (set_next_run c)) = files c.
Proof.
  intros Hs He Hle.
  rewrite (set_next_run_stops c run_start e Hs He Hle). auto.
Qed.

(** The namelist assignments of [set_next_run], on a case whose three
    namelist files have the groups they go to. *)
Lemma set_continuation_some
    c run_end start ymd org runctl drv tm info io ctl dir gribin :
  _run_end_date c = Some run_end ->
  _start_date c = Some start ->
  py_int (chars (strftime_cesm run_end)) = Ok ymd ->
  file_of c "INPUT_ORG" = Some org ->
  org !! "runctl"%string = Some (BGroup runctl) ->
  file_of c "drv_in" = Some drv ->
  drv !! "seq_timemgr_inparm"%string = Some (BGroup tm) ->
  drv !! "seq_infodata_inparm"%string = Some (BGroup info) ->
  file_of c "INPUT_IO" = Some io ->
  io !! "ioctl"%string = Some (BGroup ctl) ->
  ctl !! "ydir_restart_out"%string = Some dir ->
  io !! "gribin"%string = Some (BGroup gribin) ->
  let hstart := total_seconds (dt_sub run_end start) / 3600 in
  let org' :=
    <["runctl"%string := BGroup (<["hstart"%string := VInt hstart]> runctl)]> org in
  let drv1 :=
    <["seq_timemgr_inparm"%string :=
        BGroup (<["start_ymd"%string := VInt ymd]> tm)]> drv in
  let drv' :=
    <["seq_infodata_inparm"%string :=
        BGroup (<["start_type"%string := VStr "continue"]> info)]> drv1 in
  let io' :=
    relabel_gribouts (insert "lwrite_const"%string (VBool false))
      (<["gribin"%string := BGroup (<["ydirini"%string := dir]> gribin)]> io) in
  set_continuation c
  = (Ok tt,
     put_file "drv_in" drv'
       (put_file "INPUT_IO" io'
          (put_file "drv_in" drv1 (put_file "INPUT_ORG" org' c)))).
Proof.
  intros Hre Hsd Hymd Horg Hrun Hdrv Htm Hinfo Hio Hctl Hdir Hgribin
         hstart org' drv1 drv' io'.
  set (c1 := put_file "INPUT_ORG" org' c).
  set (c2 := put_file "drv_in" drv1 c1).
  unfold set_continuation.
  unfold bind at 1, attr. rewrite Hre.
  unfold bind at 1. rewrite Hsd.
  erewrite bind_ok by (eapply nml_assign_some; eassumption).
  fold hstart org' c1.
  erewrite bind_ok by (unfold lift; rewrite Hymd; reflexivity).
  erewrite bind_ok
    by (eapply nml_assign_some;
        [unfold c1; rewrite file_of_put_file_ne by discriminate; eassumption
        | eassumption]).
  fold drv1 c2.
  assert (Hio2 : file_of c2 "INPUT_IO" = Some io).
  { unfold c2, c1. now rewrite !file_of_put_file_ne by discriminate. }
  erewrite bind_ok by (eapply nml_read_some; eassumption).
  erewrite bind_ok
    by (eapply nml_assign_some; [rewrite file_of_cache_in|]; eassumption).
  rewrite put_file_cache_in.
  erewrite bind_ok
    by (eapply (for_gribouts_total clear_lwrite_const
                  (insert "lwrite_const"%string (VBool false)));
        [reflexivity | apply file_of_put_file]).
  rewrite put_file_put_file. fold io'.
  eapply nml_assign_some.
  - rewrite file_of_put_file_ne by discriminate.
    unfold c2. apply file_of_put_file.
  - unfold drv1. rewrite lookup_insert_ne by discriminate. exact Hinfo.
Qed.

(** C8: when [set_next_run] goes on (run start before the case end), the
    case it leaves has, in the cache and in the namelist files alike,
    [hstart] set to the hours from the case start to the previous run end,
    [start_ymd] to the day of the previous run end, [ydirini] to the value
    of [ydir_restart_out], [start_type] to 'continue', and
    [lwrite_const] false on every output block.  This holds whether or not
    the recomputation of the run dates that follows succeeds: the
    assignments and the writing come first. *)
Theorem set_next_run_prepares_continuation
    c run_start e run_end start ymd org runctl drv tm info io ctl dir gribin :
  _run_start_date c = Some run_start ->
  _end_date c = Some e ->
  dt_ltb run_start e = true ->
  _run_end_date c = Some run_end ->
  _start_date c = Some start ->
  py_int (chars (strftime_cesm run_end)) = Ok ymd ->
  file_of c "INPUT_ORG" = Some org ->
  org !! "runctl"%string = Some (BGroup runctl) ->
  file_of c "drv_in" = Some drv ->
  drv !! "seq_timemgr_inparm"%string = Some (BGroup tm) ->
  drv !! "seq_infodata_inparm"%string = Some (BGroup info) ->
  file_of c "INPUT_IO" = Some io ->
  io !! "ioctl"%string = Some (BGroup ctl) ->
  ctl !! "ydir_restart_out"%string = Some dir ->
  io !! "gribin"%string = Some (BGroup gribin) ->
  let hstart := total_seconds (dt_sub run_end start) / 3600 in
  let org' :=
    <["runctl"%string := BGroup (<["hstart"%string := VInt hstart]> runctl)]> org in
  let drv' :=
    <["seq_infodata_inparm"%string :=
        BGroup (<["start_type"%string := VStr "continue"]> info)]>
      (<["seq_timemgr_inparm"%string :=
           BGroup (<["start_ymd"%string := VInt ymd]> tm)]> drv) in
  let io' :=
    relabel_gribouts (insert "lwrite_const"%string (VBool false))
      (<["gribin"%string := BGroup (<["ydirini"%string := dir]> gribin)]> io) in
  let c' := snd (set_next_run c) in
  (nml c' !! "INPUT_ORG"%string = Some org' /\
   nml c' !! "drv_in"%string = Some drv' /\
   nml c' !! "INPUT_IO"%string = Some io') /\
  (disk_nml c' !! "INPUT_ORG"%string = Some org' /\
   disk_nml c' !! "drv_in"%string = Some drv' /\
   disk_nml c' !! "INPUT_IO"%string = Some io') /\
  io' !! "gribin"%string = Some (BGroup (<["ydirini"%string := dir]> gribin)) /\
  gribouts_of io'
  = map (insert "lwrite_const"%string (VBool false)) (gribouts_of io).
Proof.
  intros Hrs He Hlt Hre Hsd Hymd Horg Hrun Hdrv Htm Hinfo Hio Hctl Hdir Hgribin
         hstart org' drv' io' c'.
  pose proof (set_continuation_some _ _ _ _ _ _ _ _ _ _ _ _ _
                Hre Hsd Hymd Horg Hrun Hdrv Htm Hinfo Hio Hctl Hdir Hgribin)
    as Hc.
  cbv zeta in Hc. fold hstart org' io' in Hc.
  set (drv1 := <["seq_timemgr_inparm"%string := _]> drv) in *.
  fold drv' in Hc.
  set (c4 := put_file "drv_in" drv' _) in Hc.
  assert (N1 : nml c4 !! "INPUT_ORG"%string = Some org').
  { unfold c4. rewrite !nml_put_file_ne by discriminate. apply nml_put_file. }
  assert (N2 : nml c4 !! "drv_in"%string = Some drv') by apply nml_put_file.
  assert (N3 : nml c4 !! "INPUT_IO"%string = Some io').
  { unfold c4. rewrite !nml_put_file_ne by discriminate. apply nml_put_file. }
  set (c5 := set_disk_nml (nml c4 ∪ disk_nml c4) c4).
  assert (Hk : store_is (nml c5) (disk_nml c5) c').
  { unfold c', set_next_run.
    erewrite bind_ok by (unfold attr; rewrite Hrs; reflexivity).
    erewrite bind_ok by reflexivity.
    rewrite He. unfold dt_leb. rewrite Hlt. cbn [negb].
    rewrite (bind_ok _ _ _ _ _ Hc).
    unfold write_open_nml, write_all. unfold bind at 1, modify. fold c5.
    assert (K : keeps (store_is (nml c5) (disk_nml c5))
                  (bind _compute_run_dates (fun _ =>
                   bind _update_controller (fun _ =>
                   bind (attr "_run_start_date" _run_start_date)
                     (fun run_start0 =>
                   bind get (fun c0 =>
                   match _end_date c0 with
                   | Some e0 =>
                       ret (negb (dt_eqb run_start0 e0 && negb (dummy_day c0)))
                   | None => ret true
                   end)))))).
    { apply keeps_bind;
        [eapply keeps_store_compute; [exact N1 | exact N2]|intros ?].
      apply keeps_bind; [apply keeps_store_update_controller|intros ?].
      apply keeps_bind; [apply keeps_attr|intros ?].
      apply keeps_bind; [apply keeps_get|intros c0].
      destruct (_end_date c0); apply keeps_ret. }
    apply K. split; reflexivity. }
  destruct Hk as [Hn Hd]. rewrite Hn, Hd.
  split; [|split; [|split]].
  - simpl. auto.
  - simpl. repeat split.
    + apply lookup_union_Some_l, N1.
    + apply lookup_union_Some_l, N2.
    + apply lookup_union_Some_l, N3.
  - unfold io', relabel_gribouts.
    rewrite lookup_insert_ne by discriminate.
    destruct (io !! "gribout"%string) as [[g|l]|];
      rewrite ?lookup_insert_ne by discriminate; apply lookup_insert_eq.
  - unfold io'. rewrite gribouts_of_relabel. f_equal.
    unfold gribouts_of. now rewrite lookup_insert_ne by discriminate.
Qed.

(** C3 (amended): the case built for 2020-01-01-00 to 2020-01-03-00 with
    run length '1d' holds the chunk [01-01, 01-02) after construction.  The
    first call of [set_next_run] returns [True] and leaves the chunk
    [01-02, 01-03).  The second call leaves the one-day chunk
    [01-03, 01-04) and returns [True] with [dummy_day] and [False] without.
    The third call returns [False] and changes nothing. *)
Theorem restart_chain_of_two_days (dummy : bool) :
  fst (build dummy) = Ok tt /\
  chunk (built dummy) = (Some (date 2020 1 1), Some (date 2020 1 2)) /\
  answer (built dummy) = Ok true /\
  chunk (advance (built dummy)) = (Some (date 2020 1 2), Some (date 2020 1 3)) /\
  answer (advance (built dummy)) = Ok dummy /\
  chunk (advance (advance (built dummy)))
  = (Some (date 2020 1 3), Some (date 2020 1 4)) /\
  set_next_run (advance (advance (built dummy)))
  = (Ok false, advance (advance (built dummy))).
Proof.
  destruct dummy;
    (do 6 (apply conj; [vm_compute; reflexivity|]));
    (apply (set_next_run_stops _ (date 2020 1 3) (date 2020 1 3));
     vm_compute; reflexivity).
Qed.

End RestartChain.

(** ** The statements at work on the two-day case *)

Lemma run_end_bounded_before_final_day_witness :
  _end_date loaded = Some (date 2020 1 3) /\
  fst (_compute_run_dates loaded) = Ok tt /\
  exists run_end,
    _run_end_date (snd (_compute_run_dates loaded)) = Some run_end /\
    dt_leb run_end (date 2020 1 3) = true /\
    exists d, add_time_from_str (date 2020 1 1) "1d" = Ok d /\
              run_end = dt_min d (date 2020 1 3).
Proof.
  assert (H1 : _end_date loaded = Some (date 2020 1 3)) by reflexivity.
  assert (H2 : fst (_compute_run_dates loaded) = Ok tt)
    by (vm_compute; reflexivity).
  split; [exact H1 | split; [exact H2|]].
  destruct (run_end_bounded_before_final_day loaded (date 2020 1 3) H1 H2)
    as [run_start [run_end [Hs [He [_ [_ [Hbefore _]]]]]]].
  exists run_end. split; [exact He|].
  vm_compute in Hs. injection Hs as <-.
  exact (Hbefore eq_refl).
Defined.

(** On the day the run start reaches the end date, the run end is the day
    after: the bound of C1 does not hold in that branch. *)
Lemma run_end_exceeds_end_on_final_day :
  ~ (forall c e run_end,
       _end_date c = Some e ->
       fst (_compute_run_dates c) = Ok tt ->
       _run_end_date (snd (_compute_run_dates c)) = Some run_end ->
       dt_leb run_end e = true).
Proof.
  intros Hall.
  specialize (Hall last_day (date 2020 1 3) (date 2020 1 4)).
  assert (H1 : _end_date last_day = Some (date 2020 1 3)) by reflexivity.
  assert (H2 : fst (_compute_run_dates last_day) = Ok tt)
    by (vm_compute; reflexivity).
  assert (H3 : _run_end_date (snd (_compute_run_dates last_day))
               = Some (date 2020 1 4)) by (vm_compute; reflexivity).
  specialize (Hall H1 H2 H3). clear H1 H2 H3.
  vm_compute in Hall. discriminate.
Qed.

Lemma differing_start_dates_raise_witness :
  fst (_compute_run_dates skewed) = Raise start_mismatch.
Proof.
  edestruct (differing_start_dates_raise skewed
               {[ "runctl"%string := BGroup runctl_late ]} runctl_late
               "2020010100" (date 2020 1 1) (VInt 1) 1 (mktd 0 3600)
               (mkdt 2020 1 1 1 0 0) drv_in0 timemgr0 (VInt 20200101)
               "20200101" (date 2020 1 1)) as [T _];
    [reflexivity.. | discriminate | exact T].
Defined.

Lemma check_gribout_keeps_blocks_reaching_threshold_witness :
  exists c',
    _check_gribout loaded = (Ok tt, c') /\
    file_of c' "INPUT_IO"
    = Some (<["ioctl"%string := BGroup (<["ngribout"%string := VInt 1]> ioctl0)]>
              (<["gribout"%string := BList [block_1h]]> INPUT_IO0)).
Proof.
  assert (Hg : [block_1h; block_48h] = gribouts_of INPUT_IO0) by reflexivity.
  assert (Hall : Forall (fun g => exists t, threshold g = Ok t)
                   (gribouts_of INPUT_IO0)).
  { rewrite <- Hg. constructor; [exists 1; reflexivity|].
    constructor; [exists 48; reflexivity | constructor]. }
  destruct (check_gribout_keeps_blocks_reaching_threshold loaded (mktd 1 0)
              INPUT_IO0 eq_refl eq_refl Hall)
    as [_ [T _]].
  eexists. split.
  - apply T; [rewrite <- Hg; discriminate | reflexivity].
  - rewrite file_of_put_file, <- Hg. reflexivity.
Defined.

Lemma proc_config_layout_witness :
  _n_nodes (snd (_build_proc_config loaded)) = Some 2 /\
  files (snd (_build_proc_config loaded)) !! "proc_config"%string
  = Some ("0-11 ./cosmo" ++ nl ++ "12-23 ./cesm.exe" ++ nl)%string.
Proof.
  destruct (proc_config_layout loaded INPUT_ORG0 runctl0 4 3 drv_in0 pes0 12)
    as [_ [_ [T1 T2]]]; [reflexivity..|].
  split; [exact T1 | rewrite T2; reflexivity].
Defined.

Lemma year_month_form_keeps_day_and_hour_witness :
  add_time_from_str (mkdt 2020 6 15 7 30 12) "+14m"
  = Ok (mkdt 2021 8 15 7 0 0).
Proof.
  destruct (year_month_form_keeps_day_and_hour
              (mkdt 2020 6 15 7 30 12) "+14" 14 false eq_refl)
    as [_ [T _]].
  apply T; vm_compute; split; discriminate.
Defined.

(** January 31st plus one month raises, where the claim asks for the last
    day of February; and minutes do not survive. *)
Lemma year_month_form_neither_clamps_nor_keeps_minutes :
  add_time_from_str (mkdt 2020 1 31 0 0 0) "1m"
  = Raise (ValueError "day is out of range for month") /\
  add_time_from_str (mkdt 2020 1 15 10 30 0) "1m" = Ok (mkdt 2020 2 15 10 0 0) /\
  minute (mkdt 2020 2 15 10 0 0) <> minute (mkdt 2020 1 15 10 30 0).
Proof.
  split; [|split]; [vm_compute; reflexivity.. | discriminate].
Qed.

Lemma set_next_run_terminal_is_noop_witness :
  @set_next_run never_matches finished = (Ok false, finished).
Proof.
  apply (@set_next_run_terminal_is_noop never_matches finished
           (date 2020 1 3) (date 2020 1 3)); reflexivity.
Defined.

Lemma set_next_run_prepares_continuation_witness :
  disk_nml (@advance never_matches loaded) !! "INPUT_ORG"%string
  = Some (<["runctl"%string := BGroup (<["hstart"%string := VInt 24]> runctl0)]>
            INPUT_ORG0) /\
  disk_nml (@advance never_matches loaded) !! "drv_in"%string
  = Some (<["seq_infodata_inparm"%string :=
              BGroup (<["start_type"%string := VStr "continue"]> infodata0)]>
            (<["seq_timemgr_inparm"%string :=
                 BGroup (<["start_ymd"%string := VInt 20200102]> timemgr0)]>
               drv_in0)).
Proof.
  edestruct (@set_next_run_prepares_continuation never_matches loaded
               (date 2020 1 1) (date 2020 1 3) (date 2020 1 2) (date 2020 1 1)
               20200102 INPUT_ORG0 runctl0 drv_in0 timemgr0 infodata0
               INPUT_IO0 ioctl0 (VStr "COSMO_output/restart") gribin0)
    as [_ [[T1 [T2 _]] _]]; [reflexivity..|].
  split; [exact T1 | exact T2].
Defined.

(** Without the dummy day the second call already returns [False], and
    what the first call leaves is the second chunk, not the first. *)
Lemma second_call_already_returns_false :
  ~ (@answer never_matches (@built never_matches false) = Ok true /\
     @answer never_matches (@advance never_matches (@built never_matches false))
     = Ok true /\
     @answer never_matches
       (@advance never_matches
          (@advance never_matches (@built never_matches false)))
     = Ok false).
Proof.
  intros [_ [H2 _]]. vm_compute in H2. discriminate.
Qed.

Lemma restart_chain_of_two_days_witness :
  @answer never_matches (@advance never_matches (@built never_matches false))
  = Ok false.
Proof.
  destruct (@restart_chain_of_two_days never_matches false)
    as [_ [_ [_ [_ [T _]]]]].
  exact T.
Defined.


(** ** More on the duration parser *)

Section DurationForms.

Lemma int_char_no_unit c : int_char c = true -> no_unit c = true.
Proof. destruct c as [[] [] [] [] [] [] [] []]; try reflexivity; discriminate. Qed.

Lemma no_unit_no_ym c : no_unit c = true -> no_ym c = true.
Proof.
  unfold no_unit, no_ym. intros [[Hy Hm]%andb_true_iff _]%andb_true_iff.
  now rewrite Hy, Hm.
Qed.

Lemma scan_d_app s a : forall b k st,
  scan_d s k (a ++ b) st
  = (do st' <- scan_d s k a st; scan_d s (k + length a) b st')%res.
Proof.
  induction a as [|c a IH]; intros b k st; simpl.
  - now rewrite Nat.add_0_r.
  - destruct (if Ascii.eqb c "d" then _ else _) as [st'|e]; simpl; [|reflexivity].
    rewrite IH. now rewrite Nat.add_succ_r.
Qed.

Lemma scan_d_other s a : forall k st,
  forallb no_unit a = true -> scan_d s k a st = Ok st.
Proof.
  induction a as [|c a IH]; intros k st; simpl; [reflexivity|].
  intros [Hc Ha]%andb_true_iff.
  unfold no_unit in Hc. apply andb_true_iff in Hc as [_ Hd].
  apply negb_true_iff in Hd. rewrite Hd. simpl. now apply IH.
Qed.

Lemma slice_prefix3 (l u r : list ascii) : slice (l ++ u ++ r) 0 (length l) = l.
Proof. apply slice_prefix. Qed.

Lemma day_form_equation (d : datetime) (s rest : string) (n : Z) :
  py_int (chars s) = Ok n ->
  forallb no_unit (chars rest) = true ->
  add_time_from_str d (s ++ "d" ++ rest)
  = (do t <- timedelta_days n; dt_add d t)%res.
Proof.
  intros Hn Hrest. unfold add_time_from_str. rewrite !chars_app.
  change (chars "d") with ["d"%char].
  assert (Hs : forallb no_unit (chars s) = true).
  { eapply forallb_weaken; [apply int_char_no_unit | eapply py_int_chars, Hn]. }
  assert (Hall : forallb no_ym (chars s ++ ["d"%char] ++ chars rest) = true).
  { rewrite !forallb_app. simpl.
    rewrite (forallb_weaken _ _ _ no_unit_no_ym Hs).
    now rewrite (forallb_weaken _ _ _ no_unit_no_ym Hrest). }
  rewrite (scan_ym_other _ _ 0%nat _ Hall). simpl rbind. simpl andb. cbv iota.
  rewrite scan_d_app, (scan_d_other _ _ _ _ Hs). simpl rbind.
  simpl scan_d. rewrite slice_prefix, Hn. simpl rbind.
  rewrite (scan_d_other _ _ _ _ Hrest). simpl rbind. simpl fst. simpl snd.
  rewrite (length_pos_of_int _ _ Hn). reflexivity.
Qed.

(** X1: a duration text with none of the letters y, m and d in it is
    refused with the ValueError that names the text, whatever the date. *)
Theorem text_without_unit_is_rejected (d : datetime) (s : string) :
  forallb no_unit (chars s) = true ->
  add_time_from_str d s = Raise (bad_increment s).
Proof.
  intros Hs. unfold add_time_from_str.
  rewrite (scan_ym_other _ _ 0%nat _ (forallb_weaken _ _ _ no_unit_no_ym Hs)).
  simpl rbind. simpl andb. cbv iota.
  rewrite (scan_d_other _ _ _ _ Hs). reflexivity.
Qed.

(** X2: in the year form and in the month form, what follows the unit
    letter is not looked at, as long as no further y or m is in it: '2years'
    adds what '2y' adds. *)
Theorem text_after_year_or_month_is_ignored
    (d : datetime) (s rest : string) (n : Z) (by_year : bool) :
  py_int (chars s) = Ok n ->
  forallb no_ym (chars rest) = true ->
  add_time_from_str d (s ++ unit_letter by_year ++ rest)
  = add_time_from_str d (s ++ unit_letter by_year).
Proof.
  intros Hn Hrest.
  rewrite (add_time_one_unit d s n by_year Hn).
  unfold add_time_from_str. rewrite !chars_app.
  assert (Hs : forallb no_ym (chars s) = true).
  { eapply forallb_weaken; [apply int_char_no_ym | eapply py_int_chars, Hn]. }
  rewrite scan_ym_app, (scan_ym_other _ _ _ _ Hs). simpl rbind.
  destruct by_year; simpl unit_letter.
  - change (chars "y") with ["y"%char]. simpl app.
    simpl scan_ym. unfold step_ym. simpl.
    rewrite slice_prefix, Hn. simpl.
    rewrite (scan_ym_other _ _ _ _ Hrest). simpl.
    rewrite (length_pos_of_int _ _ Hn). reflexivity.
  - change (chars "m") with ["m"%char]. simpl app.
    simpl scan_ym. unfold step_ym. simpl.
    rewrite slice_prefix, Hn. simpl.
    rewrite (scan_ym_other _ _ _ _ Hrest). simpl.
    rewrite (length_pos_of_int _ _ Hn). reflexivity.
Qed.

(** X3: adding 12 k months gives what adding k years gives, result or
    error alike. *)
Theorem twelve_months_are_a_year (d : datetime) (s1 s2 : string) (k : Z) :
  py_int (chars s1) = Ok (12 * k) ->
  py_int (chars s2) = Ok k ->
  1 <= month d <= 12 ->
  add_time_from_str d (s1 ++ "m") = add_time_from_str d (s2 ++ "y").
Proof.
  intros H1 H2 Hm.
  pose proof (add_time_one_unit d s1 (12 * k) false H1) as E1.
  pose proof (add_time_one_unit d s2 k true H2) as E2.
  simpl unit_letter in E1, E2. rewrite E1, E2. cbv zeta.
  assert (Ediv : (12 * k + month d - 1) / 12 = k).
  { replace (12 * k + month d - 1) with (month d - 1 + k * 12) by lia.
    rewrite Z.div_add by lia. rewrite Z.div_small by lia. lia. }
  assert (Emod : (12 * k + month d - 1) mod 12 = month d - 1).
  { replace (12 * k + month d - 1) with (month d - 1 + k * 12) by lia.
    rewrite Z.mod_add by lia. apply Z.mod_small. lia. }
  replace (0 + month d - 1) with (month d - 1) by lia.
  rewrite Ediv, Emod, (Z.div_small (month d - 1)), (Z.mod_small (month d - 1))
    by lia.
  f_equal. lia.
Qed.

(** X4: when adding N months to a date on a whole hour gives a date,
    adding -N months to that date gives the first one back. *)
Theorem months_forth_and_back (d d1 : datetime) (s s' : string) (n : Z) :
  py_int (chars s) = Ok n ->
  py_int (chars s') = Ok (- n) ->
  valid d -> minute d = 0 -> second d = 0 ->
  add_time_from_str d (s ++ "m") = Ok d1 ->
  add_time_from_str d1 (s' ++ "m") = Ok d.
Proof.
  intros Hn Hn' (Hy & Hm & Hd & Hh & _) Hmin Hsec H1.
  pose proof (add_time_one_unit d s n false Hn) as E1.
  simpl unit_letter in E1. rewrite E1 in H1. cbv zeta in H1.
  apply datetime_new_ok in H1. subst d1.
  pose proof (add_time_one_unit
                (mkdt (year d + (0 + (n + month d - 1) / 12))
                      ((n + month d - 1) mod 12 + 1) (day d) (hour d) 0 0)
                s' (- n) false Hn') as E2.
  simpl unit_letter in E2. rewrite E2. cbv zeta. simpl.
  set (q := (n + month d - 1) / 12).
  set (r := (n + month d - 1) mod 12).
  assert (Hqr : n + month d - 1 = 12 * q + r) by (apply Z.div_mod; lia).
  assert (Hr : 0 <= r < 12) by (apply Z.mod_pos_bound; lia).
  replace (- n + (r + 1) - 1) with (month d - 1 + (- q) * 12) by lia.
  rewrite Z.div_add, Z.mod_add by lia.
  rewrite (Z.div_small (month d - 1)), (Z.mod_small (month d - 1)) by lia.
  replace (year d + (0 + q) + (0 + (0 + - q))) with (year d) by lia.
  replace (month d - 1 + 1) with (month d) by lia.
  unfold datetime_new.
  replace ((1 <=? year d) && (year d <=? 9999)) with true
    by (symmetry; apply andb_true_iff; lia).
  replace ((1 <=? month d) && (month d <=? 12)) with true
    by (symmetry; apply andb_true_iff; lia).
  replace ((1 <=? day d) && (day d <=? days_in_month (year d) (month d))) with true
    by (symmetry; apply andb_true_iff; lia).
  replace ((0 <=? hour d) && (hour d <=? 23)) with true
    by (symmetry; apply andb_true_iff; lia).
  simpl. destruct d; simpl in *. now subst.
Qed.

End DurationForms.


(** ** More on the namelist cache *)

Section CacheUse.

Lemma nml_getitem_eq c n :
  nml_getitem n c
  = (match file_of c n with Some f => Ok f | None => Raise (IOError n) end,
     cache_in n c).
Proof.
  destruct (file_of c n) as [f|] eqn:E.
  - now apply nml_getitem_some.
  - rewrite (nml_getitem_none _ _ E). unfold cache_in.
    unfold file_of in E. destruct (nml c !! n); [discriminate|]. now rewrite E.
Qed.

Lemma nml_cache_in_ne c n n' : n <> n' -> nml (cache_in n c) !! n' = nml c !! n'.
Proof.
  intros Hne. unfold cache_in. destruct (nml c !! n); [reflexivity|].
  destruct (disk_nml c !! n); [|reflexivity]. simpl. now rewrite lookup_insert_ne.
Qed.

Lemma disk_cache_in c n : disk_nml (cache_in n c) = disk_nml c.
Proof. destruct (cache_in_attrs n c) as [m ->]. reflexivity. Qed.

(** X5: asking the cache for a namelist file gives the cached copy, else
    the file of the case directory, else an IOError; asking again gives
    the same answer and changes nothing more; no other entry of the cache
    and no file is touched, and a failed request leaves the case as it
    was. *)
Theorem namelist_is_read_once (c : case) (name : string) :
  let r := fst (nml_getitem name c) in
  let c1 := snd (nml_getitem name c) in
  r = match nml c !! name, disk_nml c !! name with
      | Some f, _ => Ok f
      | None, Some f => Ok f
      | None, None => Raise (IOError name)
      end /\
  nml_getitem name c1 = (r, c1) /\
  disk_nml c1 = disk_nml c /\
  (forall other, other <> name -> nml c1 !! other = nml c !! other) /\
  (disk_nml c !! name = None -> c1 = c).
Proof.
  intros r c1. unfold r, c1. rewrite nml_getitem_eq. simpl.
  split; [|split; [|split; [|split]]].
  - unfold file_of. destruct (nml c !! name); [reflexivity|].
    destruct (disk_nml c !! name); reflexivity.
  - rewrite nml_getitem_eq, file_of_cache_in, cache_in_idem. reflexivity.
  - apply disk_cache_in.
  - intros other Hne. now apply nml_cache_in_ne.
  - intros Hd. unfold cache_in. rewrite Hd. now destruct (nml c !! name).
Qed.

Lemma nml_read_fst c n b p :
  fst (nml_read n b p c)
  = match file_of c n with
    | Some f => (do g <- get_group f b; get_param g p)%res
    | None => Raise (IOError n)
    end.
Proof.
  unfold nml_read, bind. rewrite nml_getitem_eq.
  destruct (file_of c n); reflexivity.
Qed.

Lemma nml_assign_inv c n b p v :
  fst (nml_assign n b p v c) = Ok tt ->
  exists f g, file_of c n = Some f /\ f !! b = Some (BGroup g) /\
    nml_assign n b p v c
    = (Ok tt, put_file n (<[b := BGroup (<[p := v]> g)]> f) c).
Proof.
  intros Hok. destruct (file_of c n) as [f|] eqn:Hf.
  2:{ unfold nml_assign in Hok.
      rewrite (bind_raise _ _ _ _ _ (nml_getitem_none _ _ Hf)) in Hok.
      discriminate. }
  destruct (f !! b) as [[g|l]|] eqn:Hb.
  - exists f, g. repeat split; try assumption. now apply nml_assign_some.
  - unfold nml_assign in Hok.
    rewrite (bind_ok _ _ _ _ _ (nml_getitem_some _ _ _ Hf)) in Hok.
    unfold bind, lift, get_group in Hok. rewrite Hb in Hok. discriminate.
  - unfold nml_assign in Hok.
    rewrite (bind_ok _ _ _ _ _ (nml_getitem_some _ _ _ Hf)) in Hok.
    unfold bind, lift, get_group in Hok. rewrite Hb in Hok. discriminate.
Qed.

(** X6: with the names of groups and parameters written as f90nml keeps
    them, in lower case: a parameter that has been assigned is read back
    with the value it was given, every other parameter reads as before,
    and the files of the case directory are not written. *)
Theorem assigned_parameter_is_read_back (c : case) (n b p : string) (v : value) :
  stored_name b = true -> stored_name p = true ->
  fst (nml_assign n b p v c) = Ok tt ->
  let c1 := snd (nml_assign n b p v c) in
  fst (nml_read n b p c1) = Ok v /\
  (forall n' b' p',
     stored_name b' = true -> stored_name p' = true ->
     (n', b', p') <> (n, b, p) ->
     fst (nml_read n' b' p' c1) = fst (nml_read n' b' p' c)) /\
  disk_nml c1 = disk_nml c.
Proof.
  intros _ _ Hok c1. destruct (nml_assign_inv _ _ _ _ _ Hok) as (f & g & Hf & Hb & E).
  unfold c1. rewrite E. simpl snd. split; [|split].
  - rewrite nml_read_fst, file_of_put_file. unfold get_group.
    rewrite lookup_insert_eq. simpl. unfold get_param.
    now rewrite lookup_insert_eq.
  - intros n' b' p' _ _ Hne. rewrite !nml_read_fst.
    destruct (decide (n = n')) as [<-|Hn].
    2:{ now rewrite file_of_put_file_ne. }
    rewrite file_of_put_file, Hf. unfold get_group.
    destruct (decide (b = b')) as [<-|Hb'].
    2:{ now rewrite lookup_insert_ne. }
    rewrite lookup_insert_eq, Hb. simpl. unfold get_param.
    destruct (decide (p = p')) as [<-|Hp]; [congruence|].
    now rewrite lookup_insert_ne.
  - reflexivity.
Qed.

End CacheUse.


(** ** More on the run dates *)

Section RunDatesMore.

Lemma bind_inv {A B} (m : M A) (f : A -> M B) c b c' :
  bind m f c = (Ok b, c') ->
  exists a c1, m c = (Ok a, c1) /\ f a c1 = (Ok b, c').
Proof.
  unfold bind. destruct (m c) as [[a|e] c1]; [eauto | discriminate].
Qed.

Lemma lift_inv {A} (r : result A) c a c' :
  lift r c = (Ok a, c') -> r = Ok a /\ c' = c.
Proof. unfold lift. intros E. injection E as -> ->. auto. Qed.

Lemma keeps_blind_getitem P n : store_blind P -> keeps P (nml_getitem n).
Proof.
  intros HP c Hc. unfold nml_getitem.
  destruct (nml c !! n); [exact Hc|].
  destruct (disk_nml c !! n); [|exact Hc]. simpl. now apply HP.
Qed.

Lemma keeps_blind_read P n b p : store_blind P -> keeps P (nml_read n b p).
Proof.
  intros HP. apply keeps_bind; [now apply keeps_blind_getitem|].
  intros; apply keeps_lift.
Qed.

Lemma keeps_blind_assign P n b p v : store_blind P -> keeps P (nml_assign n b p v).
Proof.
  intros HP. unfold nml_assign.
  apply keeps_bind; [now apply keeps_blind_getitem|intros f].
  apply keeps_bind; [apply keeps_lift|intros g].
  apply keeps_modify. intros c Hc. now apply HP.
Qed.

Lemma keeps_blind_assign_block P n b blk :
  store_blind P -> keeps P (nml_assign_block n b blk).
Proof.
  intros HP. unfold nml_assign_block.
  apply keeps_bind; [now apply keeps_blind_getitem|intros f].
  apply keeps_modify. intros c Hc. now apply HP.
Qed.

Lemma keeps_blind_del_block P n b : store_blind P -> keeps P (nml_del_block n b).
Proof.
  intros HP. unfold nml_del_block.
  apply keeps_bind; [now apply keeps_blind_getitem|intros f].
  destruct (f !! b); [|apply keeps_raise].
  apply keeps_modify. intros c Hc. now apply HP.
Qed.

Lemma keeps_blind_write_file P name text :
  store_blind P -> keeps P (write_file name text).
Proof. intros HP. apply keeps_modify. intros c Hc. now apply HP. Qed.

Lemma keeps_blind_write_all P : store_blind P -> keeps P write_all.
Proof. intros HP. apply keeps_modify. intros c Hc. now apply HP. Qed.

Lemma strptime_cesm_midnight s d :
  strptime_cesm s = Ok d -> hour d = 0 /\ minute d = 0 /\ second d = 0.
Proof.
  unfold strptime_cesm, strptime_fixed.
  destruct (negb _); [discriminate|].
  destruct (negb _); [discriminate|].
  intros E. apply datetime_new_ok in E. subst d. auto.
Qed.

Lemma read_start_dates_cesm_midnight c dc de c1 :
  read_start_dates c = (Ok (dc, de), c1) ->
  hour de = 0 /\ minute de = 0 /\ second de = 0.
Proof.
  unfold read_start_dates. intros E.
  do 7 (apply bind_inv in E as (? & ? & _ & E)).
  apply bind_inv in E as (de' & c' & Hde & E).
  unfold ret in E. injection E as _ <- _.
  apply lift_inv in Hde as [Hde _].
  destruct (py_str _) as [s|]; [|discriminate]. simpl in Hde.
  eapply strptime_cesm_midnight, Hde.
Qed.

End RunDatesMore.


Section RunDatesInvariants.

Ltac keeps_run_start :=
  repeat first
    [ apply keeps_blind_read; intros ? Hc; repeat split; intros; exact Hc
    | apply keeps_bind; [|intros ?]
    | apply keeps_ret | apply keeps_raise | apply keeps_lift | apply keeps_get
    | apply keeps_attr
    | apply keeps_modify; intros ? Hc; exact Hc
    | match goal with
      | |- keeps _ (match ?x with _ => _ end) => destruct x
      end ].

Lemma run_dates_open_inv rs c c' :
  run_dates_open rs c = (Ok tt, c') ->
  exists run_end,
    _run_end_date c' = Some run_end /\ _end_date c' = Some run_end /\
    _run_start_date c' = _run_start_date c.
Proof.
  unfold run_dates_open. intros E.
  apply bind_inv in E as (c0 & c1 & Hget & E).
  unfold get in Hget. injection Hget as <- <-.
  apply bind_inv in E as (run_end & c2 & Hre & E).
  unfold bind, modify in E. injection E as <-.
  exists run_end. simpl. repeat split.
  assert (K : keeps (fun x => _run_start_date x = _run_start_date c)
                (match run_length c with
                 | Some rl => lift (add_time_from_str rs rl)
                 | None =>
                     (do nstop <- nml_read "INPUT_ORG" "runctl" "nstop";
                      do dt <- nml_read "INPUT_ORG" "runctl" "dt";
                      do hstart <- nml_read "INPUT_ORG" "runctl" "hstart";
                      do runtime_cosmo <-
                        lift (do n <- as_num nstop; do d <- as_num dt;
                              do h <- as_num hstart;
                              Ok ((n + 1) * d - h * 3600))%res;
                      do stop_n <- nml_read "drv_in" "seq_timemgr_inparm" "stop_n";
                      match as_num stop_n with
                      | Ok runtime_cesm =>
                          if negb (runtime_cosmo =? runtime_cesm)
                          then raise length_mismatch
                          else
                            do t <- lift (timedelta_seconds runtime_cosmo);
                            modify (set_runtime (Some t)) ;;
                            lift (dt_add rs t)
                      | Raise _ => raise length_mismatch
                      end)%M
                 end)).
  { keeps_run_start. }
  specialize (K c eq_refl). rewrite Hre in K. exact K.
Qed.

Lemma run_dates_bounded_inv rs e c c' :
  run_dates_bounded rs e c = (Ok tt, c') ->
  (exists run_end, _run_end_date c' = Some run_end) /\
  _end_date c' = _end_date c /\
  _run_start_date c' = _run_start_date c /\
  (exists rt, _runtime c' = Some rt).
Proof.
  unfold run_dates_bounded.
  destruct (dt_ltb e rs); [discriminate|].
  destruct (dt_eqb rs e).
  - unfold bind, lift, modify. simpl.
    destruct (dt_add e _) as [e'|]; [|discriminate].
    intros E. injection E as <-. simpl. repeat split; eauto.
  - unfold bind, get, lift, ret, modify. simpl.
    destruct (run_length c) as [rl|].
    + destruct (add_time_from_str rs rl) as [d|]; [|discriminate].
      simpl. intros E. injection E as <-. simpl. repeat split; eauto.
    + intros E. injection E as <-. simpl. repeat split; eauto.
Qed.

(** X8: when [_compute_run_dates] returns, the run start is assigned
    and is a midnight, the run end and the end date are assigned, and an
    end date that was set is the one it was. *)
Theorem computed_run_start_is_a_midnight (c : case) :
  fst (_compute_run_dates c) = Ok tt ->
  let c' := snd (_compute_run_dates c) in
  starts_at_midnight c' /\
  (exists run_end, _run_end_date c' = Some run_end) /\
  (exists e, _end_date c' = Some e) /\
  (forall e, _end_date c = Some e -> _end_date c' = Some e).
Proof.
  rewrite compute_run_dates_unfold.
  pose proof (read_start_dates_attrs c) as [m Hm].
  destruct (read_start_dates c) as [[[dc de]|ex] c1] eqn:Hr; [|discriminate].
  apply read_start_dates_cesm_midnight in Hr.
  simpl in Hm. subst c1.
  destruct (dt_eqb dc de) eqn:Heq; [|discriminate].
  apply dt_eqb_eq in Heq. subst de. simpl negb. cbv iota.
  destruct (_end_date c) as [e|] eqn:He.
  - destruct (run_dates_bounded dc e _) as [[[]|ex] c'] eqn:E; [|discriminate].
    intros _. apply run_dates_bounded_inv in E as (Hre & Hend & Hrs & _).
    simpl in *. unfold starts_at_midnight. rewrite Hrs, Hend, He.
    repeat split; eauto.
  - destruct (run_dates_open dc _) as [[[]|ex] c'] eqn:E; [|discriminate].
    intros _. apply run_dates_open_inv in E as (re & Hre & Hend & Hrs).
    simpl in *. unfold starts_at_midnight. rewrite Hrs.
    repeat split; eauto. discriminate.
Qed.

End RunDatesInvariants.


Section RunDatesBranches.

Lemma keeps_file_of_getitem c0 name :
  keeps (fun x => forall n, file_of x n = file_of c0 n) (nml_getitem name).
Proof.
  intros c Hc n. rewrite nml_getitem_eq. simpl.
  now rewrite file_of_cache_in.
Qed.

Lemma keeps_file_of_read c0 f b p :
  keeps (fun x => forall n, file_of x n = file_of c0 n) (nml_read f b p).
Proof.
  apply keeps_bind; [apply keeps_file_of_getitem | intros; apply keeps_lift].
Qed.

Lemma read_start_dates_file_of c n :
  file_of (snd (read_start_dates c)) n = file_of c n.
Proof.
  revert n.
  assert (K : keeps (fun x => forall n, file_of x n = file_of c n)
                read_start_dates).
  { unfold read_start_dates.
    repeat first [ apply keeps_file_of_read
                 | apply keeps_file_of_getitem
                 | apply keeps_bind; [|intros ?]
                 | apply keeps_lift | apply keeps_ret ]. }
  apply K. reflexivity.
Qed.

(** [_compute_run_dates] once the two start dates were read and agree. *)
Lemma compute_run_dates_agreed c rs :
  fst (read_start_dates c) = Ok (rs, rs) ->
  exists m,
    (forall n, file_of (set_nml m c) n = file_of c n) /\
    _compute_run_dates c
    = match _end_date c with
      | Some e => run_dates_bounded rs e (set_run_start_date (Some rs) (set_nml m c))
      | None => run_dates_open rs (set_run_start_date (Some rs) (set_nml m c))
      end.
Proof.
  intros Hr. rewrite compute_run_dates_unfold.
  pose proof (read_start_dates_attrs c) as [m Hm].
  pose proof (read_start_dates_file_of c) as Hf.
  destruct (read_start_dates c) as [r c1]. simpl in *. subst r c1.
  exists m. split; [exact Hf|].
  replace (dt_eqb rs rs) with true by (symmetry; now apply dt_eqb_eq).
  reflexivity.
Qed.

(** X9: when the two start dates agree on a date after the end date,
    [_compute_run_dates] raises the ValueError of that case; the run start
    has been assigned by then, the run end, the run time and the end date
    have not been touched. *)
Theorem run_start_after_end_is_refused (c : case) (rs e : datetime) :
  fst (read_start_dates c) = Ok (rs, rs) ->
  _end_date c = Some e ->
  dt_ltb e rs = true ->
  let c' := snd (_compute_run_dates c) in
  fst (_compute_run_dates c) = Raise start_after_end /\
  _run_start_date c' = Some rs /\
  _run_end_date c' = _run_end_date c /\
  _runtime c' = _runtime c /\
  _end_date c' = Some e.
Proof.
  intros Hr He Hlt.
  destruct (compute_run_dates_agreed c rs Hr) as (m & _ & E).
  rewrite E, He. unfold run_dates_bounded. rewrite Hlt. simpl.
  now rewrite He.
Qed.

(** X10: for a case without end date and without run length, the run
    time is the one of the namelists, as long as the numbers are small
    enough for the floats of [(nstop + 1) * dt - hstart * 3600.0] to be
    exact: when that number is not [stop_n] the ValueError of the run
    lengths is raised and the end date stays unset; when it is, the run
    time is that many seconds, and the run end and the end date are the
    run start plus it. *)
Theorem open_ended_case_takes_the_namelist_duration
    (c : case) (rs : datetime) org runctl nstop dt h drv tm stop_n :
  _end_date c = None ->
  run_length c = None ->
  fst (read_start_dates c) = Ok (rs, rs) ->
  file_of c "INPUT_ORG" = Some org ->
  org !! "runctl"%string = Some (BGroup runctl) ->
  runctl !! "nstop"%string = Some (VInt nstop) ->
  runctl !! "dt"%string = Some (VInt dt) ->
  runctl !! "hstart"%string = Some (VInt h) ->
  file_of c "drv_in" = Some drv ->
  drv !! "seq_timemgr_inparm"%string = Some (BGroup tm) ->
  tm !! "stop_n"%string = Some (VInt stop_n) ->
  runtime_exact nstop dt h ->
  let runtime_cosmo := (nstop + 1) * dt - h * 3600 in
  let c' := snd (_compute_run_dates c) in
  (runtime_cosmo <> stop_n ->
     fst (_compute_run_dates c) = Raise length_mismatch /\
     _end_date c' = None) /\
  (runtime_cosmo = stop_n ->
     forall t run_end,
       timedelta_seconds stop_n = Ok t -> dt_add rs t = Ok run_end ->
       fst (_compute_run_dates c) = Ok tt /\
       _run_start_date c' = Some rs /\
       _runtime c' = Some t /\
       _run_end_date c' = Some run_end /\
       _end_date c' = Some run_end).
Proof.
  intros He Hrl Hr Horg Hrun Hnstop Hdt Hh Hdrv Htm Hstop _ runtime_cosmo c'.
  destruct (compute_run_dates_agreed c rs Hr) as (m & Hf & E).
  unfold c'. rewrite E, He. clear E.
  set (c0 := set_run_start_date (Some rs) (set_nml m c)).
  assert (Hf0 : forall n, file_of c0 n = file_of c n) by exact Hf.
  unfold run_dates_open.
  erewrite bind_ok by reflexivity.
  change (run_length c0) with (run_length c). rewrite Hrl.
  assert (Horg0 : file_of c0 "INPUT_ORG" = Some org) by now rewrite Hf0.
  assert (Hdrv0 : file_of c0 "drv_in" = Some drv) by now rewrite Hf0.
  match goal with
  | |- context [@bind datetime unit ?X _ c0] => set (X0 := X)
  end.
  assert (HX : exists c1,
             _end_date c1 = None /\ _run_start_date c1 = Some rs /\
             _run_end_date c1 = _run_end_date c /\
             X0 c0
             = (if negb (runtime_cosmo =? stop_n)
                then raise length_mismatch
                else
                  (do t <- lift (timedelta_seconds runtime_cosmo);
                   modify (set_runtime (Some t)) ;;
                   lift (dt_add rs t))%M) c1).
  { unfold X0. read_step. read_step. read_step.
    erewrite bind_ok by reflexivity. read_step.
    cbn [as_num VInt scalar_num]. fold runtime_cosmo.
    set (c1 := cache_in "drv_in" _).
    assert (Ec1 : exists m1, c1 = set_nml m1 c0).
    { unfold c1.
      destruct (cache_in_chain3 "INPUT_ORG" "INPUT_ORG" "INPUT_ORG" c0)
        as [m1 ->].
      destruct (cache_in_attrs "drv_in" (set_nml m1 c0)) as [m2 ->].
      now exists m2. }
    destruct Ec1 as [m1 Ec1]. exists c1.
    split; [rewrite Ec1; exact He|].
    split; [rewrite Ec1; reflexivity|].
    split; [rewrite Ec1; reflexivity | reflexivity]. }
  destruct HX as (c1 & A1 & A2 & A3 & HX). clearbody X0.
  split.
  - intros Hne.
    replace (runtime_cosmo =? stop_n) with false in HX
      by (symmetry; apply Z.eqb_neq; exact Hne).
    rewrite (bind_raise _ _ _ _ _ HX). simpl. auto.
  - intros Heq t run_end Ht Hadd.
    replace (runtime_cosmo =? stop_n) with true in HX
      by (symmetry; apply Z.eqb_eq; exact Heq).
    simpl negb in HX. cbv iota in HX.
    unfold bind at 1 2, lift, modify in HX. rewrite Heq, Ht in HX.
    simpl in HX. rewrite Hadd in HX.
    rewrite (bind_ok _ _ _ _ _ HX). unfold bind, modify. simpl. auto.
Qed.

End RunDatesBranches.


(** ** The apply phase *)

Section ApplyPhase.
Context `{RegexLib}.

Lemma files_cache_in n c : files (cache_in n c) = files c.
Proof. destruct (cache_in_attrs n c) as [m ->]. reflexivity. Qed.

Lemma relabel_other f io b :
  b <> "gribout"%string -> relabel_gribouts f io !! b = io !! b.
Proof.
  intros Hb. unfold relabel_gribouts.
  destruct (io !! "gribout"%string) as [[g|l]|]; [| |reflexivity];
    now rewrite lookup_insert_ne.
Qed.

Lemma map_until_forall {A} (body : A -> result A) (f : A -> A) l :
  Forall (fun x => body x = Ok (f x)) l -> map_until body l = (None, map f l).
Proof.
  induction 1 as [|x l Hx _ IH]; simpl; [reflexivity|]. now rewrite Hx, IH.
Qed.

Lemma for_gribouts_forall body f c io :
  Forall (fun g => body g = Ok (f g)) (gribouts_of io) ->
  file_of c "INPUT_IO" = Some io ->
  for_gribouts body c = (Ok tt, put_file "INPUT_IO" (relabel_gribouts f io) c).
Proof.
  intros Hb Hio. unfold for_gribouts.
  rewrite (bind_ok _ _ _ _ _ (get_gribouts_some _ _ Hio)).
  rewrite (map_until_forall _ _ _ Hb).
  assert (Hio' : file_of (cache_in "INPUT_IO" c) "INPUT_IO" = Some io)
    by now rewrite file_of_cache_in.
  unfold store_gribouts, relabel_gribouts, gribouts_of.
  unfold bind at 1.
  rewrite (bind_ok _ _ _ _ _ (nml_getitem_some _ _ _ Hio')).
  rewrite cache_in_idem.
  destruct (io !! "gribout"%string) as [[g|l]|] eqn:E; cbn [map].
  - rewrite (nml_assign_block_some _ _ _ _ _ Hio').
    now rewrite put_file_cache_in.
  - rewrite (nml_assign_block_some _ _ _ _ _ Hio').
    now rewrite put_file_cache_in.
  - unfold ret. now rewrite (put_file_loaded _ _ _ Hio).
Qed.

Lemma set_hcomb_with_window a b g :
  has_hcomb_list g -> set_hcomb a b g = Ok (with_window a b g).
Proof. intros [l Hl]. unfold set_hcomb, with_window. now rewrite Hl. Qed.

Lemma threshold_with_window a b g : threshold (with_window a b g) = threshold g.
Proof.
  unfold with_window, threshold.
  destruct (g !! "hcomb"%string) as [[x|l]|] eqn:E; rewrite ?E; try reflexivity.
  rewrite lookup_insert_eq.
  destruct l as [|x0 [|x1 l]]; reflexivity.
Qed.

Ltac norm_store :=
  repeat first
    [ rewrite file_of_cache_in
    | rewrite file_of_put_file
    | rewrite file_of_put_file_ne by discriminate
    | rewrite put_file_cache_in
    | rewrite put_file_put_file ].

(** X11: [_apply_run_dates] on a case with its groups in place, a time
    step other than 0 and numbers within the exact range of the floats:
    the call returns, [nstop] is the last time step before the end of the
    chunk, every output block gets the window of hours of the chunk and
    keeps its threshold, [nhour_restart], [stop_n] and [restart_n] are set
    from the run time, and nothing is written to the namelist files.  The
    coupler file is the template with every [_runtime_] replaced by the
    run time in seconds, [re.sub] taking that pattern as the plain text it
    is. *)
Theorem apply_run_dates_writes_the_schedule
    c run_start start rt org runctl vdt d io ctl drv tm text :
  _run_start_date c = Some run_start ->
  _start_date c = Some start ->
  _runtime c = Some rt ->
  file_of c "INPUT_ORG" = Some org ->
  org !! "runctl"%string = Some (BGroup runctl) ->
  runctl !! "dt"%string = Some vdt ->
  as_num vdt = Ok d ->
  d <> 0 ->
  file_of c "INPUT_IO" = Some io ->
  Forall has_hcomb_list (gribouts_of io) ->
  io !! "ioctl"%string = Some (BGroup ctl) ->
  file_of c "drv_in" = Some drv ->
  drv !! "seq_timemgr_inparm"%string = Some (BGroup tm) ->
  files c !! "namcouple_tmpl"%string = Some text ->
  schedule_exact (total_seconds (dt_sub run_start start)) (total_seconds rt) d ->
  re_sub "_runtime_" (str_of_Z (total_seconds rt)) text false
  = str_replace "_runtime_" (str_of_Z (total_seconds rt)) text ->
  let hstart := total_seconds (dt_sub run_start start) / 3600 in
  let seconds := total_seconds rt in
  let hstop := hstart + seconds / 3600 in
  let org' :=
    <["runctl"%string :=
        BGroup (<["nstop"%string := VInt (hstop * 3600 / d - 1)]> runctl)]> org in
  let io' :=
    <["ioctl"%string :=
        BGroup (<["nhour_restart"%string :=
                    VList [SInt hstop; SInt hstop; SInt 24]]> ctl)]>
      (relabel_gribouts (with_window hstart hstop) io) in
  let drv' :=
    <["seq_timemgr_inparm"%string :=
        BGroup (<["restart_n"%string := VInt seconds]>
                  (<["stop_n"%string := VInt seconds]> tm))]> drv in
  let c' := snd (_apply_run_dates c) in
  fst (_apply_run_dates c) = Ok tt /\
  file_of c' "INPUT_ORG" = Some org' /\
  file_of c' "INPUT_IO" = Some io' /\
  file_of c' "drv_in" = Some drv' /\
  files c' !! "namcouple"%string
  = Some (str_replace "_runtime_" (str_of_Z seconds) text) /\
  disk_nml c' = disk_nml c /\
  gribouts_of io' = map (with_window hstart hstop) (gribouts_of io) /\
  map threshold (gribouts_of io') = map threshold (gribouts_of io).
Proof.
  intros Hrs Hsd Hrt Horg Hrun Hdt Hd Hd0 Hio Hall Hctl Hdrv Htm Htext
         _ Hsub hstart seconds hstop org' io' drv' c'.
  fold seconds in Hsub.
  set (io1 := relabel_gribouts (with_window hstart hstop) io).
  set (tm1 := <["stop_n"%string := VInt seconds]> tm).
  set (drv1 := <["seq_timemgr_inparm"%string := BGroup tm1]> drv).
  assert (Ed : <["seq_timemgr_inparm"%string :=
                   BGroup (<["restart_n"%string := VInt seconds]> tm1)]> drv1
               = drv').
  { unfold drv1, drv', tm1. now rewrite insert_insert_eq. }
  assert (E : exists cA,
             _apply_run_dates c
             = (Ok tt,
                set_files
                  (<["namcouple"%string :=
                       re_sub "_runtime_" (str_of_Z seconds) text false]>
                     (files cA)) cA) /\
             file_of cA "INPUT_ORG" = Some org' /\
             file_of cA "INPUT_IO" = Some io' /\
             file_of cA "drv_in" = Some drv' /\
             disk_nml cA = disk_nml c).
  { unfold _apply_run_dates.
    erewrite bind_ok by (unfold attr; rewrite Hrs; reflexivity).
    erewrite bind_ok by (unfold attr; rewrite Hsd; reflexivity).
    erewrite bind_ok by (unfold attr; rewrite Hrt; reflexivity).
    fold hstart seconds hstop.
    erewrite bind_ok by (apply nml_getitem_some; eassumption).
    erewrite bind_ok
      by (apply nml_getitem_some; rewrite ?file_of_cache_in; eassumption).
    erewrite bind_ok
      by (apply nml_getitem_some; rewrite ?file_of_cache_in; eassumption).
    read_step.
    erewrite bind_ok by (unfold lift; rewrite Hd; reflexivity).
    replace (d =? 0) with false by (symmetry; now apply Z.eqb_neq).
    erewrite bind_ok
      by (eapply nml_assign_some;
          [rewrite ?file_of_cache_in; eassumption | eassumption]).
    fold org'.
    erewrite bind_ok
      by (eapply for_gribouts_forall;
          [ eapply Forall_impl; [exact Hall|];
            intros g Hg; apply set_hcomb_with_window, Hg
          | norm_store; exact Hio ]).
    fold io1.
    erewrite bind_ok
      by (eapply nml_assign_some;
          [ norm_store; reflexivity
          | unfold io1; rewrite relabel_other by discriminate; exact Hctl ]).
    fold io1 io'.
    erewrite bind_ok
      by (eapply nml_assign_some; [norm_store; exact Hdrv | exact Htm]).
    fold tm1 drv1.
    erewrite bind_ok
      by (eapply nml_assign_some;
          [ norm_store; reflexivity | unfold drv1; apply lookup_insert_eq ]).
    rewrite Ed. norm_store.
    match goal with
    | |- context [bind _ _ ?st] => set (cA := st)
    end.
    assert (HcA : exists m, cA = set_nml m c).
    { unfold cA, put_file.
      repeat match goal with
             | |- context [cache_in ?n ?x] =>
                 destruct (cache_in_attrs n x) as [? ->]
             end.
      eexists. reflexivity. }
    destruct HcA as [mA HcA].
    assert (Hfiles : files cA !! "namcouple_tmpl"%string = Some text)
      by (rewrite HcA; exact Htext).
    exists cA. split; [|split; [|split; [|split]]].
    - erewrite bind_ok by (unfold read_file; rewrite Hfiles; reflexivity).
      reflexivity.
    - unfold cA. norm_store. reflexivity.
    - unfold cA. norm_store. reflexivity.
    - unfold cA. norm_store. reflexivity.
    - rewrite HcA. reflexivity. }
  destruct E as (cA & E & F1 & F2 & F3 & F4).
  unfold c'. rewrite E. simpl fst. simpl snd.
  repeat split; try assumption.
  - simpl. rewrite <- Hsub. apply lookup_insert_eq.
  - unfold io'. unfold gribouts_of at 1.
    rewrite lookup_insert_ne by discriminate.
    fold (gribouts_of (relabel_gribouts (with_window hstart hstop) io)).
    apply gribouts_of_relabel.
  - unfold io'. unfold gribouts_of at 1.
    rewrite lookup_insert_ne by discriminate.
    fold (gribouts_of (relabel_gribouts (with_window hstart hstop) io)).
    rewrite gribouts_of_relabel, map_map.
    apply map_ext. intros g. apply threshold_with_window.
Qed.

End ApplyPhase.


Section ApplyPhaseErrors.
Context `{RegexLib}.

(** X12: with a time step [dt] of zero [_apply_run_dates] raises
    ZeroDivisionError before it has changed a namelist or a file. *)
Theorem apply_run_dates_refuses_a_zero_time_step
    c run_start start rt org runctl vdt io drv :
  _run_start_date c = Some run_start ->
  _start_date c = Some start ->
  _runtime c = Some rt ->
  file_of c "INPUT_ORG" = Some org ->
  org !! "runctl"%string = Some (BGroup runctl) ->
  runctl !! "dt"%string = Some vdt ->
  as_num vdt = Ok 0 ->
  file_of c "INPUT_IO" = Some io ->
  file_of c "drv_in" = Some drv ->
  let c' := snd (_apply_run_dates c) in
  fst (_apply_run_dates c) = Raise ZeroDivisionError /\
  file_of c' "INPUT_ORG" = Some org /\
  file_of c' "INPUT_IO" = Some io /\
  file_of c' "drv_in" = Some drv /\
  files c' = files c /\
  disk_nml c' = disk_nml c.
Proof.
  intros Hrs Hsd Hrt Horg Hrun Hdt Hd Hio Hdrv c'.
  assert (E : exists cA,
             _apply_run_dates c = (Raise ZeroDivisionError, cA) /\
             (forall n, file_of cA n = file_of c n) /\
             exists m, cA = set_nml m c).
  { unfold _apply_run_dates.
    erewrite bind_ok by (unfold attr; rewrite Hrs; reflexivity).
    erewrite bind_ok by (unfold attr; rewrite Hsd; reflexivity).
    erewrite bind_ok by (unfold attr; rewrite Hrt; reflexivity).
    erewrite bind_ok by (apply nml_getitem_some; eassumption).
    erewrite bind_ok
      by (apply nml_getitem_some; rewrite ?file_of_cache_in; eassumption).
    erewrite bind_ok
      by (apply nml_getitem_some; rewrite ?file_of_cache_in; eassumption).
    read_step.
    erewrite bind_ok by (unfold lift; rewrite Hd; reflexivity).
    simpl Z.eqb. cbv iota.
    erewrite bind_raise by reflexivity.
    eexists. split; [reflexivity|]. split.
    - intros n. now rewrite !file_of_cache_in.
    - repeat match goal with
             | |- context [cache_in ?n ?x] =>
                 destruct (cache_in_attrs n x) as [? ->]
             end.
      eexists. reflexivity. }
  destruct E as (cA & E & Hf & m & Em).
  unfold c'. rewrite E. simpl. rewrite !Hf.
  repeat split; try assumption; rewrite Em; reflexivity.
Qed.

(** X13: a case with a run length and no end date: when
    [_compute_run_dates] returns, the run end and the end date are set
    but the run time is not, and [_apply_run_dates], the next call of the
    constructor, raises AttributeError for [_runtime] and changes
    nothing. *)
Theorem run_length_without_end_date_cannot_be_applied
    (c : case) (rl : string) (start : datetime) :
  _end_date c = None ->
  run_length c = Some rl ->
  _runtime c = None ->
  _start_date c = Some start ->
  fst (_compute_run_dates c) = Ok tt ->
  let c' := snd (_compute_run_dates c) in
  _runtime c' = None /\
  (exists run_end, _run_end_date c' = Some run_end /\
                   _end_date c' = Some run_end) /\
  _apply_run_dates c' = (Raise (AttributeError "_runtime"), c').
Proof.
  intros He Hrl Hrt Hsd.
  rewrite compute_run_dates_unfold, He.
  pose proof (read_start_dates_attrs c) as [m Hm].
  destruct (read_start_dates c) as [[[dc de]|ex] c1]; [|discriminate].
  simpl in Hm. subst c1.
  destruct (negb (dt_eqb dc de)); [discriminate|].
  unfold run_dates_open, bind, get, lift, modify. simpl. rewrite Hrl.
  destruct (add_time_from_str dc rl) as [run_end|]; [|discriminate].
  simpl. intros _. split; [exact Hrt|]. split; [eauto|].
  unfold _apply_run_dates, bind, attr. simpl. rewrite Hsd. simpl.
  rewrite Hrt. reflexivity.
Qed.

End ApplyPhaseErrors.

(** ** Decimal texts *)

Section Decimal.

Lemma is_digit_cases c :
  is_digit c = true ->
  c = "0"%char \/ c = "1"%char \/ c = "2"%char \/ c = "3"%char \/
  c = "4"%char \/ c = "5"%char \/ c = "6"%char \/ c = "7"%char \/
  c = "8"%char \/ c = "9"%char.
Proof.
  destruct c as [[] [] [] [] [] [] [] []]; vm_compute; intros E;
    try discriminate E; tauto.
Qed.

Lemma digits_val_uint_acc u acc :
  digits_val (Z.pos acc) (chars (NilEmpty.string_of_uint u))
  = Some (Z.pos (Pos.of_uint_acc u acc)).
Proof.
  revert acc. induction u; intros acc; simpl; try reflexivity;
    change (digits_val (Z.pos acc) (?c :: ?l))
      with (digits_val (Z.pos acc * 10 + digit_val c) l);
    rewrite <- IHu; f_equal; vm_compute digit_val; lia.
Qed.

Lemma digits_val_uint u :
  digits_val 0 (chars (NilEmpty.string_of_uint u))
  = Some (Z.of_N (Pos.of_uint u)).
Proof.
  induction u; simpl; try reflexivity; try exact IHu;
    change (digits_val 0 (?c :: ?l))
      with (digits_val (0 * 10 + digit_val c) l);
    vm_compute digit_val; simpl Z.add;
    apply digits_val_uint_acc.
Qed.

Lemma all_digits_uint u :
  all_digits (chars (NilEmpty.string_of_uint u)) = true.
Proof. induction u; simpl; auto. Qed.

Lemma uint_of_digits l :
  all_digits l = true ->
  exists u, NilEmpty.string_of_uint u = str l /\
    (forall c l', l = c :: l' -> c <> "0"%char ->
       Decimal.unorm u = u /\ u <> Decimal.Nil).
Proof.
  induction l as [|c l IH]; intros Hl.
  - exists Decimal.Nil. split; [reflexivity|]. intros ? ? [=].
  - simpl in Hl. apply andb_true_iff in Hl as [Hc Hl].
    destruct (IH Hl) as (u & Eu & _).
    destruct (is_digit_cases c Hc)
      as [->|[->|[->|[->|[->|[->|[->|[->|[->| ->]]]]]]]]].
    + exists (Decimal.D0 u). simpl. rewrite Eu. split; [reflexivity|].
      intros c l' [= <- _] Hne. congruence.
    + exists (Decimal.D1 u). simpl. rewrite Eu. split; [reflexivity|].
      intros; split; [reflexivity | discriminate].
    + exists (Decimal.D2 u). simpl. rewrite Eu. split; [reflexivity|].
      intros; split; [reflexivity | discriminate].
    + exists (Decimal.D3 u). simpl. rewrite Eu. split; [reflexivity|].
      intros; split; [reflexivity | discriminate].
    + exists (Decimal.D4 u). simpl. rewrite Eu. split; [reflexivity|].
      intros; split; [reflexivity | discriminate].
    + exists (Decimal.D5 u). simpl. rewrite Eu. split; [reflexivity|].
      intros; split; [reflexivity | discriminate].
    + exists (Decimal.D6 u). simpl. rewrite Eu. split; [reflexivity|].
      intros; split; [reflexivity | discriminate].
    + exists (Decimal.D7 u). simpl. rewrite Eu. split; [reflexivity|].
      intros; split; [reflexivity | discriminate].
    + exists (Decimal.D8 u). simpl. rewrite Eu. split; [reflexivity|].
      intros; split; [reflexivity | discriminate].
    + exists (Decimal.D9 u). simpl. rewrite Eu. split; [reflexivity|].
      intros; split; [reflexivity | discriminate].
Qed.

Lemma chars_str l : chars (str l) = l.
Proof. apply list_ascii_of_string_of_list_ascii. Qed.

Lemma str_chars s : str (chars s) = s.
Proof. apply string_of_list_ascii_of_string. Qed.

(** [str(int(s)) == s] for a text of digits without a leading zero. *)
Lemma str_of_num c l :
  all_digits (c :: l) = true -> c <> "0"%char ->
  digits_val 0 (c :: l) = Some (num (c :: l)) /\
  str_of_Z (num (c :: l)) = str (c :: l).
Proof.
  intros Hl Hc.
  destruct (uint_of_digits (c :: l) Hl) as (u & Eu & Hu).
  destruct (Hu c l eq_refl Hc) as [Hn Hnil].
  pose proof (digits_val_uint u) as Hv. rewrite Eu, chars_str in Hv.
  unfold num. rewrite Hv. split; [reflexivity|].
  unfold str_of_Z.
  change (Z.of_N (Pos.of_uint u)) with (Z.of_int (Decimal.Pos u)).
  rewrite DecimalZ.to_of. rewrite <- Eu. unfold Decimal.norm. rewrite Hn.
  destruct u; try reflexivity. congruence.
Qed.

(** [int(str(n)) == n] for a natural number. *)
Lemma num_of_str z :
  0 <= z ->
  all_digits (chars (str_of_Z z)) = true /\
  digits_val 0 (chars (str_of_Z z)) = Some z /\
  chars (str_of_Z z) <> [].
Proof.
  intros Hz. unfold str_of_Z.
  destruct z as [|p|p]; [vm_compute; repeat split; congruence | | lia].
  simpl Z.to_int. simpl NilZero.string_of_int.
  pose proof (DecimalPos.Unsigned.to_uint_nonnil p) as Hnn.
  assert (E : NilZero.string_of_uint (Pos.to_uint p)
              = NilEmpty.string_of_uint (Pos.to_uint p))
    by (destruct (Pos.to_uint p); [congruence | reflexivity ..]).
  rewrite E. split; [apply all_digits_uint|].
  split; [rewrite digits_val_uint, DecimalPos.Unsigned.of_to; reflexivity|].
  destruct (Pos.to_uint p); [congruence | discriminate ..].
Qed.

End Decimal.

(** ** The calendar *)

Section Calendar.

Lemma year_decomp y : 1 <= y ->
  exists a b c e, y = 400 * a + 100 * b + 4 * c + e + 1 /\
    0 <= a /\ 0 <= b <= 3 /\ 0 <= c <= 24 /\ 0 <= e <= 3 /\
    days_before_year y = 146097 * a + 36524 * b + 1461 * c + 365 * e.
Proof.
  intros Hy. unfold days_before_year. cbv zeta.
  exists ((y - 1) / 400), ((y - 1) mod 400 / 100), ((y - 1) mod 100 / 4), ((y - 1) mod 4).
  Z.to_euclidean_division_equations; lia.
Qed.

Lemma is_leap_decomp a b c e :
  0 <= a -> 0 <= b <= 3 -> 0 <= c <= 24 -> 0 <= e <= 3 ->
  is_leap (400 * a + 100 * b + 4 * c + e + 1) =
  (e =? 3) && (negb (c =? 24) || (b =? 3)).
Proof.
  intros Ha Hb Hc He. unfold is_leap.
  assert (E4 : (400 * a + 100 * b + 4 * c + e + 1) mod 4 = (e + 1) mod 4)
    by (Z.to_euclidean_division_equations; lia).
  assert (E100 : (400 * a + 100 * b + 4 * c + e + 1) mod 100 = (4 * c + e + 1) mod 100)
    by (Z.to_euclidean_division_equations; lia).
  assert (E400 : (400 * a + 100 * b + 4 * c + e + 1) mod 400 = (100 * b + 4 * c + e + 1) mod 400)
    by (Z.to_euclidean_division_equations; lia).
  rewrite E4, E100, E400.
  destruct (Z.eqb_spec e 3) as [->|Ne]; simpl.
  - destruct (Z.eqb_spec c 24) as [->|Nc]; simpl.
    + destruct (Z.eqb_spec b 3) as [->|Nb]; simpl; [reflexivity|].
      destruct (Z.eqb_spec ((100 * b + 4 * 24 + 3 + 1) mod 400) 0) as [E|E]; [|reflexivity].
      exfalso. revert E. Z.to_euclidean_division_equations; lia.
    + destruct (Z.eqb_spec ((4 * c + 3 + 1) mod 100) 0) as [E|E]; [|reflexivity].
      exfalso. revert E. Z.to_euclidean_division_equations; lia.
  - destruct (Z.eqb_spec ((e + 1) mod 4) 0) as [E|E]; [|reflexivity].
    exfalso. revert E. Z.to_euclidean_division_equations; lia.
Qed.

Lemma ord_split a b c e k :
  0 <= a -> 0 <= b <= 3 -> 0 <= c <= 24 -> 0 <= e <= 3 -> 0 <= k <= 364 ->
  let n := 146097 * a + 36524 * b + 1461 * c + 365 * e + k in
  n / 146097 = a /\ n mod 146097 / 36524 = b /\
  (n mod 146097) mod 36524 / 1461 = c /\
  ((n mod 146097) mod 36524) mod 1461 / 365 = e /\
  (((n mod 146097) mod 36524) mod 1461) mod 365 = k.
Proof.
  intros Ha Hb Hc He Hk n. subst n.
  assert (E1 : (146097 * a + 36524 * b + 1461 * c + 365 * e + k) / 146097 = a)
    by (Z.to_euclidean_division_equations; lia).
  assert (E2 : (146097 * a + 36524 * b + 1461 * c + 365 * e + k) mod 146097
               = 36524 * b + 1461 * c + 365 * e + k)
    by (Z.to_euclidean_division_equations; lia).
  rewrite E1, E2.
  assert (E3 : (36524 * b + 1461 * c + 365 * e + k) / 36524 = b)
    by (Z.to_euclidean_division_equations; lia).
  assert (E4 : (36524 * b + 1461 * c + 365 * e + k) mod 36524
               = 1461 * c + 365 * e + k)
    by (Z.to_euclidean_division_equations; lia).
  rewrite E3, E4.
  assert (E5 : (1461 * c + 365 * e + k) / 1461 = c)
    by (Z.to_euclidean_division_equations; lia).
  assert (E6 : (1461 * c + 365 * e + k) mod 1461 = 365 * e + k)
    by (Z.to_euclidean_division_equations; lia).
  rewrite E5, E6.
  assert (E7 : (365 * e + k) / 365 = e)
    by (Z.to_euclidean_division_equations; lia).
  assert (E8 : (365 * e + k) mod 365 = k)
    by (Z.to_euclidean_division_equations; lia).
  rewrite E7, E8. repeat split; reflexivity.
Qed.

Lemma ord_split_last a b c :
  0 <= a -> 0 <= b <= 3 -> 0 <= c <= 24 -> (c = 24 -> b = 3) ->
  let n := 146097 * a + 36524 * b + 1461 * c + 365 * 3 + 365 in
  n / 146097 = a /\
  ((n mod 146097 / 36524 = 4 /\ c = 24 /\ (n mod 146097) mod 36524 = 0) \/
   (n mod 146097 / 36524 = b /\ (n mod 146097) mod 36524 / 1461 = c /\
    ((n mod 146097) mod 36524) mod 1461 / 365 = 4)).
Proof.
  intros Ha Hb Hc Hcb n. subst n.
  assert (E1 : (146097 * a + 36524 * b + 1461 * c + 365 * 3 + 365) / 146097 = a)
    by (Z.to_euclidean_division_equations; lia).
  assert (E2 : (146097 * a + 36524 * b + 1461 * c + 365 * 3 + 365) mod 146097
               = 36524 * b + 1461 * c + 1460)
    by (Z.to_euclidean_division_equations; lia).
  rewrite E1, E2. split; [reflexivity|].
  destruct (Z.eq_dec c 24) as [->|Nc].
  - left. rewrite (Hcb eq_refl). vm_compute. auto.
  - right.
    assert (E3 : (36524 * b + 1461 * c + 1460) / 36524 = b)
      by (Z.to_euclidean_division_equations; lia).
    assert (E4 : (36524 * b + 1461 * c + 1460) mod 36524 = 1461 * c + 1460)
      by (Z.to_euclidean_division_equations; lia).
    rewrite E3, E4.
    assert (E5 : (1461 * c + 1460) / 1461 = c)
      by (Z.to_euclidean_division_equations; lia).
    assert (E6 : (1461 * c + 1460) mod 1461 = 1460)
      by (Z.to_euclidean_division_equations; lia).
    rewrite E5, E6. repeat split; reflexivity.
Qed.


Lemma month_day_ok leap m d :
  1 <= m <= 12 ->
  1 <= d <= (if (m =? 2) && leap then 29 else DAYS_IN_MONTH m) ->
  month_day leap
    (DAYS_BEFORE_MONTH m + (if (2 <? m) && leap then 1 else 0) + d - 1)
  = (m, d).
Proof.
  intros Hm Hd. unfold month_day. rewrite Z.shiftr_div_pow2 by lia.
  change (2 ^ 5) with 32.
  assert (Hm' : m = 1 \/ m = 2 \/ m = 3 \/ m = 4 \/ m = 5 \/ m = 6 \/
                m = 7 \/ m = 8 \/ m = 9 \/ m = 10 \/ m = 11 \/ m = 12) by lia.
  clear Hm.
  set (k := DAYS_BEFORE_MONTH m + (if (2 <? m) && leap then 1 else 0) + d - 1).
  assert (Hq : (k + 50) / 32 = m \/ ((k + 50) / 32 = m + 1 /\ m <> 12)).
  { subst k. destruct leap;
      repeat (destruct Hm' as [-> | Hm']); try subst m; simpl in Hd |- *;
      Z.to_euclidean_division_equations; lia. }
  destruct Hq as [Hq | [Hq Hne]]; rewrite Hq; cbv zeta.
  - destruct (Z.ltb_spec k
      (DAYS_BEFORE_MONTH m + (if (2 <? m) && leap then 1 else 0))) as [Hlt|Hge].
    + subst k. lia.
    + f_equal. subst k. lia.
  - replace (m + 1 - 1) with m by lia.
    assert (Hpre : DAYS_BEFORE_MONTH (m + 1) +
                   (if (2 <? m + 1) && leap then 1 else 0) -
                   (DAYS_IN_MONTH m + (if (m =? 2) && leap then 1 else 0))
                   = DAYS_BEFORE_MONTH m + (if (2 <? m) && leap then 1 else 0)).
    { destruct leap;
        repeat (destruct Hm' as [-> | Hm']); try subst m; try reflexivity;
        contradiction. }
    rewrite Hpre.
    destruct (Z.ltb_spec k
      (DAYS_BEFORE_MONTH (m + 1) + (if (2 <? m + 1) && leap then 1 else 0)))
      as [Hlt|Hge].
    + f_equal. subst k. lia.
    + exfalso. subst k. revert Hd Hge. clear Hq Hpre.
      destruct leap;
        repeat (destruct Hm' as [-> | Hm']); try subst m; simpl; lia.
Qed.

Lemma ord2ymd_month_day n0 :
  ord2ymd n0 =
  let n := n0 - 1 in
  let n400 := n / 146097 in let n := n mod 146097 in
  let n100 := n / 36524 in let n := n mod 36524 in
  let n4 := n / 1461 in let n := n mod 1461 in
  let n1 := n / 365 in let n := n mod 365 in
  let y := n400 * 400 + 1 + n100 * 100 + n4 * 4 + n1 in
  if (n1 =? 4) || (n100 =? 4) then (y - 1, 12, 31)
  else
    let '(m, d) :=
      month_day ((n1 =? 3) && (negb (n4 =? 24) || (n100 =? 3))) n in
    (y, m, d).
Proof.
  unfold ord2ymd, month_day, DI400Y, DI100Y, DI4Y. cbv zeta.
  destruct (_ || _); [reflexivity|].
  destruct (_ <? _); reflexivity.
Qed.

Lemma days_before_month_range y m :
  1 <= m <= 12 -> 0 <= days_before_month y m /\
  days_before_month y m + days_in_month y m <= 366 /\
  (days_before_month y m + days_in_month y m = 366 ->
   m = 12 /\ is_leap y = true) /\
  (is_leap y = false -> days_before_month y m + days_in_month y m <= 365).
Proof.
  intros Hm. unfold days_before_month, days_in_month.
  assert (Hm' : m = 1 \/ m = 2 \/ m = 3 \/ m = 4 \/ m = 5 \/ m = 6 \/
                m = 7 \/ m = 8 \/ m = 9 \/ m = 10 \/ m = 11 \/ m = 12) by lia.
  clear Hm.
  destruct (is_leap y);
    repeat (destruct Hm' as [-> | Hm']); try subst m; simpl;
    repeat split; try lia; try discriminate.
Qed.

Lemma ord2ymd_ymd2ord y m d :
  1 <= y -> 1 <= m <= 12 -> 1 <= d <= days_in_month y m ->
  ord2ymd (ymd2ord y m d) = (y, m, d).
Proof.
  intros Hy Hm Hd.
  destruct (year_decomp y Hy) as (a & b & c & e & Ey & Ha & Hb & Hc & He & Edby).
  pose proof (is_leap_decomp a b c e Ha Hb Hc He) as Hleap.
  rewrite <- Ey in Hleap.
  pose proof (days_before_month_range y m Hm) as (Hr0 & Hr1 & Hr2 & Hr3).
  rewrite ord2ymd_month_day. unfold ymd2ord. rewrite Edby.
  set (k := days_before_month y m + d - 1).
  replace (146097 * a + 36524 * b + 1461 * c + 365 * e +
           days_before_month y m + d - 1)
    with (146097 * a + 36524 * b + 1461 * c + 365 * e + k) by (subst k; lia).
  assert (Hk : 0 <= k <= 365) by (subst k; lia).
  destruct (Z.eq_dec k 365) as [Ek|Nk].
  - (* the last day of a leap year *)
    assert (Hlast : m = 12 /\ is_leap y = true) by (apply Hr2; subst k; lia).
    destruct Hlast as [-> Hl].
    assert (Ed : d = 31).
    { subst k. unfold days_before_month, days_in_month in *.
      rewrite Hl in *. simpl in *. lia. }
    rewrite Hl in Hleap. symmetry in Hleap.
    apply andb_true_iff in Hleap as [He3 Hcb].
    apply Z.eqb_eq in He3. subst e.
    assert (Hcb' : c = 24 -> b = 3).
    { intros ->. simpl in Hcb. now apply Z.eqb_eq in Hcb. }
    rewrite Ek. cbv zeta.
    destruct (ord_split_last a b c Ha Hb Hc Hcb') as [E1 [(E2 & Ec & E3) | (E2 & E3 & E4)]].
    + rewrite E1, E2, E3. change (0 / 1461) with 0. change (0 mod 1461) with 0.
      change (0 / 365) with 0. simpl. rewrite Ey, Ed.
      specialize (Hcb' Ec). f_equal. f_equal. lia.
    + rewrite E1, E2, E3, E4. simpl. rewrite Ey, Ed. f_equal. f_equal. lia.
  - assert (Hk' : 0 <= k <= 364) by lia. cbv zeta.
    destruct (ord_split a b c e k Ha Hb Hc He Hk') as (E1 & E2 & E3 & E4 & E5).
    rewrite E1, E2, E3, E4, E5.
    replace ((e =? 4) || (b =? 4)) with false.
    2:{ symmetry. apply orb_false_iff. split; apply Z.eqb_neq; lia. }
    rewrite <- Hleap.
    replace k with
      (DAYS_BEFORE_MONTH m + (if (2 <? m) && is_leap y then 1 else 0) + d - 1)
      by (subst k; unfold days_before_month; lia).
    rewrite month_day_ok; [f_equal; f_equal; lia | lia |].
    unfold days_in_month in Hd. exact Hd.
Qed.

End Calendar.

(** ** Dates as text *)

Section DateText.

Lemma pad2_text_check :
  forallb (fun x =>
    match chars (pad2 x) with
    | [p; q] => all_digits [p; q] && (num [p; q] =? x)
    | _ => false
    end) (map Z.of_nat (seq 0 100)) = true.
Proof. vm_compute. reflexivity. Qed.

Lemma digit_char_facts k :
  0 <= k <= 9 ->
  let c := ascii_of_N (Z.to_N (48 + k)) in
  is_digit c = true /\ digit_val c = k /\ (1 <= k -> c <> "0"%char).
Proof.
  intros Hk.
  assert (Hk' : k = 0 \/ k = 1 \/ k = 2 \/ k = 3 \/ k = 4 \/ k = 5 \/
                k = 6 \/ k = 7 \/ k = 8 \/ k = 9) by lia.
  repeat (destruct Hk' as [-> | Hk']); try subst k;
    (split; [reflexivity|]); (split; [reflexivity|]);
    intros H1; try lia; discriminate.
Qed.

Lemma year_text y :
  1000 <= y <= 9999 ->
  exists a b c e, chars (str_of_Z y) = [a; b; c; e] /\
    all_digits [a; b; c; e] = true /\ a <> "0"%char /\ num [a; b; c; e] = y.
Proof.
  intros Hy.
  destruct (digit_char_facts (y / 1000)) as (Da & Va & Na);
    [Z.to_euclidean_division_equations; lia|].
  destruct (digit_char_facts (y / 100 mod 10)) as (Db & Vb & _);
    [Z.to_euclidean_division_equations; lia|].
  destruct (digit_char_facts (y / 10 mod 10)) as (Dc & Vc & _);
    [Z.to_euclidean_division_equations; lia|].
  destruct (digit_char_facts (y mod 10)) as (De & Ve & _);
    [Z.to_euclidean_division_equations; lia|].
  set (a := ascii_of_N (Z.to_N (48 + y / 1000))) in *.
  set (b := ascii_of_N (Z.to_N (48 + y / 100 mod 10))) in *.
  set (c := ascii_of_N (Z.to_N (48 + y / 10 mod 10))) in *.
  set (e := ascii_of_N (Z.to_N (48 + y mod 10))) in *.
  assert (Hd : all_digits [a; b; c; e] = true)
    by (simpl; now rewrite Da, Db, Dc, De).
  assert (Ha : a <> "0"%char)
    by (apply Na; Z.to_euclidean_division_equations; lia).
  assert (Hn : num [a; b; c; e] = y).
  { unfold num. simpl. rewrite Da, Db, Dc, De, Va, Vb, Vc, Ve.
    Z.to_euclidean_division_equations; lia. }
  exists a, b, c, e.
  destruct (str_of_num a [b; c; e] Hd Ha) as [_ Hs].
  rewrite Hn in Hs. rewrite Hs, chars_str. auto.
Qed.

Lemma pad2_text x :
  0 <= x <= 99 ->
  exists p q, chars (pad2 x) = [p; q] /\
    all_digits [p; q] = true /\ num [p; q] = x.
Proof.
  intros Hx. pose proof pad2_text_check as Hc.
  rewrite forallb_forall in Hc. specialize (Hc x).
  assert (Hin : In x (map Z.of_nat (seq 0 100))).
  { apply in_map_iff. exists (Z.to_nat x). split; [lia|].
    apply in_seq. lia. }
  specialize (Hc Hin).
  destruct (chars (pad2 x)) as [|p [|q [|? ?]]]; try discriminate.
  apply andb_true_iff in Hc as [Hd Hn].
  exists p, q. repeat split; [exact Hd | now apply Z.eqb_eq].
Qed.

Lemma days_in_month_le y m : days_in_month y m <= 31.
Proof.
  unfold days_in_month. destruct ((m =? 2) && is_leap y); [lia|].
  unfold DAYS_IN_MONTH.
  destruct m as [|[[[[]|[]|]|[[]|[]|]|]|[[[]|[]|]|[[]|[]|]|]|]|]; lia.
Qed.

Lemma datetime_new_valid y m d h :
  1 <= y <= 9999 -> 1 <= m <= 12 -> 1 <= d <= days_in_month y m ->
  0 <= h <= 23 -> datetime_new y m d h = Ok (mkdt y m d h 0 0).
Proof.
  intros Hy Hm Hd Hh. unfold datetime_new.
  replace ((1 <=? y) && (y <=? 9999)) with true by (symmetry; apply andb_true_iff; split; apply Z.leb_le; lia).
  replace ((1 <=? m) && (m <=? 12)) with true by (symmetry; apply andb_true_iff; split; apply Z.leb_le; lia).
  replace ((1 <=? d) && (d <=? days_in_month y m)) with true by (symmetry; apply andb_true_iff; split; apply Z.leb_le; lia).
  replace ((0 <=? h) && (h <=? 23)) with true by (symmetry; apply andb_true_iff; split; apply Z.leb_le; lia).
  reflexivity.
Qed.

Lemma datetime_new_inv y m d h dt :
  datetime_new y m d h = Ok dt ->
  dt = mkdt y m d h 0 0 /\ valid dt.
Proof.
  unfold datetime_new.
  destruct ((1 <=? y) && (y <=? 9999)) eqn:Ey; [|discriminate].
  destruct ((1 <=? m) && (m <=? 12)) eqn:Em; [|discriminate].
  destruct ((1 <=? d) && (d <=? days_in_month y m)) eqn:Ed; [|discriminate].
  destruct ((0 <=? h) && (h <=? 23)) eqn:Eh; [|discriminate].
  simpl. intros E. injection E as <-.
  apply andb_true_iff in Ey as [?%Z.leb_le ?%Z.leb_le].
  apply andb_true_iff in Em as [?%Z.leb_le ?%Z.leb_le].
  apply andb_true_iff in Ed as [?%Z.leb_le ?%Z.leb_le].
  apply andb_true_iff in Eh as [?%Z.leb_le ?%Z.leb_le].
  split; [reflexivity|]. unfold valid. simpl. lia.
Qed.

Lemma strptime_fixed_valid w s d :
  strptime_fixed w s = Ok d -> valid d /\ minute d = 0 /\ second d = 0.
Proof.
  unfold strptime_fixed.
  destruct (negb _); [discriminate|].
  destruct (negb _); [discriminate|].
  intros [-> Hv]%datetime_new_inv. split; [exact Hv|]. split; reflexivity.
Qed.

(** The text that [strftime] prints for a date of a four-digit year. *)
Lemma strftime_cesm_text d :
  valid d -> 1000 <= year d ->
  exists a b c e p q r s,
    chars (strftime_cesm d) = [a; b; c; e; p; q; r; s] /\
    all_digits [a; b; c; e; p; q; r; s] = true /\ a <> "0"%char /\
    num [a; b; c; e] = year d /\ num [p; q] = month d /\
    num [r; s] = day d.
Proof.
  intros (Hy & Hm & Hd & _) Hy'.
  pose proof (days_in_month_le (year d) (month d)) as Hdim.
  destruct (year_text (year d)) as (a & b & c & e & Ey & Dy & Ha & Ny); [lia|].
  destruct (pad2_text (month d)) as (p & q & Em & Dm & Nm); [lia|].
  destruct (pad2_text (day d)) as (r & s & Ed & Dd & Nd); [lia|].
  exists a, b, c, e, p, q, r, s.
  unfold strftime_cesm. rewrite !chars_app, Ey, Em, Ed.
  split; [reflexivity|]. split; [|auto].
  change [a; b; c; e; p; q; r; s] with ([a; b; c; e] ++ [p; q] ++ [r; s]).
  unfold all_digits in *. rewrite !forallb_app, Dy, Dm, Dd. reflexivity.
Qed.

Lemma strptime_cesm_strftime d :
  valid d -> 1000 <= year d ->
  strptime_cesm (strftime_cesm d)
  = Ok (mkdt (year d) (month d) (day d) 0 0 0).
Proof.
  intros Hv Hy.
  destruct (strftime_cesm_text d Hv Hy)
    as (a & b & c & e & p & q & r & s & El & Dl & _ & Ny & Nm & Nd).
  destruct Hv as (Hy1 & Hm & Hd & _).
  pose proof (days_in_month_le (year d) (month d)) as Hdim.
  unfold strptime_cesm, strptime_fixed. rewrite El. cbv zeta.
  rewrite Dl. simpl negb at 1. cbv iota.
  change (slice [a; b; c; e; p; q; r; s] 0 4) with [a; b; c; e].
  change (slice [a; b; c; e; p; q; r; s] 4 6) with [p; q].
  change (slice [a; b; c; e; p; q; r; s] 6 8) with [r; s].
  rewrite Ny, Nm, Nd.
  replace ((1 <=? month d) && (month d <=? 12) && (1 <=? day d)
           && (day d <=? 31) && (0 <=? 23)) with true.
  2:{ symmetry. rewrite !andb_true_iff. repeat split; apply Z.leb_le; lia. }
  simpl negb. cbv iota. apply datetime_new_valid; lia.
Qed.

Lemma strptime_cosmo_strftime d :
  valid d -> 1000 <= year d ->
  strptime_cosmo (strftime_cosmo d)
  = Ok (mkdt (year d) (month d) (day d) (hour d) 0 0).
Proof.
  intros Hv Hy.
  destruct (strftime_cesm_text d Hv Hy)
    as (a & b & c & e & p & q & r & s & El & Dl & _ & Ny & Nm & Nd).
  destruct Hv as (Hy1 & Hm & Hd & Hh & _).
  pose proof (days_in_month_le (year d) (month d)) as Hdim.
  destruct (pad2_text (hour d)) as (t & u & Eh & Dh & Nh); [lia|].
  unfold strptime_cosmo, strptime_fixed, strftime_cosmo.
  rewrite chars_app, El, Eh. cbv zeta.
  change (([a; b; c; e; p; q; r; s] ++ [t; u]))
    with [a; b; c; e; p; q; r; s; t; u].
  replace (all_digits [a; b; c; e; p; q; r; s; t; u]) with true.
  2:{ change [a; b; c; e; p; q; r; s; t; u]
        with ([a; b; c; e; p; q; r; s] ++ [t; u]).
      unfold all_digits in *. now rewrite forallb_app, Dl, Dh. }
  simpl negb at 1. cbv iota.
  change (slice [a; b; c; e; p; q; r; s; t; u] 0 4) with [a; b; c; e].
  change (slice [a; b; c; e; p; q; r; s; t; u] 4 6) with [p; q].
  change (slice [a; b; c; e; p; q; r; s; t; u] 6 8) with [r; s].
  change (slice [a; b; c; e; p; q; r; s; t; u] 8 10) with [t; u].
  rewrite Ny, Nm, Nd, Nh.
  replace ((1 <=? month d) && (month d <=? 12) && (1 <=? day d)
           && (day d <=? 31) && (hour d <=? 23)) with true.
  2:{ symmetry. rewrite !andb_true_iff. repeat split; apply Z.leb_le; lia. }
  simpl negb. cbv iota. apply datetime_new_valid; lia.
Qed.

Lemma lstrip_digit c l : is_digit c = true -> lstrip (c :: l) = c :: l.
Proof.
  intros Hc. simpl.
  destruct (is_digit_cases c Hc)
    as [->|[->|[->|[->|[->|[->|[->|[->|[->| ->]]]]]]]]]; reflexivity.
Qed.

Lemma strip_digits l : all_digits l = true -> strip l = l.
Proof.
  intros Hl. unfold strip.
  assert (Hls : forall k, all_digits k = true -> lstrip k = k).
  { intros [|c k] Hk; [reflexivity|]. simpl in Hk.
    apply andb_true_iff in Hk as [Hc _]. now apply lstrip_digit. }
  rewrite (Hls l Hl), Hls, rev_involutive; [reflexivity|].
  unfold all_digits. now rewrite forallb_rev.
Qed.

Lemma py_int_digits l v :
  l <> [] -> all_digits l = true -> digits_val 0 l = Some v ->
  py_int l = Ok v.
Proof.
  intros Hne Hl Hv. unfold py_int. rewrite (strip_digits l Hl).
  destruct l as [|c l]; [congruence|]. clear Hne.
  assert (Hc : is_digit c = true)
    by (simpl in Hl; now apply andb_true_iff in Hl as [? _]).
  assert (E : match c :: l with
              | "-"%char :: r => (-1, r)
              | "+"%char :: r => (1, r)
              | _ => (1, c :: l)
              end = (1, c :: l)).
  { destruct (is_digit_cases c Hc)
      as [->|[->|[->|[->|[->|[->|[->|[->|[->| ->]]]]]]]]]; reflexivity. }
  rewrite E, Hv. f_equal. lia.
Qed.

(** [int(str(n)) == n] *)
Lemma py_int_str_of_Z z : 0 <= z -> py_int (chars (str_of_Z z)) = Ok z.
Proof.
  intros Hz. destruct (num_of_str z Hz) as (Hd & Hv & Hne).
  now apply py_int_digits.
Qed.

(** The number that [int(strftime('%Y%m%d'))] gives prints as the same
    text. *)
Lemma py_int_strftime_cesm d :
  valid d -> 1000 <= year d ->
  exists ymd, py_int (chars (strftime_cesm d)) = Ok ymd /\
              str_of_Z ymd = strftime_cesm d.
Proof.
  intros Hv Hy.
  destruct (strftime_cesm_text d Hv Hy)
    as (a & b & c & e & p & q & r & s & El & Dl & Ha & _).
  destruct (str_of_num a [b; c; e; p; q; r; s] Dl Ha) as [Hval Hstr].
  exists (num [a; b; c; e; p; q; r; s]). rewrite El. split.
  - apply py_int_digits; [discriminate | exact Dl | exact Hval].
  - rewrite Hstr, <- El. apply str_chars.
Qed.

End DateText.

(** ** Adding to a date *)

Section DateArithmetic.

Lemma toordinal_range d : valid d -> 1 <= toordinal d <= MAXORDINAL.
Proof.
  intros (Hy & Hm & Hd & _). unfold toordinal, ymd2ord, MAXORDINAL.
  pose proof (days_before_month_range (year d) (month d) Hm)
    as (Hr0 & Hr1 & Hr2 & Hr3).
  destruct (Z.eq_dec (year d) 9999) as [E|N].
  - rewrite E in *. specialize (Hr3 eq_refl).
    change (days_before_year 9999) with 3651694. lia.
  - assert (days_before_year (year d) <= 3651329).
    { unfold days_before_year. cbv zeta.
      Z.to_euclidean_division_equations; lia. }
    assert (0 <= days_before_year (year d)).
    { unfold days_before_year. cbv zeta.
      Z.to_euclidean_division_equations; lia. }
    lia.
Qed.

Lemma secs_of_day_range d : valid d -> 0 <= secs_of_day d < 86400.
Proof. intros (_ & _ & _ & Hh & Hmi & Hs). unfold secs_of_day. lia. Qed.

Lemma secs_of_day_fields d :
  valid d ->
  secs_of_day d / 3600 = hour d /\
  secs_of_day d mod 3600 / 60 = minute d /\
  (secs_of_day d mod 3600) mod 60 = second d.
Proof.
  intros (_ & _ & _ & Hh & Hmi & Hs). unfold secs_of_day.
  assert (E1 : (second d + minute d * 60 + hour d * 3600) / 3600 = hour d)
    by (Z.to_euclidean_division_equations; lia).
  assert (E2 : (second d + minute d * 60 + hour d * 3600) mod 3600
               = second d + minute d * 60)
    by (Z.to_euclidean_division_equations; lia).
  rewrite E1, E2. repeat split;
    Z.to_euclidean_division_equations; lia.
Qed.

(** Adding a difference of ordinal and seconds that leads to a date gives
    that date. *)
Lemma dt_add_reaches d e t :
  valid d -> valid e ->
  td_days t * 86400 + td_seconds t
  = (toordinal e - toordinal d) * 86400 + (secs_of_day e - secs_of_day d) ->
  0 <= td_seconds t < 86400 ->
  dt_add d t = Ok e.
Proof.
  intros Hd He Ht Hts.
  pose proof (toordinal_range d Hd) as Hod.
  pose proof (toordinal_range e He) as Hoe.
  pose proof (secs_of_day_range d Hd) as Hsd.
  pose proof (secs_of_day_range e He) as Hse.
  destruct (secs_of_day_fields e He) as (Eh & Emi & Es).
  unfold dt_add, timedelta_new. cbv zeta.
  assert (E1 : toordinal d + td_days t
               + (secs_of_day d + td_seconds t) / 86400 = toordinal e)
    by (unfold MAXORDINAL in *; Z.to_euclidean_division_equations; lia).
  assert (E2 : (secs_of_day d + td_seconds t) mod 86400 = secs_of_day e)
    by (unfold MAXORDINAL in *; Z.to_euclidean_division_equations; lia).
  rewrite E1, E2.
  replace (Z.abs (toordinal e) >? MAXDELTADAYS) with false.
  2:{ symmetry. unfold MAXDELTADAYS, MAXORDINAL in *.
      destruct (Z.gtb_spec (Z.abs (toordinal e)) 999999999); [lia | reflexivity]. }
  simpl rbind. simpl td_days. simpl td_seconds.
  replace ((0 <? toordinal e) && (toordinal e <=? MAXORDINAL)) with true.
  2:{ symmetry. apply andb_true_iff. split; [apply Z.ltb_lt | apply Z.leb_le]; lia. }
  unfold toordinal at 1.
  destruct He as (Hy & Hm & Hdd & _).
  rewrite ord2ymd_ymd2ord by lia.
  rewrite Eh, Emi, Es. destruct e; reflexivity.
Qed.

(** [d + (e - d) == e] *)
Lemma dt_add_sub d e : valid d -> valid e -> dt_add d (dt_sub e d) = Ok e.
Proof.
  intros Hd He. apply dt_add_reaches; try assumption; unfold dt_sub; simpl.
  - Z.to_euclidean_division_equations; lia.
  - apply Z.mod_pos_bound. lia.
Qed.

(** Between two dates on a whole hour the number of hours
    [(e - d).total_seconds() // 3600] is the whole difference. *)
Lemma dt_add_hours_between d e :
  valid d -> valid e ->
  minute d = 0 -> second d = 0 -> minute e = 0 -> second e = 0 ->
  (do t <- timedelta_hours (total_seconds (dt_sub e d) / 3600);
   dt_add d t)%res = Ok e.
Proof.
  intros Hd He Hmd Hsd Hme Hse.
  pose proof (toordinal_range d Hd) as Hod.
  pose proof (toordinal_range e He) as Hoe.
  unfold timedelta_hours, timedelta_new. cbv zeta.
  set (H := total_seconds (dt_sub e d) / 3600).
  assert (EH : H * 3600
               = (toordinal e - toordinal d) * 86400
                 + (secs_of_day e - secs_of_day d)).
  { subst H. unfold total_seconds, dt_sub, secs_of_day. simpl.
    rewrite Hmd, Hsd, Hme, Hse.
    Z.to_euclidean_division_equations; lia. }
  pose proof (secs_of_day_range d Hd) as Hsd'.
  pose proof (secs_of_day_range e He) as Hse'.
  replace (Z.abs (0 + H * 3600 / 86400) >? MAXDELTADAYS) with false.
  2:{ symmetry. unfold MAXDELTADAYS, MAXORDINAL in *.
      destruct (Z.gtb_spec (Z.abs (0 + H * 3600 / 86400)) 999999999);
        [|reflexivity].
      exfalso. revert H0. Z.to_euclidean_division_equations; lia. }
  simpl rbind. apply dt_add_reaches; try assumption; simpl.
  - rewrite <- EH. Z.to_euclidean_division_equations; lia.
  - apply Z.mod_pos_bound. lia.
Qed.

End DateArithmetic.

(** ** From ordinals to dates *)

Section CalendarInverse.

Lemma days_before_year_decomp a b c e :
  0 <= a -> 0 <= b <= 3 -> 0 <= c <= 24 -> 0 <= e <= 3 ->
  days_before_year (400 * a + 100 * b + 4 * c + e + 1)
  = 146097 * a + 36524 * b + 1461 * c + 365 * e.
Proof.
  intros Ha Hb Hc He. unfold days_before_year. cbv zeta.
  replace (400 * a + 100 * b + 4 * c + e + 1 - 1)
    with (400 * a + 100 * b + 4 * c + e) by lia.
  assert (E4 : (400 * a + 100 * b + 4 * c + e) / 4 = 100 * a + 25 * b + c)
    by (Z.to_euclidean_division_equations; lia).
  assert (E100 : (400 * a + 100 * b + 4 * c + e) / 100 = 4 * a + b)
    by (Z.to_euclidean_division_equations; lia).
  assert (E400 : (400 * a + 100 * b + 4 * c + e) / 400 = a)
    by (Z.to_euclidean_division_equations; lia).
  rewrite E4, E100, E400. lia.
Qed.

Lemma month_day_inv_check :
  forallb (fun leap =>
    forallb (fun k =>
      let '(m, d) := month_day leap k in
      (1 <=? m) && (m <=? 12) && (1 <=? d) &&
      (d <=? (if (m =? 2) && leap then 29 else DAYS_IN_MONTH m)) &&
      (DAYS_BEFORE_MONTH m + (if (2 <? m) && leap then 1 else 0) + d - 1 =? k))
      (map Z.of_nat (seq 0 365)))
    [true; false] = true.
Proof. vm_compute. reflexivity. Qed.

Lemma month_day_inv leap k :
  0 <= k <= 364 ->
  exists m d, month_day leap k = (m, d) /\ 1 <= m <= 12 /\
    1 <= d <= (if (m =? 2) && leap then 29 else DAYS_IN_MONTH m) /\
    DAYS_BEFORE_MONTH m + (if (2 <? m) && leap then 1 else 0) + d - 1 = k.
Proof.
  intros Hk. pose proof month_day_inv_check as Hc.
  rewrite forallb_forall in Hc.
  assert (Hl : In leap [true; false]) by (destruct leap; simpl; auto).
  specialize (Hc leap Hl). rewrite forallb_forall in Hc.
  assert (Hin : In k (map Z.of_nat (seq 0 365))).
  { apply in_map_iff. exists (Z.to_nat k). split; [lia|]. apply in_seq. lia. }
  specialize (Hc k Hin). destruct (month_day leap k) as [m d].
  exists m, d. rewrite !andb_true_iff in Hc.
  destruct Hc as [[[[H1 H2] H3] H4] H5].
  apply Z.leb_le in H1, H2, H3, H4. apply Z.eqb_eq in H5. auto.
Qed.

(** Every ordinal of the supported range is the ordinal of the date that
    [_ord2ymd] gives, and that date exists. *)
Lemma ymd2ord_ord2ymd n :
  1 <= n <= MAXORDINAL ->
  exists y m d, ord2ymd n = (y, m, d) /\
    1 <= y <= 9999 /\ 1 <= m <= 12 /\ 1 <= d <= days_in_month y m /\
    ymd2ord y m d = n.
Proof.
  intros Hn. unfold MAXORDINAL in Hn. rewrite ord2ymd_month_day. cbv zeta.
  set (a := (n - 1) / 146097).
  set (r1 := (n - 1) mod 146097).
  set (b := r1 / 36524). set (r2 := r1 mod 36524).
  set (c := r2 / 1461). set (r3 := r2 mod 1461).
  set (e := r3 / 365). set (k := r3 mod 365).
  assert (Hn1 : n - 1 = 146097 * a + r1 /\ 0 <= r1 < 146097 /\ 0 <= a <= 24)
    by (subst a r1; Z.to_euclidean_division_equations; lia).
  assert (Hr1 : r1 = 36524 * b + r2 /\ 0 <= r2 < 36524 /\ 0 <= b <= 4)
    by (subst b r2; Z.to_euclidean_division_equations; lia).
  assert (Hr2 : r2 = 1461 * c + r3 /\ 0 <= r3 < 1461 /\ 0 <= c <= 24)
    by (subst c r3; Z.to_euclidean_division_equations; lia).
  assert (Hr3 : r3 = 365 * e + k /\ 0 <= k < 365 /\ 0 <= e <= 4)
    by (subst e k; Z.to_euclidean_division_equations; lia).
  clearbody a r1 b r2 c r3 e k.
  destruct Hn1 as (En & Hr1' & Ha). destruct Hr1 as (Er1 & Hr2' & Hb).
  destruct Hr2 as (Er2 & Hr3' & Hc). destruct Hr3 as (Er3 & Hk & He).
  destruct (Z.eq_dec b 4) as [Eb|Nb].
  { (* the last day of a 400-year cycle *)
    subst b. assert (r2 = 0) by lia. assert (c = 0) by lia.
    assert (r3 = 0) by lia. assert (e = 0) by lia. subst.
    simpl. exists (400 * a + 100 * 3 + 4 * 24 + 3 + 1), 12, 31.
    split; [f_equal; f_equal; lia|].
    pose proof (is_leap_decomp a 3 24 3) as Hl.
    unfold ymd2ord, days_before_month, days_in_month.
    rewrite days_before_year_decomp by lia. rewrite Hl by lia. simpl. lia. }
  destruct (Z.eq_dec e 4) as [Ee|Ne].
  { (* the last day of a leap year *)
    subst e. assert (k = 0) by lia. subst k.
    replace ((4 =? 4) || (b =? 4)) with true by reflexivity.
    exists (400 * a + 100 * b + 4 * c + 3 + 1), 12, 31.
    split; [f_equal; f_equal; lia|].
    pose proof (is_leap_decomp a b c 3) as Hl.
    unfold ymd2ord, days_before_month, days_in_month.
    rewrite days_before_year_decomp by lia. rewrite Hl by lia.
    replace (negb (c =? 24) || (b =? 3)) with true.
    2:{ symmetry. apply orb_true_iff. left. apply negb_true_iff, Z.eqb_neq. lia. }
    simpl. lia. }
  replace ((e =? 4) || (b =? 4)) with false.
  2:{ symmetry. apply orb_false_iff. split; apply Z.eqb_neq; assumption. }
  pose proof (is_leap_decomp a b c e) as Hl.
  rewrite <- Hl by lia.
  set (y := 400 * a + 100 * b + 4 * c + e + 1) in *.
  destruct (month_day_inv (is_leap y) k) as (m & d & Emd & Hm & Hd & Ek); [lia|].
  rewrite Emd. exists y, m, d.
  split; [f_equal; f_equal; subst y; lia|].
  split; [subst y; lia|]. split; [exact Hm|].
  split; [exact Hd|].
  unfold ymd2ord, days_before_month. subst y.
  rewrite days_before_year_decomp by lia. lia.
Qed.

Lemma dt_add_inv d t d' :
  valid d -> 0 <= td_seconds t < 86400 -> dt_add d t = Ok d' ->
  valid d' /\
  toordinal d' * 86400 + secs_of_day d'
  = (toordinal d + td_days t) * 86400 + secs_of_day d + td_seconds t.
Proof.
  intros Hd Ht. unfold dt_add, timedelta_new. cbv zeta.
  pose proof (secs_of_day_range d Hd) as Hs.
  destruct (_ >? _); [discriminate|]. simpl rbind. simpl td_days. simpl td_seconds.
  set (o := toordinal d + td_days t + (secs_of_day d + td_seconds t) / 86400).
  set (s := (secs_of_day d + td_seconds t) mod 86400).
  assert (Hos : o * 86400 + s
                = (toordinal d + td_days t) * 86400 + secs_of_day d
                  + td_seconds t /\ 0 <= s < 86400)
    by (subst o s; Z.to_euclidean_division_equations; lia).
  clearbody o s. destruct Hos as [Eos Hs'].
  destruct ((0 <? o) && (o <=? MAXORDINAL)) eqn:Ho; [|discriminate].
  apply andb_true_iff in Ho as [Ho1%Z.ltb_lt Ho2%Z.leb_le].
  destruct (ymd2ord_ord2ymd o) as (y & m & dd & Eo & Hy & Hm & Hdd & Eord); [lia|].
  rewrite Eo. intros E. injection E as <-.
  assert (Hh : 0 <= s / 3600 <= 23 /\ 0 <= s mod 3600 / 60 <= 59 /\
               0 <= (s mod 3600) mod 60 <= 59 /\
               (s mod 3600) mod 60 + s mod 3600 / 60 * 60 + s / 3600 * 3600 = s)
    by (Z.to_euclidean_division_equations; lia).
  split.
  - unfold valid. simpl. lia.
  - unfold toordinal at 1, secs_of_day at 1. simpl. rewrite Eord. lia.
Qed.

End CalendarInverse.

(** ** Whole days and the length of a chunk *)

Section ChunkArithmetic.

Lemma timedelta_days_inv n t :
  timedelta_days n = Ok t -> t = mktd n 0.
Proof.
  unfold timedelta_days, timedelta_new. cbv zeta.
  destruct (_ >? _); [discriminate|]. intros E. injection E as <-.
  f_equal. rewrite Z.add_0_r. reflexivity.
Qed.

Lemma add_time_valid d s d' :
  valid d -> add_time_from_str d s = Ok d' -> valid d'.
Proof.
  intros Hd. unfold add_time_from_str. cbv zeta.
  destruct (scan_ym _ _ _ _) as [st|]; [|discriminate]. simpl rbind.
  destruct (_ && _).
  - destruct (scan_d _ _ _ _) as [[k n]|]; [|discriminate]. simpl rbind.
    destruct (Nat.eqb _ _); [discriminate|].
    destruct (timedelta_days _) as [t|] eqn:Et; [|discriminate].
    apply timedelta_days_inv in Et. subst t. simpl rbind.
    intros E. apply dt_add_inv in E; [tauto | exact Hd | simpl; lia].
  - intros E. now apply datetime_new_inv in E.
Qed.

Lemma same_time_of_day d d' :
  valid d -> valid d' -> secs_of_day d' = secs_of_day d ->
  hour d' = hour d /\ minute d' = minute d /\ second d' = second d.
Proof.
  intros Hd Hd' E.
  destruct (secs_of_day_fields d Hd) as (E1 & E2 & E3).
  destruct (secs_of_day_fields d' Hd') as (E1' & E2' & E3').
  rewrite E in *. repeat split; congruence.
Qed.

(** X14: when the day form 'Nd' gives a date, that date is a date of the
    calendar, N days after the given one to the day, at the same hour,
    minute and second. *)
Theorem day_form_adds_whole_days
    (d d' : datetime) (s rest : string) (n : Z) :
  valid d ->
  py_int (chars s) = Ok n ->
  forallb no_unit (chars rest) = true ->
  add_time_from_str d (s ++ "d" ++ rest) = Ok d' ->
  valid d' /\ toordinal d' = toordinal d + n /\
  hour d' = hour d /\ minute d' = minute d /\ second d' = second d /\
  dt_sub d' d = mktd n 0.
Proof.
  intros Hd Hn Hrest E.
  rewrite (day_form_equation d s rest n Hn Hrest) in E.
  destruct (timedelta_days n) as [t|] eqn:Et; [|discriminate].
  apply timedelta_days_inv in Et. subst t. simpl rbind in E.
  apply dt_add_inv in E as [Hd' E]; [|exact Hd|simpl; lia].
  simpl in E.
  pose proof (secs_of_day_range d Hd) as Hs.
  pose proof (secs_of_day_range d' Hd') as Hs'.
  assert (Eo : toordinal d' = toordinal d + n) by lia.
  assert (Es : secs_of_day d' = secs_of_day d) by lia.
  destruct (same_time_of_day d d' Hd Hd' Es) as (Eh & Em & Esec).
  do 5 (split; [assumption|]).
  unfold dt_sub. cbv zeta. rewrite Es, Eo, Z.sub_diag.
  change (0 / 86400) with 0. change (0 mod 86400) with 0. f_equal. lia.
Qed.

Lemma read_start_dates_cesm_valid c dc de c1 :
  read_start_dates c = (Ok (dc, de), c1) -> valid de.
Proof.
  unfold read_start_dates. intros E.
  do 7 (apply bind_inv in E as (? & ? & _ & E)).
  apply bind_inv in E as (de' & c' & Hde & E).
  unfold ret in E. injection E as _ <- _.
  apply lift_inv in Hde as [Hde _].
  destruct (py_str _) as [s|]; [|discriminate]. simpl in Hde.
  eapply strptime_fixed_valid, Hde.
Qed.

Lemma run_dates_bounded_spans rs e c c' :
  valid rs -> valid e ->
  run_dates_bounded rs e c = (Ok tt, c') ->
  exists re rt,
    _run_end_date c' = Some re /\ _runtime c' = Some rt /\
    dt_add rs rt = Ok re /\ valid re /\
    _run_start_date c' = _run_start_date c.
Proof.
  intros Hrs He. unfold run_dates_bounded.
  destruct (dt_ltb e rs); [discriminate|].
  destruct (dt_eqb rs e) eqn:Heq.
  - apply dt_eqb_eq in Heq. subst e.
    change (timedelta_days 1) with (Ok (mktd 1 0)).
    unfold bind, lift, modify. cbv beta iota.
    destruct (dt_add rs (mktd 1 0)) as [e'|] eqn:Ea; [|discriminate].
    intros E. injection E as <-.
    exists e', (mktd 1 0).
    pose proof Ea as Hv'.
    apply dt_add_inv in Hv' as [Hv' _]; [|exact Hrs|simpl; lia].
    split; [reflexivity|]. split; [reflexivity|]. split; [exact Ea|].
    split; [exact Hv'|reflexivity].
  - unfold bind, get, lift, ret, modify. cbv beta iota.
    destruct (run_length c) as [rl|].
    + destruct (add_time_from_str rs rl) as [d|] eqn:Ea; [|discriminate].
      cbv beta iota. intros E. injection E as <-.
      assert (Hre : valid (dt_min d e)).
      { unfold dt_min. destruct (dt_ltb e d); [exact He|].
        exact (add_time_valid rs rl d Hrs Ea). }
      exists (dt_min d e), (dt_sub (dt_min d e) rs).
      split; [reflexivity|]. split; [reflexivity|].
      split; [now apply dt_add_sub|]. split; [exact Hre|reflexivity].
    + intros E. injection E as <-.
      exists e, (dt_sub e rs).
      split; [reflexivity|]. split; [reflexivity|].
      split; [now apply dt_add_sub|]. split; [exact He|reflexivity].
Qed.

(** X15: for a case with an end date that exists in the calendar, when
    [_compute_run_dates] returns, run start, run end and run time are
    assigned, both dates exist in the calendar, and the run start plus
    the run time is the run end. *)
Theorem runtime_spans_the_chunk (c : case) (e : datetime) :
  _end_date c = Some e ->
  valid e ->
  fst (_compute_run_dates c) = Ok tt ->
  let c' := snd (_compute_run_dates c) in
  exists rs re rt,
    _run_start_date c' = Some rs /\ _run_end_date c' = Some re /\
    _runtime c' = Some rt /\
    valid rs /\ valid re /\ dt_add rs rt = Ok re.
Proof.
  intros He Hv. rewrite compute_run_dates_unfold.
  pose proof (read_start_dates_attrs c) as [m Hm].
  destruct (read_start_dates c) as [[[dc de]|ex] c1] eqn:Hr; [|discriminate].
  apply read_start_dates_cesm_valid in Hr.
  simpl in Hm. subst c1.
  destruct (dt_eqb dc de) eqn:Heq; [|discriminate].
  apply dt_eqb_eq in Heq. subst de. simpl negb. cbv iota. rewrite He.
  destruct (run_dates_bounded dc e _) as [[[]|ex] c'] eqn:E; [|discriminate].
  intros _. simpl.
  apply run_dates_bounded_spans in E
    as (re & rt & Hre & Hrt & Hadd & Hvre & Hrs); try assumption.
  exists dc, re, rt. simpl in Hrs. rewrite Hrs. auto 10.
Qed.

End ChunkArithmetic.

(** ** The dates given at construction *)

Section DateSetters.

Lemma strptime_in_valid s d :
  strptime_in s = Ok d -> valid d /\ minute d = 0 /\ second d = 0.
Proof.
  unfold strptime_in. cbv zeta. destruct (_ && _); [|discriminate].
  apply strptime_fixed_valid.
Qed.

(** A date on a whole hour is read back from the text it is written as. *)
Lemma strptime_cosmo_round_trip d :
  valid d -> 1000 <= year d -> minute d = 0 -> second d = 0 ->
  strptime_cosmo (strftime_cosmo d) = Ok d.
Proof.
  intros Hv Hy Hm Hs. rewrite strptime_cosmo_strftime by assumption.
  destruct d; simpl in *; subst; reflexivity.
Qed.

Lemma strptime_cesm_round_trip d :
  valid d -> 1000 <= year d -> hour d = 0 -> minute d = 0 -> second d = 0 ->
  strptime_cesm (strftime_cesm d) = Ok d.
Proof.
  intros Hv Hy Hh Hm Hs. rewrite strptime_cesm_strftime by assumption.
  destruct d; simpl in *; subst; reflexivity.
Qed.

Lemma date_setter_some (set : option datetime -> case -> case) par s d c org runctl :
  (forall x c0, nml (set x c0) = nml c0 /\ disk_nml (set x c0) = disk_nml c0) ->
  strptime_in s = Ok d ->
  file_of c "INPUT_ORG" = Some org ->
  org !! "runctl"%string = Some (BGroup runctl) ->
  (do d <- lift (strptime_in s);
   modify (set (Some d)) ;;
   nml_assign "INPUT_ORG" "runctl" par (VStr (strftime_cosmo d)))%M c
  = (Ok tt,
     put_file "INPUT_ORG"
       (<["runctl"%string :=
            BGroup (<[par := VStr (strftime_cosmo d)]> runctl)]> org)
       (set (Some d) c)).
Proof.
  intros Hset Hd Horg Hrun.
  unfold bind at 1, lift. rewrite Hd.
  unfold bind at 1, modify.
  apply nml_assign_some; [|exact Hrun].
  unfold file_of. destruct (Hset (Some d) c) as [-> ->]. exact Horg.
Qed.

Lemma date_setter_none (set : option datetime -> case -> case) par d c org runctl
    (miss : M unit) :
  valid d -> 1000 <= year d -> minute d = 0 -> second d = 0 ->
  file_of c "INPUT_ORG" = Some org ->
  org !! "runctl"%string = Some (BGroup runctl) ->
  runctl !! par = Some (VStr (strftime_cosmo d)) ->
  (do f <- nml_getitem "INPUT_ORG";
   do g <- lift (get_group f "runctl");
   match g !! par with
   | Some v =>
       do d <- lift (do s <- as_str v; strptime_cosmo s)%res;
       modify (set (Some d))
   | None => miss
   end)%M c
  = (Ok tt, set (Some d) (cache_in "INPUT_ORG" c)).
Proof.
  intros Hv Hy Hm Hs Horg Hrun Hpar.
  rewrite (bind_ok _ _ _ _ _ (nml_getitem_some _ _ _ Horg)).
  unfold bind at 1, lift, get_group. rewrite Hrun. simpl rbind. cbv beta iota.
  rewrite Hpar. unfold bind, as_str, VStr. simpl rbind.
  rewrite strptime_cosmo_round_trip by assumption. reflexivity.
Qed.

(** X16: a start date given to the constructor, from the year 1000 on, is
    stored and written to [ydate_ini]; a case built afterwards on the same
    namelists without a start date reads the same date back, and changes
    no namelist. *)
Theorem given_start_date_is_read_back
    (c : case) (s : string) (d : datetime) org runctl :
  strptime_in s = Ok d ->
  1000 <= year d ->
  file_of c "INPUT_ORG" = Some org ->
  org !! "runctl"%string = Some (BGroup runctl) ->
  let c1 := snd (start_date_setter (Some s) c) in
  let c2 := snd (start_date_setter None c1) in
  fst (start_date_setter (Some s) c) = Ok tt /\
  _start_date c1 = Some d /\
  nml_read "INPUT_ORG" "runctl" "ydate_ini" c1
  = (Ok (VStr (strftime_cosmo d)), c1) /\
  fst (start_date_setter None c1) = Ok tt /\
  _start_date c2 = Some d /\ nml c2 = nml c1.
Proof.
  intros Hd Hy Horg Hrun.
  destruct (strptime_in_valid s d Hd) as (Hv & Hm & Hs).
  unfold start_date_setter.
  rewrite (date_setter_some set_start_date "ydate_ini" s d c org runctl)
    by (auto || intros; split; reflexivity).
  cbv zeta. simpl fst. simpl snd.
  set (org' := <["runctl"%string := _]> org).
  set (c1 := put_file "INPUT_ORG" org' _).
  assert (Horg' : file_of c1 "INPUT_ORG" = Some org')
    by apply file_of_put_file.
  assert (Hrun' : org' !! "runctl"%string
                  = Some (BGroup (<["ydate_ini"%string :=
                                      VStr (strftime_cosmo d)]> runctl)))
    by apply lookup_insert_eq.
  assert (Hc1 : cache_in "INPUT_ORG" c1 = c1) by apply cache_in_put_file.
  rewrite (date_setter_none set_start_date "ydate_ini" d c1 org' _ _
             Hv Hy Hm Hs Horg' Hrun' (lookup_insert_eq _ _ _)).
  rewrite Hc1.
  split; [reflexivity|]. split; [reflexivity|].
  split; [|split; [reflexivity|split; reflexivity]].
  rewrite (nml_read_some _ _ _ _ _ _ _ Horg' Hrun' (lookup_insert_eq _ _ _)).
  now rewrite Hc1.
Qed.

(** X17: the same for the end date and [ydate_end]; and without an end
    date in either place the case is open-ended. *)
Theorem given_end_date_is_read_back
    (c : case) (s : string) (d : datetime) org runctl :
  strptime_in s = Ok d ->
  1000 <= year d ->
  file_of c "INPUT_ORG" = Some org ->
  org !! "runctl"%string = Some (BGroup runctl) ->
  let c1 := snd (end_date_setter (Some s) c) in
  let c2 := snd (end_date_setter None c1) in
  (fst (end_date_setter (Some s) c) = Ok tt /\
   _end_date c1 = Some d /\
   nml_read "INPUT_ORG" "runctl" "ydate_end" c1
   = (Ok (VStr (strftime_cosmo d)), c1) /\
   fst (end_date_setter None c1) = Ok tt /\
   _end_date c2 = Some d /\ nml c2 = nml c1) /\
  (runctl !! "ydate_end"%string = None ->
   fst (end_date_setter None c) = Ok tt /\
   _end_date (snd (end_date_setter None c)) = None).
Proof.
  intros Hd Hy Horg Hrun.
  destruct (strptime_in_valid s d Hd) as (Hv & Hm & Hs).
  unfold end_date_setter.
  rewrite (date_setter_some set_end_date "ydate_end" s d c org runctl)
    by (auto || intros; split; reflexivity).
  cbv zeta. simpl fst. simpl snd.
  set (org' := <["runctl"%string := _]> org).
  set (c1 := put_file "INPUT_ORG" org' _).
  assert (Horg' : file_of c1 "INPUT_ORG" = Some org')
    by apply file_of_put_file.
  assert (Hrun' : org' !! "runctl"%string
                  = Some (BGroup (<["ydate_end"%string :=
                                      VStr (strftime_cosmo d)]> runctl)))
    by apply lookup_insert_eq.
  assert (Hc1 : cache_in "INPUT_ORG" c1 = c1) by apply cache_in_put_file.
  rewrite (date_setter_none set_end_date "ydate_end" d c1 org' _ _
             Hv Hy Hm Hs Horg' Hrun' (lookup_insert_eq _ _ _)).
  rewrite Hc1. split.
  - split; [reflexivity|]. split; [reflexivity|].
    split; [|split; [reflexivity|split; reflexivity]].
    rewrite (nml_read_some _ _ _ _ _ _ _ Horg' Hrun' (lookup_insert_eq _ _ _)).
    now rewrite Hc1.
  - intros Hnone.
    rewrite (bind_ok _ _ _ _ _ (nml_getitem_some _ _ _ Horg)).
    unfold bind, lift, get_group. rewrite Hrun. simpl rbind.
    cbv beta iota. rewrite Hnone. split; reflexivity.
Qed.

End DateSetters.

(** ** From one chunk to the next *)

Section Continuity.
Context `{RegexLib}.

(** The two start dates that [set_next_run] reads back after it has
    written [hstart] and [start_ymd]: the previous run end, and the
    midnight of its day. *)
Lemma set_next_run_start_dates
    c run_end start s org runctl drv tm info io ctl dir gribin :
  _run_end_date c = Some run_end ->
  _start_date c = Some start ->
  valid run_end -> 1000 <= year run_end ->
  minute run_end = 0 -> second run_end = 0 ->
  file_of c "INPUT_ORG" = Some org ->
  org !! "runctl"%string = Some (BGroup runctl) ->
  runctl !! "ydate_ini"%string = Some (VStr s) ->
  strptime_cosmo s = Ok start ->
  file_of c "drv_in" = Some drv ->
  drv !! "seq_timemgr_inparm"%string = Some (BGroup tm) ->
  drv !! "seq_infodata_inparm"%string = Some (BGroup info) ->
  file_of c "INPUT_IO" = Some io ->
  io !! "ioctl"%string = Some (BGroup ctl) ->
  ctl !! "ydir_restart_out"%string = Some dir ->
  io !! "gribin"%string = Some (BGroup gribin) ->
  exists c5,
    (set_continuation ;; write_open_nml)%M c = (Ok tt, c5) /\
    attrs_eq c (set_disk_nml (disk_nml c) c5) /\
    disk_nml c5 !! "INPUT_ORG"%string
    = Some (<["runctl"%string :=
                BGroup (<["hstart"%string :=
                            VInt (total_seconds (dt_sub run_end start) / 3600)]>
                          runctl)]> org) /\
    fst (read_start_dates c5)
    = Ok (run_end, mkdt (year run_end) (month run_end) (day run_end) 0 0 0).
Proof.
  intros Hre Hsd Hv Hy Hmin Hsec Horg Hrun Hini Hs Hdrv Htm Hinfo Hio Hctl
         Hdir Hgribin.
  destruct (py_int_strftime_cesm run_end Hv Hy) as (ymd & Hymd & Hstr).
  pose proof (set_continuation_some _ _ _ _ _ _ _ _ _ _ _ _ _
                Hre Hsd Hymd Horg Hrun Hdrv Htm Hinfo Hio Hctl Hdir Hgribin)
    as Hc.
  cbv zeta in Hc.
  set (hstart := total_seconds (dt_sub run_end start) / 3600) in *.
  set (org' := <["runctl"%string := _]> org) in *.
  set (drv1 := <["seq_timemgr_inparm"%string := _]> drv) in *.
  set (drv' := <["seq_infodata_inparm"%string := _]> drv1) in *.
  set (io' := relabel_gribouts _ _) in *.
  set (c4 := put_file "drv_in" drv' _) in Hc.
  set (c5 := set_disk_nml (nml c4 ∪ disk_nml c4) c4).
  exists c5. split; [|split; [|split]].
  - rewrite (bind_ok _ _ _ _ _ Hc). reflexivity.
  - unfold c5, c4, put_file. eexists. destruct c; reflexivity.
  - change (disk_nml c5) with (nml c4 ∪ disk_nml c4).
    apply lookup_union_Some_l. unfold c4.
    rewrite !nml_put_file_ne by discriminate. apply nml_put_file.
  - destruct (strptime_fixed_valid _ _ _ Hs) as (Hvs & Hms & Hss).
    assert (N1 : file_of c5 "INPUT_ORG" = Some org').
    { unfold file_of. change (nml c5) with (nml c4). unfold c4.
      rewrite !nml_put_file_ne by discriminate. now rewrite nml_put_file. }
    assert (N2 : file_of c5 "drv_in" = Some drv').
    { unfold file_of. change (nml c5) with (nml c4). unfold c4.
      now rewrite nml_put_file. }
    eapply (read_start_dates_some c5 org' _ s start (VInt hstart) hstart
              (dt_sub run_end start) run_end drv' _ (VInt ymd)
              (strftime_cesm run_end)).
    + exact N1.
    + apply lookup_insert_eq.
    + rewrite lookup_insert_ne by discriminate. exact Hini.
    + exact Hs.
    + apply lookup_insert_eq.
    + reflexivity.
    + pose proof (dt_add_hours_between start run_end Hvs Hv Hms Hss Hmin Hsec)
        as Hh. fold hstart in Hh.
      destruct (timedelta_hours hstart) as [t|] eqn:Et; [|discriminate].
      f_equal. unfold timedelta_hours, timedelta_new in Et. cbv zeta in Et.
      destruct (_ >? _); [discriminate|]. injection Et as <-.
      unfold dt_sub. cbv zeta.
      assert (EH : hstart * 3600
                   = (toordinal run_end - toordinal start) * 86400
                     + (secs_of_day run_end - secs_of_day start)).
      { subst hstart. unfold total_seconds, dt_sub, secs_of_day. simpl.
        rewrite Hms, Hss, Hmin, Hsec.
        Z.to_euclidean_division_equations; lia. }
      rewrite EH. f_equal; Z.to_euclidean_division_equations; lia.
    + now apply dt_add_sub.
    + exact N2.
    + unfold drv'. rewrite lookup_insert_ne by discriminate.
      apply lookup_insert_eq.
    + apply lookup_insert_eq.
    + simpl. now rewrite Hstr.
    + now apply strptime_cesm_strftime.
Qed.


Lemma keeps_chain_run_dates_bounded rs c0 r e :
  keeps (chain_attrs rs c0) (run_dates_bounded r e).
Proof.
  unfold run_dates_bounded.
  repeat first
    [ apply keeps_bind; [|intros ?]
    | apply keeps_ret | apply keeps_raise | apply keeps_lift | apply keeps_get
    | apply keeps_modify; intros ? Hc; exact Hc
    | match goal with
      | |- keeps _ (if ?x then _ else _) => destruct x
      | |- keeps _ (match ?x with _ => _ end) => destruct x
      end ].
Qed.

Lemma keeps_chain_update_controller rs c0 :
  keeps (chain_attrs rs c0) _update_controller.
Proof.
  unfold _update_controller, write_file.
  repeat first
    [ apply keeps_bind; [|intros ?] | apply keeps_attr | apply keeps_get
    | apply keeps_read_file
    | apply keeps_modify; intros ? Hc; exact Hc ].
Qed.

Lemma keeps_chain_read_start_dates rs c0 :
  keeps (chain_attrs rs c0) read_start_dates.
Proof.
  intros c Hc. destruct (read_start_dates_attrs c) as [m ->]. exact Hc.
Qed.

(** X18: when the chunk before ended at a midnight, the chunk that
    [set_next_run] computes starts where that one ended, whatever the rest
    of the call does; the start and end dates of the case are kept; and
    the call returns false only for the closing one-day chunk of a case
    without [dummy_day]. *)
Theorem next_chunk_starts_at_previous_end
    c run_start e run_end start s org runctl drv tm info io ctl dir gribin :
  _run_start_date c = Some run_start ->
  _end_date c = Some e ->
  dt_ltb run_start e = true ->
  _run_end_date c = Some run_end ->
  _start_date c = Some start ->
  valid run_end -> 1000 <= year run_end ->
  hour run_end = 0 -> minute run_end = 0 -> second run_end = 0 ->
  file_of c "INPUT_ORG" = Some org ->
  org !! "runctl"%string = Some (BGroup runctl) ->
  runctl !! "ydate_ini"%string = Some (VStr s) ->
  strptime_cosmo s = Ok start ->
  file_of c "drv_in" = Some drv ->
  drv !! "seq_timemgr_inparm"%string = Some (BGroup tm) ->
  drv !! "seq_infodata_inparm"%string = Some (BGroup info) ->
  file_of c "INPUT_IO" = Some io ->
  io !! "ioctl"%string = Some (BGroup ctl) ->
  ctl !! "ydir_restart_out"%string = Some dir ->
  io !! "gribin"%string = Some (BGroup gribin) ->
  let c' := snd (set_next_run c) in
  _run_start_date c' = Some run_end /\
  _start_date c' = Some start /\ _end_date c' = Some e /\
  (forall b, fst (set_next_run c) = Ok b ->
     b = negb (dt_eqb run_end e && negb (dummy_day c))).
Proof.
  intros Hrs He Hlt Hre Hsd Hv Hy Hh Hmin Hsec Horg Hrun Hini Hs Hdrv Htm
         Hinfo Hio Hctl Hdir Hgribin c'.
  destruct (set_next_run_start_dates _ _ _ _ _ _ _ _ _ _ _ _ _
              Hre Hsd Hv Hy Hmin Hsec Horg Hrun Hini Hs Hdrv Htm Hinfo Hio
              Hctl Hdir Hgribin) as (c5 & Hc5 & [m5 Hattr] & _ & Hread).
  replace (mkdt (year run_end) (month run_end) (day run_end) 0 0 0)
    with run_end in Hread
    by (destruct run_end; simpl in *; subst; reflexivity).
  assert (He5 : _end_date c5 = Some e).
  { apply (f_equal _end_date) in Hattr. simpl in Hattr. congruence. }
  assert (Hs5 : _start_date c5 = Some start).
  { apply (f_equal _start_date) in Hattr. simpl in Hattr. congruence. }
  assert (Hd5 : dummy_day c5 = dummy_day c).
  { apply (f_equal dummy_day) in Hattr. simpl in Hattr. congruence. }
  destruct (compute_run_dates_agreed c5 run_end Hread) as (m & _ & Hcomp).
  rewrite He5 in Hcomp.
  set (cX := set_run_start_date (Some run_end) (set_nml m c5)) in *.
  set (tail :=
         (_update_controller ;;
          do run_start0 <- attr "_run_start_date" _run_start_date;
          do c0 <- get;
          match _end_date c0 with
          | Some e0 => ret (negb (dt_eqb run_start0 e0 && negb (dummy_day c0)))
          | None => ret true
          end)%M).
  assert (E : set_next_run c
              = (do _ <- run_dates_bounded run_end e; tail)%M cX).
  { unfold set_next_run.
    erewrite bind_ok by (unfold attr; rewrite Hrs; reflexivity).
    erewrite bind_ok by reflexivity.
    rewrite He. unfold dt_leb. rewrite Hlt. cbn [negb].
    change (bind set_continuation ?k) with
      (bind set_continuation (fun _ => bind write_open_nml (fun _ =>
         bind _compute_run_dates (fun _ => tail)))).
    assert (E1 : forall k : M bool,
               (set_continuation ;; write_open_nml ;; k)%M c = k c5).
    { intros k. unfold bind at 1.
      unfold bind at 1 in Hc5.
      destruct (set_continuation c) as [[[]|] c4]; [|discriminate].
      unfold bind at 1. rewrite Hc5. reflexivity. }
    rewrite E1. unfold bind at 1. rewrite Hcomp. reflexivity. }
  assert (PX : chain_attrs (Some run_end) cX cX)
    by (repeat split; reflexivity).
  assert (K : keeps (chain_attrs (Some run_end) cX)
                (do _ <- run_dates_bounded run_end e; tail)%M).
  { apply keeps_bind; [apply keeps_chain_run_dates_bounded|intros ?].
    apply keeps_bind; [apply keeps_chain_update_controller|intros ?].
    apply keeps_bind; [apply keeps_attr|intros ?].
    apply keeps_bind; [apply keeps_get|intros c0].
    destruct (_end_date c0); apply keeps_ret. }
  unfold c'. rewrite E.
  destruct (K cX PX) as (K1 & K2 & K3 & _).
  split; [exact K1|]. split; [now rewrite K2|]. split; [now rewrite K3|].
  intros b Hb.
  destruct ((do _ <- run_dates_bounded run_end e; tail)%M cX)
    as [r c9] eqn:E9.
  simpl in Hb. subst r.
  apply bind_inv in E9 as ([] & c6 & E6 & E9).
  pose proof (keeps_chain_run_dates_bounded (Some run_end) cX run_end e cX PX)
    as P6. rewrite E6 in P6. simpl snd in P6.
  unfold tail in E9.
  apply bind_inv in E9 as ([] & c7 & E7 & E9).
  pose proof (keeps_chain_update_controller (Some run_end) cX c6 P6) as P7.
  rewrite E7 in P7. simpl snd in P7.
  destruct P7 as (Q1 & _ & Q3 & Q4 & _).
  unfold bind, attr, get, ret in E9. rewrite Q1, Q3 in E9.
  simpl in E9. rewrite He5 in E9. injection E9 as <- _.
  rewrite Q4. simpl. now rewrite Hd5.
Qed.

(** X19: a chunk that does not end at midnight cannot be continued: the
    coupler only knows the day, so the two start dates that the next call
    reads back differ.  The call raises the ValueError of the start dates
    after it has written the new [hstart]; the run dates stay those of the
    chunk before. *)
Theorem chunk_ending_off_midnight_cannot_be_continued
    c run_start e run_end start s org runctl drv tm info io ctl dir gribin :
  _run_start_date c = Some run_start ->
  _end_date c = Some e ->
  dt_ltb run_start e = true ->
  _run_end_date c = Some run_end ->
  _start_date c = Some start ->
  valid run_end -> 1000 <= year run_end ->
  hour run_end <> 0 -> minute run_end = 0 -> second run_end = 0 ->
  file_of c "INPUT_ORG" = Some org ->
  org !! "runctl"%string = Some (BGroup runctl) ->
  runctl !! "ydate_ini"%string = Some (VStr s) ->
  strptime_cosmo s = Ok start ->
  file_of c "drv_in" = Some drv ->
  drv !! "seq_timemgr_inparm"%string = Some (BGroup tm) ->
  drv !! "seq_infodata_inparm"%string = Some (BGroup info) ->
  file_of c "INPUT_IO" = Some io ->
  io !! "ioctl"%string = Some (BGroup ctl) ->
  ctl !! "ydir_restart_out"%string = Some dir ->
  io !! "gribin"%string = Some (BGroup gribin) ->
  let c' := snd (set_next_run c) in
  fst (set_next_run c) = Raise start_mismatch /\
  _run_start_date c' = Some run_start /\
  _run_end_date c' = Some run_end /\
  disk_nml c' !! "INPUT_ORG"%string
  = Some (<["runctl"%string :=
              BGroup (<["hstart"%string :=
                          VInt (total_seconds (dt_sub run_end start) / 3600)]>
                        runctl)]> org).
Proof.
  intros Hrs He Hlt Hre Hsd Hv Hy Hh Hmin Hsec Horg Hrun Hini Hs Hdrv Htm
         Hinfo Hio Hctl Hdir Hgribin c'.
  destruct (set_next_run_start_dates _ _ _ _ _ _ _ _ _ _ _ _ _
              Hre Hsd Hv Hy Hmin Hsec Horg Hrun Hini Hs Hdrv Htm Hinfo Hio
              Hctl Hdir Hgribin) as (c5 & Hc5 & [m5 Hattr] & Hdisk & Hread).
  assert (Hrs5 : _run_start_date c5 = Some run_start).
  { apply (f_equal _run_start_date) in Hattr. simpl in Hattr. congruence. }
  assert (Hre5 : _run_end_date c5 = Some run_end).
  { apply (f_equal _run_end_date) in Hattr. simpl in Hattr. congruence. }
  assert (Hne : dt_eqb run_end
                  (mkdt (year run_end) (month run_end) (day run_end) 0 0 0)
                = false).
  { unfold dt_eqb. simpl. rewrite !Z.eqb_refl. simpl.
    replace (hour run_end =? 0) with false
      by (symmetry; now apply Z.eqb_neq).
    reflexivity. }
  assert (E : set_next_run c
              = (Raise start_mismatch, snd (read_start_dates c5))).
  { unfold set_next_run.
    erewrite bind_ok by (unfold attr; rewrite Hrs; reflexivity).
    erewrite bind_ok by reflexivity.
    rewrite He. unfold dt_leb. rewrite Hlt. cbn [negb].
    unfold bind at 1. unfold bind at 1 in Hc5.
    destruct (set_continuation c) as [[[]|] c4]; [|discriminate].
    unfold bind at 1. rewrite Hc5.
    unfold bind at 1. rewrite compute_run_dates_unfold.
    destruct (read_start_dates c5) as [[[dc de]|] c6]; [|discriminate].
    simpl in Hread. injection Hread as -> ->. rewrite Hne. reflexivity. }
  unfold c'. rewrite E. simpl fst. simpl snd.
  destruct (read_start_dates_attrs c5) as [m ->].
  split; [reflexivity|]. split; [exact Hrs5|]. split; [exact Hre5|].
  exact Hdisk.
Qed.

End Continuity.

(** ** Construction *)

Section Construction.
Context `{RegexLib}.

Lemma keeps_cache_getitem (P : case -> Prop) n :
  (forall c m, P c -> P (set_nml m c)) -> keeps P (nml_getitem n).
Proof.
  intros HP c Hc. unfold nml_getitem.
  destruct (nml c !! n); [exact Hc|].
  destruct (disk_nml c !! n); [|exact Hc]. simpl. now apply HP.
Qed.

Lemma keeps_cache_read (P : case -> Prop) n b p :
  (forall c m, P c -> P (set_nml m c)) -> keeps P (nml_read n b p).
Proof.
  intros HP. apply keeps_bind; [now apply keeps_cache_getitem|].
  intros; apply keeps_lift.
Qed.

Lemma keeps_cache_assign (P : case -> Prop) n b p v :
  (forall c m, P c -> P (set_nml m c)) -> keeps P (nml_assign n b p v).
Proof.
  intros HP. unfold nml_assign.
  apply keeps_bind; [now apply keeps_cache_getitem|intros f].
  apply keeps_bind; [apply keeps_lift|intros g].
  apply keeps_modify. intros c Hc. now apply HP.
Qed.

Lemma keeps_cache_assign_block (P : case -> Prop) n b blk :
  (forall c m, P c -> P (set_nml m c)) -> keeps P (nml_assign_block n b blk).
Proof.
  intros HP. unfold nml_assign_block.
  apply keeps_bind; [now apply keeps_cache_getitem|intros f].
  apply keeps_modify. intros c Hc. now apply HP.
Qed.

Lemma keeps_cache_del_block (P : case -> Prop) n b :
  (forall c m, P c -> P (set_nml m c)) -> keeps P (nml_del_block n b).
Proof.
  intros HP. unfold nml_del_block.
  apply keeps_bind; [now apply keeps_cache_getitem|intros f].
  destruct (f !! b); [|apply keeps_raise].
  apply keeps_modify. intros c Hc. now apply HP.
Qed.

Ltac blind := intros ? ? Hc; exact Hc.

Ltac keeps_attrs :=
  repeat first
    [ apply keeps_cache_read; blind
    | apply keeps_cache_assign; blind
    | apply keeps_cache_assign_block; blind
    | apply keeps_cache_del_block; blind
    | apply keeps_cache_getitem; blind
    | apply keeps_read_file
    | apply keeps_bind; [|intros ?]
    | apply keeps_ret | apply keeps_raise | apply keeps_lift | apply keeps_get
    | apply keeps_attr
    | apply keeps_modify; intros ? Hc; exact Hc
    | apply keeps_modify; intros ? Hc; simpl;
      rewrite lookup_insert_ne by discriminate; exact Hc
    | match goal with
      | |- keeps _ (if ?x then _ else _) => destruct x
      | |- keeps _ (match ?x with _ => _ end) => destruct x
      end ].

Lemma keeps_name_start_date_setter nm sd :
  keeps (fun c => _name c = nm) (start_date_setter sd).
Proof. unfold start_date_setter. keeps_attrs. Qed.

Lemma keeps_name_end_date_setter nm ed :
  keeps (fun c => _name c = nm) (end_date_setter ed).
Proof. unfold end_date_setter. keeps_attrs. Qed.

Lemma keeps_start_end_date_setter d ed :
  keeps (fun c => _start_date c = d) (end_date_setter ed).
Proof. unfold end_date_setter. keeps_attrs. Qed.

Lemma keeps_name_start_compute nm d :
  keeps (fun c => _name c = nm /\ _start_date c = d) _compute_run_dates.
Proof.
  unfold _compute_run_dates, read_start_dates, run_dates_bounded,
    run_dates_open.
  keeps_attrs.
Qed.


Lemma name_setter_ok nm c c1 :
  name_setter nm c = (Ok tt, c1) -> _name c1 = nm.
Proof.
  unfold name_setter. intros E.
  apply bind_inv in E as ([] & c0 & E0 & E).
  unfold modify in E0. injection E0 as <-.
  assert (K : keeps (fun x => _name x = nm)
                (nml_assign "drv_in" "seq_infodata_inparm" "case_name"
                   (VStr nm))) by keeps_attrs.
  specialize (K (set_name nm c) eq_refl). now rewrite E in K.
Qed.

Lemma start_date_setter_ok sd c c1 :
  start_date_setter sd c = (Ok tt, c1) -> exists d, _start_date c1 = Some d.
Proof.
  unfold start_date_setter. intros E. destruct sd as [s|].
  - apply bind_inv in E as (d & c0 & _ & E).
    apply bind_inv in E as ([] & c2 & E2 & E).
    unfold modify in E2. injection E2 as <-.
    assert (K : keeps (fun x => _start_date x = Some d)
                  (nml_assign "INPUT_ORG" "runctl" "ydate_ini"
                     (VStr (strftime_cosmo d)))) by keeps_attrs.
    specialize (K (set_start_date (Some d) c0) eq_refl).
    rewrite E in K. eauto.
  - apply bind_inv in E as (f & c0 & _ & E).
    apply bind_inv in E as (g & c2 & _ & E).
    destruct (g !! "ydate_ini"%string); [|discriminate].
    apply bind_inv in E as (d & c3 & _ & E).
    unfold modify in E. injection E as <-. eauto.
Qed.

(** What [_compute_run_dates] has assigned when it returns. *)
Lemma compute_run_dates_ok c c' :
  _compute_run_dates c = (Ok tt, c') ->
  starts_at_midnight c' /\
  (exists run_end, _run_end_date c' = Some run_end) /\
  (exists e, _end_date c' = Some e) /\
  (forall e, _end_date c = Some e -> _end_date c' = Some e).
Proof.
  rewrite compute_run_dates_unfold.
  pose proof (read_start_dates_attrs c) as [m Hm].
  destruct (read_start_dates c) as [[[dc de]|ex] c1] eqn:Hr; [|discriminate].
  apply read_start_dates_cesm_midnight in Hr.
  simpl in Hm. subst c1.
  destruct (dt_eqb dc de) eqn:Heq; [|discriminate].
  apply dt_eqb_eq in Heq. subst de. simpl negb. cbv iota.
  destruct (_end_date c) as [e|] eqn:He; intros E.
  - apply run_dates_bounded_inv in E as (Hre & Hend & Hrs & _).
    simpl in *. unfold starts_at_midnight. rewrite Hrs, Hend, He.
    repeat split; eauto.
  - apply run_dates_open_inv in E as (re & Hre & Hend & Hrs).
    simpl in *. unfold starts_at_midnight. rewrite Hrs.
    repeat split; eauto. discriminate.
Qed.

Lemma keeps_same_run_for_gribouts c0 body :
  keeps (same_run c0) (for_gribouts body).
Proof.
  unfold for_gribouts, _get_gribouts, store_gribouts. keeps_attrs.
Qed.

Lemma keeps_same_run_apply c0 : keeps (same_run c0) _apply_run_dates.
Proof.
  unfold _apply_run_dates, write_file.
  repeat first [ apply keeps_same_run_for_gribouts | progress keeps_attrs ].
Qed.

Lemma keeps_same_run_check c0 : keeps (same_run c0) _check_gribout.
Proof. unfold _check_gribout, _get_gribouts. keeps_attrs. Qed.

Lemma keeps_same_run_nproc c0 par n : keeps (same_run c0) (nproc_setter par n).
Proof. unfold nproc_setter. keeps_attrs. Qed.

Lemma keeps_same_run_ncesm c0 n : keeps (same_run c0) (ncesm_setter n).
Proof.
  unfold ncesm_setter. destruct n as [n|]; [|apply keeps_ret].
  induction components as [|comp rest IH]; simpl; keeps_attrs. exact IH.
Qed.

Lemma keeps_same_run_proc_config c0 : keeps (same_run c0) _build_proc_config.
Proof. unfold _build_proc_config, write_file. keeps_attrs. Qed.

Lemma keeps_same_run_controller c0 : keeps (same_run c0) _build_controller.
Proof. unfold _build_controller, write_file. keeps_attrs. Qed.

Lemma keeps_file_for_gribouts k (t : string) body :
  keeps (fun c => files c !! k = Some t) (for_gribouts body).
Proof.
  unfold for_gribouts, _get_gribouts, store_gribouts. keeps_attrs.
Qed.

Lemma keeps_file_check k (t : string) :
  keeps (fun c => files c !! k = Some t) _check_gribout.
Proof. unfold _check_gribout, _get_gribouts. keeps_attrs. Qed.

Lemma keeps_file_nproc k (t : string) par n :
  keeps (fun c => files c !! k = Some t) (nproc_setter par n).
Proof. unfold nproc_setter. keeps_attrs. Qed.

Lemma keeps_file_ncesm k (t : string) n :
  keeps (fun c => files c !! k = Some t) (ncesm_setter n).
Proof.
  unfold ncesm_setter. destruct n as [n|]; [|apply keeps_ret].
  induction components as [|comp rest IH]; simpl; keeps_attrs. exact IH.
Qed.

Lemma keeps_namcouple_proc_config (t : string) :
  keeps (fun c => files c !! "namcouple"%string = Some t) _build_proc_config.
Proof. unfold _build_proc_config, write_file. keeps_attrs. Qed.

Lemma keeps_files_controller (t1 t2 : string) k :
  keeps (fun c => files c !! "namcouple"%string = Some t1 /\
                  files c !! "proc_config"%string = Some t2 /\
                  _n_nodes c = Some k) _build_controller.
Proof.
  unfold _build_controller, write_file.
  repeat first
    [ apply keeps_bind; [|intros ?] | apply keeps_attr | apply keeps_get ].
  apply keeps_modify. intros c (H1 & H2 & H3). simpl.
  rewrite !lookup_insert_ne by discriminate. auto.
Qed.

Lemma on_disk_cache_in n c : all_on_disk c -> all_on_disk (cache_in n c).
Proof.
  intros Hc. unfold cache_in.
  destruct (nml c !! n) eqn:En; [exact Hc|].
  destruct (disk_nml c !! n) eqn:Ed; [|exact Hc].
  intros name. simpl. destruct (decide (n = name)) as [<-|Hne].
  - intros _. rewrite Ed. eauto.
  - rewrite lookup_insert_ne by exact Hne. apply Hc.
Qed.

Lemma keeps_on_disk_getitem n : keeps all_on_disk (nml_getitem n).
Proof.
  intros c Hc. apply (on_disk_cache_in n) in Hc. revert Hc.
  unfold nml_getitem, cache_in.
  destruct (nml c !! n); [auto|]. destruct (disk_nml c !! n); auto.
Qed.

Lemma keeps_on_disk_read n b p : keeps all_on_disk (nml_read n b p).
Proof.
  apply keeps_bind; [apply keeps_on_disk_getitem | intros; apply keeps_lift].
Qed.

Lemma keeps_on_disk_proc_config : keeps all_on_disk _build_proc_config.
Proof.
  unfold _build_proc_config, write_file.
  repeat first
    [ apply keeps_on_disk_read | apply keeps_bind; [|intros ?]
    | apply keeps_lift | apply keeps_get
    | apply keeps_modify; intros ? Hc; exact Hc ].
Qed.

Lemma keeps_on_disk_controller : keeps all_on_disk _build_controller.
Proof.
  unfold _build_controller, write_file.
  repeat first
    [ apply keeps_bind; [|intros ?] | apply keeps_attr | apply keeps_get
    | apply keeps_modify; intros ? Hc; exact Hc ].
Qed.

Lemma on_disk_write_all c : all_on_disk (snd (write_all c)).
Proof.
  intros name [f Hf]. exists f. simpl in *. now apply lookup_union_Some_l.
Qed.

Lemma apply_run_dates_ok c c' :
  _apply_run_dates c = (Ok tt, c') ->
  (exists rt, _runtime c = Some rt) /\
  exists t, files c' !! "namcouple"%string = Some t.
Proof.
  unfold _apply_run_dates. intros E.
  apply bind_inv in E as (? & c1 & E1 & E).
  apply bind_inv in E as (? & c2 & E2 & E).
  apply bind_inv in E as (rt & c3 & E3 & E).
  unfold attr in E1, E2, E3.
  destruct (_run_start_date c); [|discriminate]. injection E1 as _ <-.
  destruct (_start_date c); [|discriminate]. injection E2 as _ <-.
  destruct (_runtime c) as [rt'|] eqn:Ert; [|discriminate].
  split; [eauto|].
  do 11 (apply bind_inv in E as (? & ? & _ & E)).
  unfold write_file, modify in E. injection E as <-. simpl.
  rewrite lookup_insert_eq. eauto.
Qed.

Lemma build_proc_config_ok c c' :
  _build_proc_config c = (Ok tt, c') ->
  exists k t, _n_nodes c' = Some k /\ files c' !! "proc_config"%string = Some t.
Proof.
  unfold _build_proc_config. intros E.
  do 5 (apply bind_inv in E as (? & ? & _ & E)).
  apply bind_inv in E as ([] & c1 & E1 & E).
  unfold modify in E1. injection E1 as <-.
  apply bind_inv in E as (? & ? & E2 & E).
  unfold get in E2. injection E2 as <- <-.
  unfold write_file, modify in E. injection E as <-. simpl.
  rewrite lookup_insert_eq. eauto.
Qed.

Lemma build_controller_ok c c' :
  _build_controller c = (Ok tt, c') ->
  exists t, files c' !! "controller"%string = Some t.
Proof.
  unfold _build_controller. intros E.
  do 4 (apply bind_inv in E as (? & ? & _ & E)).
  unfold write_file, modify in E. injection E as <-. simpl.
  rewrite lookup_insert_eq. eauto.
Qed.

(** X20: a case whose construction succeeds has its name, all its dates,
    its run time and its node count assigned, the run start at midnight;
    the coupler, process and job files are written; and every namelist
    of the cache has its file in the case directory. *)
Theorem constructed_case_is_complete
    (name : string) (start_date end_date : option string)
    (ncosx ncosy ncesm : option Z) (c : case) :
  fst (case_init name start_date end_date ncosx ncosy ncesm c) = Ok tt ->
  let c' := snd (case_init name start_date end_date ncosx ncosy ncesm c) in
  _name c' = name /\
  (exists d, _start_date c' = Some d) /\
  starts_at_midnight c' /\
  (exists run_end, _run_end_date c' = Some run_end) /\
  (exists e, _end_date c' = Some e) /\
  (exists rt, _runtime c' = Some rt) /\
  (exists k, _n_nodes c' = Some k) /\
  all_on_disk c' /\
  (exists t1 t2 t3,
     files c' !! "namcouple"%string = Some t1 /\
     files c' !! "proc_config"%string = Some t2 /\
     files c' !! "controller"%string = Some t3).
Proof.
  intros Hok c'.
  destruct (case_init name start_date end_date ncosx ncosy ncesm c)
    as [r cz] eqn:E.
  simpl in Hok. subst r. subst c'. simpl snd. unfold case_init in E.
  apply bind_inv in E as ([] & c1 & E1 & E).
  apply bind_inv in E as ([] & c2 & E2 & E).
  apply bind_inv in E as ([] & c3 & E3 & E).
  apply bind_inv in E as ([] & c4 & E4 & E).
  apply bind_inv in E as ([] & c5 & E5 & E).
  apply bind_inv in E as ([] & c6 & E6 & E).
  apply bind_inv in E as ([] & c7 & E7 & E).
  apply bind_inv in E as ([] & c8 & E8 & E).
  apply bind_inv in E as ([] & c9 & E9 & E).
  apply bind_inv in E as ([] & c10 & E10 & E).
  apply bind_inv in E as ([] & c11 & E11 & E12).
  (* the name and the start date, up to the run dates *)
  apply name_setter_ok in E1.
  pose proof (keeps_name_start_date_setter name start_date c1 E1) as N2.
  rewrite E2 in N2. simpl snd in N2.
  apply start_date_setter_ok in E2 as [d D2].
  pose proof (keeps_name_end_date_setter name end_date c2 N2) as N3.
  pose proof (keeps_start_end_date_setter (Some d) end_date c2 D2) as D3.
  rewrite E3 in N3, D3. simpl snd in N3, D3.
  pose proof (keeps_name_start_compute name (Some d) c3 (conj N3 D3)) as ND4.
  rewrite E4 in ND4. simpl snd in ND4. destruct ND4 as [N4 D4].
  apply compute_run_dates_ok in E4 as ((rs & Hrs & Hmid) & (re & Hre) & (e & He) & _).
  (* from there on the dates stay *)
  assert (S4 : same_run c4 c4) by (repeat split; reflexivity).
  pose proof (keeps_same_run_apply c4 c4 S4) as S5.
  rewrite E5 in S5. simpl snd in S5.
  pose proof (keeps_same_run_check c4 c5 S5) as S6.
  rewrite E6 in S6. simpl snd in S6.
  pose proof (keeps_same_run_nproc c4 "nprocx" ncosx c6 S6) as S7.
  rewrite E7 in S7. simpl snd in S7.
  pose proof (keeps_same_run_nproc c4 "nprocy" ncosy c7 S7) as S8.
  rewrite E8 in S8. simpl snd in S8.
  pose proof (keeps_same_run_ncesm c4 ncesm c8 S8) as S9.
  rewrite E9 in S9. simpl snd in S9.
  assert (S10 : same_run c4 c10).
  { unfold write_open_nml, write_all, modify in E10. injection E10 as <-.
    exact S9. }
  pose proof (keeps_same_run_proc_config c4 c10 S10) as S11.
  rewrite E11 in S11. simpl snd in S11.
  pose proof (keeps_same_run_controller c4 c11 S11) as S12.
  rewrite E12 in S12. simpl snd in S12.
  destruct S12 as (Q1 & Q2 & Q3 & Q4 & Q5 & Q6).
  (* the files *)
  apply apply_run_dates_ok in E5 as [[rt Hrt] [t1 F5]].
  pose proof (keeps_file_check _ _ c5 F5) as F6.
  rewrite E6 in F6. simpl snd in F6.
  pose proof (keeps_file_nproc _ _ "nprocx" ncosx c6 F6) as F7.
  rewrite E7 in F7. simpl snd in F7.
  pose proof (keeps_file_nproc _ _ "nprocy" ncosy c7 F7) as F8.
  rewrite E8 in F8. simpl snd in F8.
  pose proof (keeps_file_ncesm _ _ ncesm c8 F8) as F9.
  rewrite E9 in F9. simpl snd in F9.
  assert (F10 : files c10 !! "namcouple"%string = Some t1).
  { unfold write_open_nml, write_all, modify in E10. injection E10 as <-.
    exact F9. }
  pose proof (keeps_namcouple_proc_config _ c10 F10) as F11.
  rewrite E11 in F11. simpl snd in F11.
  pose proof (on_disk_write_all c9) as Y10.
  unfold write_open_nml in E10. rewrite E10 in Y10. simpl snd in Y10.
  pose proof (keeps_on_disk_proc_config c10 Y10) as Y11.
  rewrite E11 in Y11. simpl snd in Y11.
  pose proof (keeps_on_disk_controller c11 Y11) as Y12.
  rewrite E12 in Y12. simpl snd in Y12.
  destruct (build_proc_config_ok _ _ E11) as (k & t2 & Hk & Ht2).
  pose proof (keeps_files_controller t1 t2 k c11 (conj F11 (conj Ht2 Hk)))
    as G.
  rewrite E12 in G. simpl snd in G. destruct G as (G1 & G2 & G3).
  destruct (build_controller_ok _ _ E12) as (t3 & Ht3).
  split; [now rewrite Q1|].
  split; [exists d; now rewrite Q2|].
  split; [exists rs; rewrite Q4; auto|].
  split; [exists re; now rewrite Q5|].
  split; [exists e; now rewrite Q3|].
  split; [exists rt; now rewrite Q6|].
  split; [exists k; exact G3|].
  split; [exact Y12|].
  exists t1, t2, t3. auto.
Qed.

End Construction.

(** ** The task counts given at construction *)

Section TaskCounts.

Lemma with_ntasks_keeps n comps : forall pes key,
  pes !! key = Some (VInt n) -> with_ntasks n comps pes !! key = Some (VInt n).
Proof.
  induction comps as [|a rest IH]; intros pes key Hk; [exact Hk|].
  unfold with_ntasks. simpl. apply IH.
  destruct (decide ((a ++ "_ntasks")%string = key)) as [<-|Hne].
  - apply lookup_insert_eq.
  - now rewrite lookup_insert_ne.
Qed.

Lemma with_ntasks_lookup n comps : forall pes comp,
  In comp comps ->
  with_ntasks n comps pes !! (comp ++ "_ntasks")%string = Some (VInt n).
Proof.
  induction comps as [|a rest IH]; intros pes comp Hin; [destruct Hin|].
  unfold with_ntasks. simpl. destruct Hin as [->|Hin].
  - apply with_ntasks_keeps, lookup_insert_eq.
  - now apply IH.
Qed.

Lemma assign_ntasks_some n comps : forall c drv pes,
  file_of c "drv_in" = Some drv ->
  drv !! "ccsm_pes"%string = Some (BGroup pes) ->
  exists c',
    assign_ntasks comps n c = (Ok tt, c') /\
    attrs_eq c c' /\
    file_of c' "drv_in"
    = Some (<["ccsm_pes"%string := BGroup (with_ntasks n comps pes)]> drv) /\
    (forall other, other <> "drv_in"%string ->
       file_of c' other = file_of c other).
Proof.
  induction comps as [|a rest IH]; intros c drv pes Hdrv Hpes.
  - exists c. split; [reflexivity|]. split; [apply attrs_eq_refl|].
    split; [|reflexivity].
    unfold with_ntasks. simpl. now rewrite insert_id.
  - simpl assign_ntasks.
    rewrite (bind_ok _ _ _ _ _ (nml_assign_some _ _ _ _ _ _ _ Hdrv Hpes)).
    set (pes1 := <[(a ++ "_ntasks")%string := VInt n]> pes).
    set (drv1 := <["ccsm_pes"%string := BGroup pes1]> drv).
    set (c1 := put_file "drv_in" drv1 c).
    destruct (IH c1 drv1 pes1) as (c' & E & [m Hm] & Hf & Hother).
    { apply file_of_put_file. }
    { apply lookup_insert_eq. }
    exists c'. split; [exact E|]. split; [|split].
    + exists m. rewrite Hm. unfold c1, put_file. destruct c; reflexivity.
    + rewrite Hf. unfold drv1. now rewrite insert_insert_eq.
    + intros other Hne. rewrite (Hother other Hne).
      unfold c1. apply file_of_put_file_ne. congruence.
Qed.

Lemma file_of_written c n :
  file_of (set_disk_nml (nml c ∪ disk_nml c) c) n = file_of c n.
Proof.
  unfold file_of. simpl. destruct (nml c !! n) eqn:En; [reflexivity|].
  now rewrite lookup_union_r.
Qed.

Lemma build_proc_config_some c org runctl x y drv pes n :
  file_of c "INPUT_ORG" = Some org ->
  org !! "runctl"%string = Some (BGroup runctl) ->
  runctl !! "nprocx"%string = Some (VInt x) ->
  runctl !! "nprocy"%string = Some (VInt y) ->
  file_of c "drv_in" = Some drv ->
  drv !! "ccsm_pes"%string = Some (BGroup pes) ->
  pes !! "lnd_ntasks"%string = Some (VInt n) ->
  exists m,
    _build_proc_config c
    = (Ok tt,
       set_files
         (<["proc_config"%string :=
              (proc_line 0 (x * y - 1) (COSMO_exe c)
               ++ proc_line (x * y) (x * y + n - 1) (CESM_exe c))%string]>
            (files c))
         (set_n_nodes (Some ((x * y + n) / 12)) (set_nml m c))).
Proof.
  intros Horg Hrun Hx Hy Hdrv Hpes Hn.
  destruct (cache_in_chain3 "drv_in" "INPUT_ORG" "INPUT_ORG" c) as [m Em].
  exists m. unfold _build_proc_config.
  read_step. read_step.
  erewrite bind_ok by reflexivity.
  read_step.
  erewrite bind_ok by reflexivity.
  erewrite bind_ok by reflexivity.
  erewrite bind_ok by reflexivity.
  unfold write_file, modify. rewrite Em. reflexivity.
Qed.

(** X21: the process counts given to the constructor reach the process
    layout: [ncosx * ncosy] ranks for the atmosphere, [ncesm] for every
    component of the coupler, and a node count that is the total divided
    by 12 and rounded down, so that up to 11 ranks are left without a
    core of their own. *)
Theorem task_counts_set_the_layout c org runctl drv pes x y n :
  file_of c "INPUT_ORG" = Some org ->
  org !! "runctl"%string = Some (BGroup runctl) ->
  file_of c "drv_in" = Some drv ->
  drv !! "ccsm_pes"%string = Some (BGroup pes) ->
  let steps :=
    (nproc_setter "nprocx" (Some x) ;; nproc_setter "nprocy" (Some y) ;;
     ncesm_setter (Some n) ;; write_open_nml ;; _build_proc_config)%M in
  let total := x * y + n in
  let c' := snd (steps c) in
  fst (steps c) = Ok tt /\
  _n_nodes c' = Some (total / 12) /\
  12 * (total / 12) <= total < 12 * (total / 12) + 12 /\
  files c' !! "proc_config"%string
  = Some (proc_line 0 (x * y - 1) (COSMO_exe c)
          ++ proc_line (x * y) (total - 1) (CESM_exe c))%string /\
  disk_nml c' !! "drv_in"%string
  = Some (<["ccsm_pes"%string := BGroup (with_ntasks n components pes)]> drv) /\
  (forall comp, In comp components ->
     with_ntasks n components pes !! (comp ++ "_ntasks")%string
     = Some (VInt n)).
Proof.
  intros Horg Hrun Hdrv Hpes steps total c'.
  set (r1 := <["nprocx"%string := VInt x]> runctl).
  set (org1 := <["runctl"%string := BGroup r1]> org).
  set (c1 := put_file "INPUT_ORG" org1 c).
  set (r2 := <["nprocy"%string := VInt y]> r1).
  set (org2 := <["runctl"%string := BGroup r2]> org1).
  set (c2 := put_file "INPUT_ORG" org2 c1).
  assert (Hdrv2 : file_of c2 "drv_in" = Some drv).
  { unfold c2, c1. now rewrite !file_of_put_file_ne by discriminate. }
  destruct (assign_ntasks_some n components c2 drv pes Hdrv2 Hpes)
    as (c3 & E3 & [m3 Hm3] & Hf3 & Hother3).
  set (drv3 := <["ccsm_pes"%string := BGroup (with_ntasks n components pes)]> drv)
    in *.
  set (c4 := set_disk_nml (nml c3 ∪ disk_nml c3) c3).
  assert (Horg4 : file_of c4 "INPUT_ORG" = Some org2).
  { unfold c4. rewrite file_of_written.
    rewrite Hother3 by discriminate. apply file_of_put_file. }
  assert (Hdrv4 : file_of c4 "drv_in" = Some drv3)
    by (unfold c4; now rewrite file_of_written).
  assert (Hlnd : with_ntasks n components pes !! "lnd_ntasks"%string
                 = Some (VInt n)).
  { apply (with_ntasks_lookup n components pes "lnd"). simpl. tauto. }
  destruct (build_proc_config_some c4 org2 r2 x y drv3
              (with_ntasks n components pes) n)
    as [m5 E5]; try assumption.
  { apply lookup_insert_eq. }
  { unfold r2. rewrite lookup_insert_ne by discriminate.
    apply lookup_insert_eq. }
  { apply lookup_insert_eq. }
  { apply lookup_insert_eq. }
  assert (E : steps c = _build_proc_config c4).
  { unfold steps, nproc_setter, ncesm_setter.
    rewrite (bind_ok _ _ _ _ _ (nml_assign_some _ _ _ _ _ _ _ Horg Hrun)).
    fold r1 org1 c1.
    erewrite bind_ok
      by (eapply nml_assign_some;
          [apply file_of_put_file | apply lookup_insert_eq]).
    fold r2 org2 c2.
    rewrite (bind_ok _ _ _ _ _ E3).
    unfold write_open_nml, write_all. unfold bind at 1, modify.
    reflexivity. }
  assert (Hexe : COSMO_exe c4 = COSMO_exe c /\ CESM_exe c4 = CESM_exe c).
  { unfold c4. simpl. rewrite Hm3. unfold c2, c1, put_file. simpl. auto. }
  destruct Hexe as [Hx1 Hx2]. rewrite Hx1, Hx2 in E5.
  unfold c'. rewrite E, E5. simpl fst. simpl snd.
  assert (Hdisk : disk_nml c4 !! "drv_in"%string = Some drv3).
  { change (disk_nml c4) with (nml c3 ∪ disk_nml c3).
    unfold file_of in Hf3.
    destruct (nml c3 !! "drv_in"%string) as [f|] eqn:En.
    - apply lookup_union_Some_l. congruence.
    - rewrite lookup_union_r by exact En. exact Hf3. }
  split; [reflexivity|]. split; [reflexivity|].
  split; [unfold total; Z.to_euclidean_division_equations; lia|].
  split; [simpl; apply lookup_insert_eq|].
  split; [exact Hdisk|].
  intros comp Hin. now apply with_ntasks_lookup.
Qed.

End TaskCounts.

(** ** The order of dates and the ordinals *)

Section DateStamps.

Lemma days_before_year_next y :
  1 <= y ->
  days_before_year (y + 1)
  = days_before_year y + (if is_leap y then 366 else 365).
Proof.
  intros Hy. unfold days_before_year, is_leap. cbv zeta.
  replace (y + 1 - 1) with y by lia.
  destruct (Z.eqb_spec (y mod 4) 0) as [E4|E4]; simpl.
  - destruct (Z.eqb_spec (y mod 100) 0) as [E100|E100]; simpl.
    + destruct (Z.eqb_spec (y mod 400) 0) as [E400|E400];
        revert E4 E100 E400; Z.to_euclidean_division_equations; lia.
    + revert E4 E100; Z.to_euclidean_division_equations; lia.
  - revert E4; Z.to_euclidean_division_equations; lia.
Qed.

Lemma days_before_year_mono y y' :
  1 <= y -> y <= y' -> days_before_year y <= days_before_year y'.
Proof.
  intros Hy Hle. unfold days_before_year. cbv zeta.
  Z.to_euclidean_division_equations; lia.
Qed.

Lemma days_before_month_next y m m' :
  1 <= m -> m < m' -> m' <= 12 ->
  days_before_month y m + days_in_month y m <= days_before_month y m'.
Proof.
  intros H1 Hlt H12. unfold days_before_month, days_in_month.
  assert (Hm : m = 1 \/ m = 2 \/ m = 3 \/ m = 4 \/ m = 5 \/ m = 6 \/
               m = 7 \/ m = 8 \/ m = 9 \/ m = 10 \/ m = 11) by lia.
  assert (Hm' : m' = 2 \/ m' = 3 \/ m' = 4 \/ m' = 5 \/ m' = 6 \/
                m' = 7 \/ m' = 8 \/ m' = 9 \/ m' = 10 \/ m' = 11 \/ m' = 12)
    by lia.
  destruct (is_leap y);
    repeat (destruct Hm as [-> | Hm]); try subst m;
    repeat (destruct Hm' as [-> | Hm']); try subst m';
    simpl; lia.
Qed.

Lemma dt_ltb_cases a b :
  dt_ltb a b = true <->
  year a < year b \/
  year a = year b /\
  (month a < month b \/
   month a = month b /\
   (day a < day b \/
    day a = day b /\
    (hour a < hour b \/
     hour a = hour b /\
     (minute a < minute b \/ minute a = minute b /\ second a < second b)))).
Proof.
  unfold dt_ltb, dt_key. simpl. rewrite andb_false_r, orb_false_r.
  repeat rewrite ?orb_true_iff, ?andb_true_iff.
  rewrite !Z.ltb_lt, !Z.eqb_eq. reflexivity.
Qed.

Lemma toordinal_lt a b :
  valid a -> valid b ->
  year a < year b \/
  year a = year b /\
  (month a < month b \/ month a = month b /\ day a < day b) ->
  toordinal a < toordinal b.
Proof.
  intros (Hya & Hma & Hda & _) (Hyb & Hmb & Hdb & _) Hlt.
  unfold toordinal, ymd2ord.
  pose proof (days_before_month_range (year a) (month a) Hma)
    as (Ha0 & Ha1 & _ & Ha3).
  pose proof (days_before_month_range (year b) (month b) Hmb)
    as (Hb0 & _).
  destruct Hlt as [Hy | [Ey [Hm | [Em Hd]]]].
  - pose proof (days_before_year_next (year a)) as Hn.
    pose proof (days_before_year_mono (year a + 1) (year b)) as Hmono.
    destruct (is_leap (year a)); [|specialize (Ha3 eq_refl)]; lia.
  - rewrite <- Ey in *.
    pose proof (days_before_month_next (year a) (month a) (month b)).
    lia.
  - rewrite <- Ey, <- Em in *. lia.
Qed.

Lemma stamp_lt a b :
  valid a -> valid b -> dt_ltb a b = true -> stamp_of a < stamp_of b.
Proof.
  intros Ha Hb Hlt. apply dt_ltb_cases in Hlt. unfold stamp_of.
  pose proof (secs_of_day_range a Ha) as Hsa.
  pose proof (secs_of_day_range b Hb) as Hsb.
  destruct Hlt as [Hy | [Ey [Hm | [Em [Hd | [Ed Hs]]]]]].
  - pose proof (toordinal_lt a b Ha Hb (or_introl Hy)). lia.
  - pose proof (toordinal_lt a b Ha Hb (or_intror (conj Ey (or_introl Hm)))).
    lia.
  - pose proof (toordinal_lt a b Ha Hb
                  (or_intror (conj Ey (or_intror (conj Em Hd))))).
    lia.
  - assert (Eo : toordinal a = toordinal b)
      by (unfold toordinal; now rewrite Ey, Em, Ed).
    rewrite Eo. destruct Ha as (_ & _ & _ & Hha & Hmia & Hsa').
    destruct Hb as (_ & _ & _ & Hhb & Hmib & Hsb').
    unfold secs_of_day. lia.
Qed.

Lemma dt_leb_stamp a b :
  valid a -> valid b -> dt_leb a b = true -> stamp_of a <= stamp_of b.
Proof.
  intros Ha Hb Hle. unfold dt_leb in Hle. apply negb_true_iff in Hle.
  destruct (dt_ltb a b) eqn:Hab.
  - apply stamp_lt in Hab; try assumption. lia.
  - assert (E : a = b).
    { assert (N1 : ~ dt_ltb a b = true) by congruence.
      assert (N2 : ~ dt_ltb b a = true) by congruence.
      rewrite dt_ltb_cases in N1, N2.
      destruct a, b; simpl in *. f_equal; lia. }
    subst b. lia.
Qed.

End DateStamps.

(** ** The transfer of the atmosphere input *)

Section TransferFacts.

Lemma check_input_present src root d dummy l :
  (root ++ strftime_cosmo d)%string ∈ src ->
  check_input src root d dummy l = Ok (l ++ [(root ++ strftime_cosmo d)%string]).
Proof. intros Hin. unfold check_input. now rewrite decide_True. Qed.

Lemma check_while_rounds src dummy b delta ds : forall cur next l fuel,
  follows delta cur ds next ->
  Forall (fun d => dt_leb d b = true /\ lbfd d ∈ src) ds ->
  check_while (length ds + fuel) src dummy (Ok b) delta cur l
  = check_while fuel src dummy (Ok b) delta next (l ++ map lbfd ds).
Proof.
  induction ds as [|d ds IH]; intros cur next l fuel Hf Hall.
  - simpl in *. subst next. now rewrite app_nil_r.
  - destruct Hf as (-> & c' & Hadd & Hf).
    apply Forall_cons in Hall as [[Hle Hin] Hall].
    simpl. rewrite Hle, (check_input_present _ _ _ _ _ Hin), Hadd.
    rewrite (IH c' next _ fuel Hf Hall). now rewrite <- app_assoc.
Qed.


Lemma check_while_stops src dummy b delta cur l fuel :
  dt_leb cur b = false ->
  check_while (S fuel) src dummy (Ok b) delta cur l = Some (Ok (cur, l)).
Proof. intros Hle. simpl. now rewrite Hle. Qed.

Lemma check_while_missing src dummy b delta cur l fuel :
  dt_leb cur b = true -> lbfd cur ∉ src ->
  check_while (S fuel) src dummy (Ok b) delta cur l
  = Some (Raise (if dummy then AttributeError "hour"
                 else missing_input (lbfd cur))).
Proof.
  intros Hle Hin. simpl. rewrite Hle. unfold check_input.
  rewrite decide_False by exact Hin. now destruct dummy.
Qed.

Lemma check_while_through src dummy b delta ds cur next l fuel :
  follows delta cur ds next ->
  Forall (fun d => dt_leb d b = true /\ lbfd d ∈ src) ds ->
  (length ds < fuel)%nat ->
  check_while fuel src dummy (Ok b) delta cur l
  = check_while (S (fuel - length ds - 1)) src dummy (Ok b) delta next
      (l ++ map lbfd ds).
Proof.
  intros Hf Hall Hlen.
  replace fuel with (length ds + S (fuel - length ds - 1))%nat at 1 by lia.
  now apply check_while_rounds.
Qed.

(** X22: when the analysis file of the start date and the boundary files
    of every round are there, through the end date and through the day
    after it, the list handed to [rsync] holds exactly these files, in
    the order of the rounds. *)
Theorem inputs_present_are_all_listed
    (src : gset string) (s1 s2 : string) (dh : Z) (d1 d2 b2 c1 c2 : datetime)
    (delta : timedelta) (ds1 ds2 : list datetime) (fuel : nat) :
  strptime_in s1 = Ok d1 ->
  strptime_in s2 = Ok d2 ->
  timedelta_seconds (dh * 3600) = Ok delta ->
  ("laf" ++ strftime_cosmo d1)%string ∈ src ->
  follows delta d1 ds1 c1 ->
  Forall (fun d => dt_leb d d2 = true /\ lbfd d ∈ src) ds1 ->
  dt_leb c1 d2 = false ->
  dt_add d2 (mktd 1 0) = Ok b2 ->
  follows delta c1 ds2 c2 ->
  Forall (fun d => dt_leb d b2 = true /\ lbfd d ∈ src) ds2 ->
  dt_leb c2 b2 = false ->
  (length ds1 < fuel)%nat -> (length ds2 < fuel)%nat ->
  transfer_COSMO_input fuel src (Some s1) (Some s2) dh
  = Some (Ok (("laf" ++ strftime_cosmo d1)%string :: map lbfd (ds1 ++ ds2))).
Proof.
  intros H1 H2 Hd Hlaf Hf1 Ha1 Hc1 Hb2 Hf2 Ha2 Hc2 Hl1 Hl2.
  unfold transfer_COSMO_input. rewrite H1, H2, Hd.
  rewrite (check_input_present _ _ _ _ _ Hlaf).
  rewrite (check_while_through _ _ _ _ _ _ _ _ _ Hf1 Ha1 Hl1).
  rewrite (check_while_stops _ _ _ _ _ _ _ Hc1).
  change (do t <- timedelta_days 1; dt_add d2 t)%res with (dt_add d2 (mktd 1 0)).
  rewrite Hb2.
  rewrite (check_while_through _ _ _ _ _ _ _ _ _ Hf2 Ha2 Hl2).
  rewrite (check_while_stops _ _ _ _ _ _ _ Hc2).
  rewrite map_app, <- app_assoc. reflexivity.
Qed.

(** X23: a boundary file of the day after the end date that is missing is
    never replaced by the one of the first day, as the warning of
    [check_input] has it: when the files before it are there, the call
    raises AttributeError, for the hour of a date cannot be assigned. *)
Theorem missing_dummy_day_input_is_not_replaced
    (src : gset string) (s1 s2 : string) (dh : Z) (d1 d2 b2 c1 c2 : datetime)
    (delta : timedelta) (ds1 ds2 : list datetime) (fuel : nat) :
  strptime_in s1 = Ok d1 ->
  strptime_in s2 = Ok d2 ->
  timedelta_seconds (dh * 3600) = Ok delta ->
  ("laf" ++ strftime_cosmo d1)%string ∈ src ->
  follows delta d1 ds1 c1 ->
  Forall (fun d => dt_leb d d2 = true /\ lbfd d ∈ src) ds1 ->
  dt_leb c1 d2 = false ->
  dt_add d2 (mktd 1 0) = Ok b2 ->
  follows delta c1 ds2 c2 ->
  Forall (fun d => dt_leb d b2 = true /\ lbfd d ∈ src) ds2 ->
  dt_leb c2 b2 = true ->
  lbfd c2 ∉ src ->
  (length ds1 < fuel)%nat -> (length ds2 < fuel)%nat ->
  transfer_COSMO_input fuel src (Some s1) (Some s2) dh
  = Some (Raise (AttributeError "hour")).
Proof.
  intros H1 H2 Hd Hlaf Hf1 Ha1 Hc1 Hb2 Hf2 Ha2 Hc2 Hmiss Hl1 Hl2.
  unfold transfer_COSMO_input. rewrite H1, H2, Hd.
  rewrite (check_input_present _ _ _ _ _ Hlaf).
  rewrite (check_while_through _ _ _ _ _ _ _ _ _ Hf1 Ha1 Hl1).
  rewrite (check_while_stops _ _ _ _ _ _ _ Hc1).
  change (do t <- timedelta_days 1; dt_add d2 t)%res with (dt_add d2 (mktd 1 0)).
  rewrite Hb2.
  rewrite (check_while_through _ _ _ _ _ _ _ _ _ Hf2 Ha2 Hl2).
  rewrite (check_while_missing _ _ _ _ _ _ _ Hc2 Hmiss). reflexivity.
Qed.

(** X24: the first file that is missing up to the end date is reported:
    the analysis file of the start date, else the first boundary file of
    a round that is not there, by a ValueError with its name; no list is
    handed over. *)
Theorem missing_input_of_the_period_is_reported
    (src : gset string) (s1 s2 : string) (dh : Z) (d1 d2 c1 : datetime)
    (delta : timedelta) (ds1 : list datetime) (fuel : nat) :
  strptime_in s1 = Ok d1 ->
  strptime_in s2 = Ok d2 ->
  timedelta_seconds (dh * 3600) = Ok delta ->
  (("laf" ++ strftime_cosmo d1)%string ∉ src ->
   transfer_COSMO_input fuel src (Some s1) (Some s2) dh
   = Some (Raise (missing_input ("laf" ++ strftime_cosmo d1)))) /\
  (("laf" ++ strftime_cosmo d1)%string ∈ src ->
   follows delta d1 ds1 c1 ->
   Forall (fun d => dt_leb d d2 = true /\ lbfd d ∈ src) ds1 ->
   dt_leb c1 d2 = true ->
   lbfd c1 ∉ src ->
   (length ds1 < fuel)%nat ->
   transfer_COSMO_input fuel src (Some s1) (Some s2) dh
   = Some (Raise (missing_input (lbfd c1)))).
Proof.
  intros H1 H2 Hd. unfold transfer_COSMO_input. rewrite H1, H2, Hd. split.
  - intros Hlaf. unfold check_input. now rewrite decide_False.
  - intros Hlaf Hf1 Ha1 Hc1 Hmiss Hl1.
    rewrite (check_input_present _ _ _ _ _ Hlaf).
    rewrite (check_while_through _ _ _ _ _ _ _ _ _ Hf1 Ha1 Hl1).
    rewrite (check_while_missing _ _ _ _ _ _ _ Hc1 Hmiss). reflexivity.
Qed.

Lemma check_while_standing src d2 cur : forall fuel l,
  valid cur -> dt_leb cur d2 = true -> lbfd cur ∈ src ->
  check_while fuel src false (Ok d2) (mktd 0 0) cur l = None.
Proof.
  induction fuel as [|fuel IH]; intros l Hv Hle Hin; [reflexivity|].
  simpl. rewrite Hle, (check_input_present _ _ _ _ _ Hin).
  rewrite (dt_add_reaches cur cur (mktd 0 0)) by (simpl; auto; lia).
  now apply IH.
Qed.

(** X25: with [hincbound] 0 the first loop never ends: when the files of
    the start date are there and the start is not after the end, no
    number of rounds brings the call to a result. *)
Theorem zero_increment_never_ends
    (src : gset string) (s1 s2 : string) (d1 d2 : datetime) (fuel : nat) :
  strptime_in s1 = Ok d1 ->
  strptime_in s2 = Ok d2 ->
  dt_leb d1 d2 = true ->
  ("laf" ++ strftime_cosmo d1)%string ∈ src ->
  lbfd d1 ∈ src ->
  transfer_COSMO_input fuel src (Some s1) (Some s2) 0 = None.
Proof.
  intros H1 H2 Hle Hlaf Hin.
  destruct (strptime_in_valid s1 d1 H1) as (Hv & _).
  unfold transfer_COSMO_input. rewrite H1, H2.
  change (timedelta_seconds (0 * 3600)) with (Ok (mktd 0 0)).
  rewrite (check_input_present _ _ _ _ _ Hlaf).
  now rewrite check_while_standing.
Qed.

End TransferFacts.

(** ** The loops of the transfer come to an end *)

Section TransferEnds.

Lemma check_while_more src dummy stop delta : forall n k cur l r,
  check_while n src dummy stop delta cur l = Some r ->
  check_while (n + k) src dummy stop delta cur l = Some r.
Proof.
  induction n as [|n IH]; intros k cur l r E; [discriminate|].
  simpl in *. destruct stop as [b|e]; [|exact E].
  destruct (dt_leb cur b); [|exact E].
  destruct (check_input src "lbfd" cur dummy l) as [l'|e]; [|exact E].
  destruct (dt_add cur delta) as [cur'|e]; [|exact E].
  now apply IH.
Qed.

Lemma check_while_valid src dummy stop delta : forall n cur l c l',
  0 <= td_seconds delta < 86400 ->
  valid cur ->
  check_while n src dummy stop delta cur l = Some (Ok (c, l')) ->
  valid c.
Proof.
  induction n as [|n IH]; intros cur l c l' Hd Hv E; [discriminate|].
  simpl in E. destruct stop as [b|e]; [|discriminate].
  destruct (dt_leb cur b).
  - destruct (check_input src "lbfd" cur dummy l) as [l1|e]; [|discriminate].
    destruct (dt_add cur delta) as [cur'|e] eqn:Ea; [|discriminate].
    apply dt_add_inv in Ea as [Hv' _]; try assumption.
    eapply IH; eassumption.
  - injection E as <- _. exact Hv.
Qed.

Lemma stamp_of_dt_add cur delta cur' :
  valid cur -> 0 <= td_seconds delta < 86400 ->
  dt_add cur delta = Ok cur' ->
  valid cur' /\ stamp_of cur' = stamp_of cur + total_seconds delta.
Proof.
  intros Hv Hd Ea. apply dt_add_inv in Ea as [Hv' E]; try assumption.
  split; [exact Hv'|]. unfold stamp_of, total_seconds. lia.
Qed.

Lemma check_while_ends_forward src dummy b delta : forall n cur l,
  valid b -> 0 <= td_seconds delta < 86400 -> 0 < total_seconds delta ->
  valid cur ->
  stamp_of b - stamp_of cur < Z.of_nat n * total_seconds delta ->
  exists r, check_while (S n) src dummy (Ok b) delta cur l = Some r.
Proof.
  induction n as [|n IH]; intros cur l Hb Hd Hpos Hv Hn; simpl;
    destruct (dt_leb cur b) eqn:Hle; eauto.
  - apply dt_leb_stamp in Hle; try assumption. lia.
  - destruct (check_input src "lbfd" cur dummy l) as [l1|e]; eauto.
    destruct (dt_add cur delta) as [cur'|e] eqn:Ea; eauto.
    destruct (stamp_of_dt_add _ _ _ Hv Hd Ea) as [Hv' Es].
    apply IH; try assumption. lia.
Qed.

Lemma check_while_ends_backward src dummy b delta : forall n cur l,
  0 <= td_seconds delta < 86400 -> total_seconds delta < 0 ->
  valid cur ->
  stamp_of cur < Z.of_nat n * - total_seconds delta ->
  exists r, check_while (S n) src dummy (Ok b) delta cur l = Some r.
Proof.
  induction n as [|n IH]; intros cur l Hd Hneg Hv Hn; simpl;
    destruct (dt_leb cur b) eqn:Hle; eauto.
  - pose proof (toordinal_range cur Hv). pose proof (secs_of_day_range cur Hv).
    unfold stamp_of in Hn. lia.
  - destruct (check_input src "lbfd" cur dummy l) as [l1|e]; eauto.
    destruct (dt_add cur delta) as [cur'|e] eqn:Ea; eauto.
    destruct (stamp_of_dt_add _ _ _ Hv Hd Ea) as [Hv' Es].
    apply IH; try assumption. lia.
Qed.

Lemma check_while_ends src dummy stop delta cur l :
  (forall b, stop = Ok b -> valid b) ->
  0 <= td_seconds delta < 86400 -> total_seconds delta <> 0 ->
  valid cur ->
  exists n r, check_while n src dummy stop delta cur l = Some r.
Proof.
  intros Hb Hd Hne Hv. destruct stop as [b|e].
  2:{ exists 1%nat. simpl. eauto. }
  specialize (Hb b eq_refl).
  destruct (Z.lt_trichotomy (total_seconds delta) 0) as [Hneg|[E|Hpos]];
    [|contradiction|].
  - destruct (check_while_ends_backward src dummy b delta
                (Z.to_nat (stamp_of cur + 1)) cur l) as [r E];
      try assumption.
    { pose proof (toordinal_range cur Hv).
      pose proof (secs_of_day_range cur Hv). unfold stamp_of in *. nia. }
    eauto.
  - destruct (check_while_ends_forward src dummy b delta
                (Z.to_nat (Z.max 0 (stamp_of b - stamp_of cur) + 1)) cur l)
      as [r E]; try assumption.
    { nia. }
    eauto.
Qed.

(** X26: with a [hincbound] of a whole number of hours other than 0 the
    call comes to an end, whatever the directory holds and whatever the
    dates are: there is a number of rounds from which on the outcome is
    there, and is the same. *)
Theorem nonzero_increment_ends
    (src : gset string) (start_date end_date : option string) (dh : Z) :
  dh <> 0 ->
  exists fuel r, forall fuel', (fuel <= fuel')%nat ->
    transfer_COSMO_input fuel' src start_date end_date dh = Some r.
Proof.
  intros Hdh. unfold transfer_COSMO_input.
  destruct start_date as [s1|]; [|exists 0%nat; eauto].
  destruct (strptime_in s1) as [d1|e] eqn:H1; [|exists 0%nat; eauto].
  destruct end_date as [s2|]; [|exists 0%nat; eauto].
  destruct (strptime_in s2) as [d2|e] eqn:H2; [|exists 0%nat; eauto].
  destruct (timedelta_seconds (dh * 3600)) as [delta|e] eqn:Hd;
    [|exists 0%nat; eauto].
  destruct (check_input src "laf" d1 false []) as [l0|e];
    [|exists 0%nat; eauto].
  destruct (strptime_in_valid _ _ H1) as (Hv1 & _).
  destruct (strptime_in_valid _ _ H2) as (Hv2 & _).
  assert (Hdelta : 0 <= td_seconds delta < 86400 /\ total_seconds delta <> 0).
  { unfold timedelta_seconds, timedelta_new in Hd. cbv zeta in Hd.
    destruct (_ >? _); [discriminate|]. injection Hd as <-.
    unfold total_seconds. simpl.
    split; [apply Z.mod_pos_bound; lia|].
    Z.to_euclidean_division_equations; lia. }
  destruct Hdelta as [Hsec Hne].
  destruct (check_while_ends src false (Ok d2) delta d1 l0)
    as (n1 & r1 & E1); try assumption.
  { intros b [= <-]. exact Hv2. }
  destruct r1 as [[cur l1]|e].
  2:{ exists n1, (Raise e). intros fuel' Hle.
      replace fuel' with (n1 + (fuel' - n1))%nat by lia.
      now rewrite (check_while_more _ _ _ _ _ _ _ _ _ E1). }
  pose proof (check_while_valid _ _ _ _ _ _ _ _ _ Hsec Hv1 E1) as Hvc.
  change (do t <- timedelta_days 1; dt_add d2 t)%res
    with (dt_add d2 (mktd 1 0)).
  destruct (check_while_ends src true (dt_add d2 (mktd 1 0)) delta cur l1)
    as (n2 & r2 & E2); try assumption.
  { intros b Hb. apply dt_add_inv in Hb; [tauto | exact Hv2 | simpl; lia]. }
  exists (n1 + n2)%nat,
    (match r2 with Ok (_, l2) => Ok l2 | Raise e => Raise e end).
  intros fuel' Hle.
  replace fuel' with (n1 + (fuel' - n1))%nat at 1 by lia.
  rewrite (check_while_more _ _ _ _ _ _ _ _ _ E1).
  replace fuel' with (n2 + (fuel' - n2))%nat by lia.
  rewrite (check_while_more _ _ _ _ _ _ _ _ _ E2).
  destruct r2 as [[? ?]|?]; reflexivity.
Qed.

End TransferEnds.

(** ** Options: command line, setup file, defaults *)

Section OptionFacts.
Context `{PyEval}.

Lemma apply_default_ok xml opts opt dflt opts' :
  apply_default xml opts opt dflt = Ok opts' ->
  exists v, opts !! opt = Some v /\
    match v with
    | PNone =>
        exists v', setup_value xml opt dflt = Ok v' /\
                   opts' = <[opt := v']> opts
    | _ => opts' = opts
    end.
Proof.
  unfold apply_default, setup_value.
  destruct (opts !! opt) as [v|]; [|discriminate].
  intros E. exists v. split; [reflexivity|].
  destruct v; try (injection E as <-; reflexivity).
  destruct xml as [node|]; [|injection E as <-; eauto].
  destruct (find node opt) as [el|]; [|injection E as <-; eauto].
  destruct (text el) as [t|]; [|injection E as <-; eauto].
  destruct (typ el) as [ty|]; [|injection E as <-; eauto].
  destruct (eval_type ty) as [[conv|]|]; simpl in *; try discriminate.
  destruct (conv t) as [v'|]; simpl in *; [|discriminate].
  injection E as <-. eauto.
Qed.

Lemma apply_defaults_other xml defaults : forall opts opts' opt,
  apply_defaults opts xml defaults = Ok opts' ->
  opt ∉ (fst <$> defaults) ->
  opts' !! opt = opts !! opt.
Proof.
  induction defaults as [|[o d] rest IH]; intros opts opts' opt E Hnot.
  - injection E as <-. reflexivity.
  - simpl in E.
    destruct (apply_default xml opts o d) as [opts1|] eqn:E1; [|discriminate].
    simpl in E. simpl in Hnot. apply not_elem_of_cons in Hnot as [Hne Hnot].
    rewrite (IH _ _ _ E Hnot).
    apply apply_default_ok in E1 as (v & Hv & Hcase).
    destruct v; subst; try reflexivity.
    destruct Hcase as (v' & _ & ->). now rewrite lookup_insert_ne.
Qed.

Lemma defaults_alone_apply
    (opts : gmap string pyval) (defaults : list (string * pyval)) :
  (forall opt, opt ∈ (fst <$> defaults) -> is_Some (opts !! opt)) ->
  exists opts', apply_defaults opts None defaults = Ok opts' /\
    forall opt, is_Some (opts' !! opt) <-> is_Some (opts !! opt).
Proof.
  revert opts. induction defaults as [|[o d] rest IH]; intros opts Hall.
  - exists opts. split; [reflexivity | tauto].
  - simpl. unfold apply_default.
    destruct (Hall o) as [v Hv]; [simpl; apply elem_of_cons; auto|].
    rewrite Hv.
    assert (Hstep : exists opts1,
               match v with PNone => Ok (<[o := d]> opts) | _ => Ok opts end
               = Ok opts1 /\
               forall opt, is_Some (opts1 !! opt) <-> is_Some (opts !! opt)).
    { destruct v; try (exists opts; split; [reflexivity | tauto]).
      exists (<[o := d]> opts). split; [reflexivity|]. intros opt.
      destruct (decide (o = opt)) as [<-|Hne].
      - rewrite lookup_insert_eq, Hv. split; eauto.
      - now rewrite lookup_insert_ne. }
    destruct Hstep as (opts1 & E1 & Hsame).
    replace (match v with
             | PNone => Ok (<[o := d]> opts)
             | _ => Ok opts
             end) with (@Ok (gmap string pyval) opts1)
      by (destruct v; exact (eq_sym E1)).
    simpl. destruct (IH opts1) as (opts' & E' & Hsame').
    { intros opt Hin. apply Hsame, Hall. simpl. apply elem_of_cons. auto. }
    exists opts'. split; [exact E'|]. intros opt.
    rewrite Hsame'. apply Hsame.
Qed.

(** X27: options are set with command line > setup file > defaults.
    Without a setup file [apply_defaults] returns whenever the namespace
    has every option of the dictionary.  And whenever it returns, an
    option of the dictionary that the command line gave has the value it
    was given; one that it left out has the value of the setup file, or
    the default when there is no setup file, no element for it or an
    empty one; and what is not in the dictionary is not touched. *)
Theorem options_follow_the_precedence
    (opts : gmap string pyval) (xml_node : option (list element))
    (defaults : list (string * pyval)) :
  NoDup (fst <$> defaults) ->
  (xml_node = None ->
   (forall opt, opt ∈ (fst <$> defaults) -> is_Some (opts !! opt)) ->
   exists opts', apply_defaults opts xml_node defaults = Ok opts') /\
  (forall opts',
     apply_defaults opts xml_node defaults = Ok opts' ->
     (forall opt, opt ∉ (fst <$> defaults) -> opts' !! opt = opts !! opt) /\
     (forall opt default, (opt, default) ∈ defaults ->
        exists v, opts !! opt = Some v /\
          match v with
          | PNone =>
              exists v', setup_value xml_node opt default = Ok v' /\
                         opts' !! opt = Some v'
          | _ => opts' !! opt = Some v
          end)).
Proof.
  intros Hnd. split.
  { intros -> Hall. destruct (defaults_alone_apply opts defaults Hall)
      as (opts' & E & _). eauto. }
  intros opts' E. split.
  { intros opt Hnot. eapply apply_defaults_other; eassumption. }
  revert opts opts' Hnd E.
  induction defaults as [|[o d] rest IH]; intros opts opts' Hnd E opt dflt Hin.
  - apply elem_of_nil in Hin. destruct Hin.
  - simpl in E, Hnd. apply NoDup_cons in Hnd as [Hfresh Hnd].
    destruct (apply_default xml_node opts o d) as [opts1|] eqn:E1;
      [|discriminate].
    simpl in E. apply elem_of_cons in Hin as [Heq|Hin].
    + injection Heq as -> ->.
      pose proof (apply_defaults_other _ _ _ _ o E Hfresh) as Hkeep.
      apply apply_default_ok in E1 as (v & Hv & Hcase).
      exists v. split; [exact Hv|]. rewrite Hkeep.
      destruct v; subst; try exact Hv.
      destruct Hcase as (v' & Hs & ->). exists v'.
      split; [exact Hs | apply lookup_insert_eq].
    + assert (Hne : o <> opt).
      { intros ->. apply Hfresh.
        exact (list_elem_of_fmap_2 fst rest (opt, dflt) Hin). }
      destruct (IH opts1 opts' Hnd E opt dflt Hin) as (v & Hv & Hcase).
      exists v. split; [|exact Hcase].
      apply apply_default_ok in E1 as (v1 & Hv1 & Hc1).
      destruct v1; subst; try exact Hv.
      destruct Hc1 as (v' & _ & ->).
      now rewrite lookup_insert_ne in Hv.
Qed.

(** X28: a flag cannot be switched off in the setup file: for an option
    that the command line left out, an element of type [bool] with any
    text at all, 'False' and '0' included, makes the option true, and an
    empty element gives the default. *)
Theorem setup_file_flag_is_true_or_default
    (opts opts' : gmap string pyval) (node : list element)
    (defaults : list (string * pyval)) (opt : string) (default : pyval)
    (el : element) :
  eval_type "bool" = Ok (Some to_bool) ->
  NoDup ((fst <$> defaults)) ->
  (opt, default) ∈ defaults ->
  opts !! opt = Some PNone ->
  find node opt = Some el ->
  typ el = Some "bool"%string ->
  text el <> Some EmptyString ->
  apply_defaults opts (Some node) defaults = Ok opts' ->
  opts' !! opt = Some (match text el with
                       | Some _ => PBool true
                       | None => default
                       end).
Proof.
  intros Hbool Hnd Hin Hopt Hfind Htyp Htext E.
  revert opts opts' Hnd Hopt E.
  induction defaults as [|[o d] rest IH]; intros opts opts' Hnd Hopt E.
  - apply elem_of_nil in Hin. destruct Hin.
  - simpl in E, Hnd. apply NoDup_cons in Hnd as [Hfresh Hnd].
    destruct (apply_default (Some node) opts o d) as [opts1|] eqn:E1;
      [|discriminate].
    simpl in E. apply elem_of_cons in Hin as [Heq|Hin].
    + injection Heq as -> ->.
      rewrite (apply_defaults_other _ _ _ _ o E Hfresh).
      apply apply_default_ok in E1 as (v & Hv & Hcase).
      rewrite Hopt in Hv. injection Hv as <-.
      destruct Hcase as (v' & Hs & ->). rewrite lookup_insert_eq. f_equal.
      unfold setup_value in Hs. rewrite Hfind, Htyp in Hs.
      destruct (text el) as [t|]; [|now injection Hs as <-].
      rewrite Hbool in Hs. simpl in Hs. unfold to_bool in Hs.
      injection Hs as <-. f_equal.
      destruct (String.eqb_spec t EmptyString) as [->|]; [|reflexivity].
      now contradiction Htext.
    + assert (Hne : o <> opt).
      { intros ->. apply Hfresh.
        exact (list_elem_of_fmap_2 fst rest (opt, default) Hin). }
      apply (IH Hin opts1 opts' Hnd); [|exact E].
      apply apply_default_ok in E1 as (v1 & Hv1 & Hc1).
      destruct v1; subst; try exact Hopt.
      destruct Hc1 as (v' & _ & ->). now rewrite lookup_insert_ne.
Qed.

End OptionFacts.

(** ** The further statements at work *)

Ltac valid_date :=
  unfold valid; vm_compute; repeat split; intros E; discriminate E.

Lemma day_form_adds_whole_days_witness :
  toordinal (mkdt 2020 3 1 6 30 0) = toordinal (mkdt 2020 2 28 6 30 0) + 2 /\
  dt_sub (mkdt 2020 3 1 6 30 0) (mkdt 2020 2 28 6 30 0) = mktd 2 0.
Proof.
  destruct (day_form_adds_whole_days (mkdt 2020 2 28 6 30 0)
              (mkdt 2020 3 1 6 30 0) "2" " (two)" 2)
    as (_ & T1 & _ & _ & _ & T2).
  - valid_date.
  - reflexivity.
  - reflexivity.
  - vm_compute. reflexivity.
  - split; [exact T1 | exact T2].
Defined.

Lemma text_without_unit_is_rejected_witness :
  add_time_from_str (date 2020 1 1) "3 weeks"
  = Raise (bad_increment "3 weeks").
Proof.
  apply (text_without_unit_is_rejected (date 2020 1 1) "3 weeks").
  reflexivity.
Defined.

Lemma text_after_year_or_month_is_ignored_witness :
  add_time_from_str (date 2020 1 1) "2years"
  = add_time_from_str (date 2020 1 1) "2y".
Proof.
  apply (text_after_year_or_month_is_ignored (date 2020 1 1) "2" "ears" 2 true);
    reflexivity.
Defined.

Lemma twelve_months_are_a_year_witness :
  add_time_from_str (date 2020 1 1) "24m"
  = add_time_from_str (date 2020 1 1) "2y".
Proof.
  apply (twelve_months_are_a_year (date 2020 1 1) "24" "2" 2);
    [reflexivity | reflexivity | simpl; lia].
Defined.

Lemma months_forth_and_back_witness :
  add_time_from_str (mkdt 2021 3 15 10 0 0) "-14m"
  = Ok (mkdt 2020 1 15 10 0 0).
Proof.
  apply (months_forth_and_back (mkdt 2020 1 15 10 0 0) (mkdt 2021 3 15 10 0 0)
           "14" "-14" 14);
    [reflexivity | reflexivity | valid_date
    | reflexivity | reflexivity | vm_compute; reflexivity].
Defined.

Lemma assigned_parameter_is_read_back_witness :
  fst (nml_read "INPUT_ORG" "runctl" "hstart"
         (snd (nml_assign "INPUT_ORG" "runctl" "hstart" (VInt 24) loaded)))
  = Ok (VInt 24).
Proof.
  apply (assigned_parameter_is_read_back loaded "INPUT_ORG" "runctl" "hstart"
           (VInt 24));
    [reflexivity | reflexivity | vm_compute; reflexivity].
Defined.

Lemma computed_run_start_is_a_midnight_witness :
  starts_at_midnight (snd (_compute_run_dates loaded)).
Proof.
  apply (computed_run_start_is_a_midnight loaded).
  vm_compute. reflexivity.
Defined.

Lemma run_start_after_end_is_refused_witness :
  fst (_compute_run_dates overdue) = Raise start_after_end.
Proof.
  apply (run_start_after_end_is_refused overdue (date 2020 1 1)
           (date 2019 12 31));
    [vm_compute; reflexivity | reflexivity | reflexivity].
Defined.

Lemma open_ended_case_takes_the_namelist_duration_witness :
  fst (_compute_run_dates (open_case None)) = Ok tt /\
  _end_date (snd (_compute_run_dates (open_case None)))
  = Some (date 2020 1 2).
Proof.
  destruct (open_ended_case_takes_the_namelist_duration (open_case None)
              (date 2020 1 1) INPUT_ORG0 runctl0 959 90 0 drv_in0 timemgr0
              86400) as [_ T];
    [ reflexivity | reflexivity | vm_compute; reflexivity | reflexivity
    | reflexivity | reflexivity | reflexivity | reflexivity | reflexivity
    | reflexivity | reflexivity
    | unfold runtime_exact, float_exact; lia |].
  destruct (T eq_refl (mktd 1 0) (date 2020 1 2) eq_refl)
    as (T1 & _ & _ & _ & T2); [vm_compute; reflexivity|].
  split; [exact T1 | exact T2].
Defined.

Lemma run_length_without_end_date_cannot_be_applied_witness :
  @_apply_run_dates never_matches
    (snd (_compute_run_dates (open_case (Some "1d"%string))))
  = (Raise (AttributeError "_runtime"),
     snd (_compute_run_dates (open_case (Some "1d"%string)))).
Proof.
  apply (@run_length_without_end_date_cannot_be_applied never_matches
           (open_case (Some "1d"%string)) "1d" (date 2020 1 1));
    [reflexivity | reflexivity | reflexivity | reflexivity
    | vm_compute; reflexivity].
Defined.

Lemma apply_run_dates_writes_the_schedule_witness :
  fst (@_apply_run_dates plain_patterns ready) = Ok tt /\
  files (snd (@_apply_run_dates plain_patterns ready)) !! "namcouple"%string
  = Some "x 86400 y"%string.
Proof.
  assert (Hg : [block_1h; block_48h] = gribouts_of INPUT_IO0) by reflexivity.
  assert (Hall : Forall has_hcomb_list (gribouts_of INPUT_IO0)).
  { rewrite <- Hg. constructor; [eexists; reflexivity|].
    constructor; [eexists; reflexivity | constructor]. }
  destruct (@apply_run_dates_writes_the_schedule plain_patterns ready
              (date 2020 1 1) (date 2020 1 1) (mktd 1 0) INPUT_ORG0 runctl0
              (VInt 90) 90 INPUT_IO0 ioctl0 drv_in0 timemgr0
              "x _runtime_ y")
    as (T1 & _ & _ & _ & T2 & _);
    [reflexivity | reflexivity | reflexivity | reflexivity | reflexivity
    | reflexivity | reflexivity | lia | reflexivity | exact Hall
    | reflexivity | reflexivity | reflexivity | reflexivity
    | unfold schedule_exact, float_exact; vm_compute; repeat split;
      intros E; discriminate E
    | reflexivity |].
  split; [exact T1 | exact T2].
Defined.

Lemma apply_run_dates_refuses_a_zero_time_step_witness :
  fst (@_apply_run_dates never_matches stalled) = Raise ZeroDivisionError.
Proof.
  apply (@apply_run_dates_refuses_a_zero_time_step never_matches stalled
           (date 2020 1 1) (date 2020 1 1) (mktd 1 0)
           {[ "runctl"%string := BGroup runctl_still ]} runctl_still
           (VInt 0) INPUT_IO0 drv_in0);
    reflexivity.
Defined.

Lemma runtime_spans_the_chunk_witness :
  exists rs re rt,
    _run_start_date (snd (_compute_run_dates loaded)) = Some rs /\
    _run_end_date (snd (_compute_run_dates loaded)) = Some re /\
    _runtime (snd (_compute_run_dates loaded)) = Some rt /\
    dt_add rs rt = Ok re.
Proof.
  destruct (runtime_spans_the_chunk loaded (date 2020 1 3))
    as (rs & re & rt & T1 & T2 & T3 & _ & _ & T4);
    [reflexivity | valid_date | vm_compute; reflexivity|].
  exists rs, re, rt. auto.
Defined.

Lemma given_start_date_is_read_back_witness :
  _start_date
    (snd (start_date_setter None
            (snd (start_date_setter (Some "2021-07-15-06"%string)
                    (fresh false)))))
  = Some (mkdt 2021 7 15 6 0 0).
Proof.
  apply (given_start_date_is_read_back (fresh false) "2021-07-15-06"
           (mkdt 2021 7 15 6 0 0) INPUT_ORG0 runctl0);
    [vm_compute; reflexivity | simpl; lia | reflexivity | reflexivity].
Defined.

Lemma given_end_date_is_read_back_witness :
  _end_date
    (snd (end_date_setter None
            (snd (end_date_setter (Some "2021-07-15-06"%string)
                    (fresh false)))))
  = Some (mkdt 2021 7 15 6 0 0) /\
  _end_date (snd (end_date_setter None (fresh false))) = None.
Proof.
  destruct (given_end_date_is_read_back (fresh false) "2021-07-15-06"
              (mkdt 2021 7 15 6 0 0) INPUT_ORG0 runctl0)
    as [(_ & _ & _ & _ & T1 & _) T2];
    [vm_compute; reflexivity | simpl; lia | reflexivity | reflexivity |].
  split; [exact T1 | apply T2; reflexivity].
Defined.

Lemma next_chunk_starts_at_previous_end_witness :
  _run_start_date (@advance never_matches loaded) = Some (date 2020 1 2).
Proof.
  apply (@next_chunk_starts_at_previous_end never_matches loaded
           (date 2020 1 1) (date 2020 1 3) (date 2020 1 2) (date 2020 1 1)
           "2020010100" INPUT_ORG0 runctl0 drv_in0 timemgr0 infodata0
           INPUT_IO0 ioctl0 (VStr "COSMO_output/restart") gribin0);
    [reflexivity | reflexivity | reflexivity | reflexivity | reflexivity
    | valid_date | simpl; lia
    | reflexivity | reflexivity | reflexivity
    | reflexivity | reflexivity | reflexivity | vm_compute; reflexivity
    | reflexivity ..].
Defined.

Lemma chunk_ending_off_midnight_cannot_be_continued_witness :
  fst (@set_next_run never_matches midday) = Raise start_mismatch.
Proof.
  apply (@chunk_ending_off_midnight_cannot_be_continued never_matches midday
           (date 2020 1 1) (date 2020 1 3) (mkdt 2020 1 2 12 0 0)
           (date 2020 1 1)
           "2020010100" INPUT_ORG0 runctl0 drv_in0 timemgr0 infodata0
           INPUT_IO0 ioctl0 (VStr "COSMO_output/restart") gribin0);
    [reflexivity | reflexivity | reflexivity | reflexivity | reflexivity
    | valid_date | simpl; lia
    | simpl; lia | reflexivity | reflexivity
    | reflexivity | reflexivity | reflexivity | vm_compute; reflexivity
    | reflexivity ..].
Defined.

Lemma constructed_case_is_complete_witness :
  _name (@built never_matches false) = "CC2"%string /\
  all_on_disk (@built never_matches false).
Proof.
  destruct (@constructed_case_is_complete never_matches "CC2"
              (Some "2020-01-01-00"%string) (Some "2020-01-03-00"%string)
              None None None (fresh false))
    as (T1 & _ & _ & _ & _ & _ & _ & T2 & _);
    [vm_compute; reflexivity|].
  split; [exact T1 | exact T2].
Defined.

Lemma task_counts_set_the_layout_witness :
  _n_nodes
    (snd ((nproc_setter "nprocx" (Some 5) ;; nproc_setter "nprocy" (Some 4) ;;
           ncesm_setter (Some 6) ;; write_open_nml ;; _build_proc_config)%M
            loaded))
  = Some (26 / 12).
Proof.
  apply (task_counts_set_the_layout loaded INPUT_ORG0 runctl0 drv_in0 pes0
           5 4 6); reflexivity.
Defined.

Ltac in_dir :=
  match goal with
  | |- ?P => apply (@bool_decide_unpack P _); vm_compute; exact I
  end.
Ltac in_list :=
  repeat first [apply list_elem_of_here | apply list_elem_of_further].
Ltac rounds :=
  repeat (split; [reflexivity|]; eexists; split; [vm_compute; reflexivity|]);
  reflexivity.
Ltac all_there :=
  repeat (constructor; [split; [vm_compute; reflexivity | in_dir]|]);
  constructor.

Lemma inputs_present_are_all_listed_witness :
  transfer_COSMO_input 10 src_full (Some "2020-01-01-00"%string)
    (Some "2020-01-01-12"%string) 6
  = Some (Ok ("laf2020010100"%string :: map lbfd (period ++ day_after))).
Proof.
  apply (inputs_present_are_all_listed src_full "2020-01-01-00" "2020-01-01-12"
           6 (mkdt 2020 1 1 0 0 0) (mkdt 2020 1 1 12 0 0)
           (mkdt 2020 1 2 12 0 0) (mkdt 2020 1 1 18 0 0)
           (mkdt 2020 1 2 18 0 0) (mktd 0 21600) period day_after 10).
  - vm_compute; reflexivity.
  - vm_compute; reflexivity.
  - vm_compute; reflexivity.
  - in_dir.
  - rounds.
  - all_there.
  - vm_compute; reflexivity.
  - vm_compute; reflexivity.
  - rounds.
  - all_there.
  - vm_compute; reflexivity.
  - simpl; lia.
  - simpl; lia.
Defined.

Lemma missing_dummy_day_input_is_not_replaced_witness :
  transfer_COSMO_input 10 src_period (Some "2020-01-01-00"%string)
    (Some "2020-01-01-12"%string) 6
  = Some (Raise (AttributeError "hour")).
Proof.
  apply (missing_dummy_day_input_is_not_replaced src_period "2020-01-01-00"
           "2020-01-01-12" 6 (mkdt 2020 1 1 0 0 0) (mkdt 2020 1 1 12 0 0)
           (mkdt 2020 1 2 12 0 0) (mkdt 2020 1 1 18 0 0)
           (mkdt 2020 1 1 18 0 0) (mktd 0 21600) period [] 10).
  - vm_compute; reflexivity.
  - vm_compute; reflexivity.
  - vm_compute; reflexivity.
  - in_dir.
  - rounds.
  - all_there.
  - vm_compute; reflexivity.
  - vm_compute; reflexivity.
  - reflexivity.
  - constructor.
  - vm_compute; reflexivity.
  - in_dir.
  - simpl; lia.
  - simpl; lia.
Defined.

Lemma missing_input_of_the_period_is_reported_witness :
  transfer_COSMO_input 10 src_gap (Some "2020-01-01-00"%string)
    (Some "2020-01-01-12"%string) 6
  = Some (Raise (missing_input "lbfd2020010106")).
Proof.
  destruct (missing_input_of_the_period_is_reported src_gap "2020-01-01-00"
              "2020-01-01-12" 6 (mkdt 2020 1 1 0 0 0) (mkdt 2020 1 1 12 0 0)
              (mkdt 2020 1 1 6 0 0) (mktd 0 21600) [mkdt 2020 1 1 0 0 0] 10)
    as [_ T]; [vm_compute; reflexivity ..|].
  apply T.
  - in_dir.
  - rounds.
  - all_there.
  - vm_compute; reflexivity.
  - in_dir.
  - simpl; lia.
Defined.

Lemma zero_increment_never_ends_witness :
  transfer_COSMO_input 1000 src_full (Some "2020-01-01-00"%string)
    (Some "2020-01-01-12"%string) 0
  = None.
Proof.
  apply (zero_increment_never_ends src_full "2020-01-01-00" "2020-01-01-12"
           (mkdt 2020 1 1 0 0 0) (mkdt 2020 1 1 12 0 0) 1000).
  - vm_compute; reflexivity.
  - vm_compute; reflexivity.
  - vm_compute; reflexivity.
  - in_dir.
  - in_dir.
Defined.

Lemma nonzero_increment_ends_witness :
  exists fuel r, forall fuel', (fuel <= fuel')%nat ->
    transfer_COSMO_input fuel' src_gap (Some "2020-01-01-00"%string)
      (Some "2020-01-01-12"%string) (-6)
    = Some r.
Proof.
  apply (nonzero_increment_ends src_gap (Some "2020-01-01-00"%string)
           (Some "2020-01-01-12"%string) (-6)).
  discriminate.
Defined.

Lemma apply_defaults_example :
  @apply_defaults three_types opts0 (Some cmd_line0) defaults0 = Ok opts1.
Proof. reflexivity. Qed.

Lemma options_follow_the_precedence_witness :
  exists v,
    @setup_value three_types (Some cmd_line0) "ncosx" PNone = Ok v /\
    opts1 !! "ncosx"%string = Some v.
Proof.
  assert (Hnd : NoDup (fst <$> defaults0)).
  { apply (bool_decide_unpack _). vm_compute. exact I. }
  destruct (@options_follow_the_precedence three_types opts0 (Some cmd_line0)
              defaults0 Hnd) as [_ T].
  destruct (T opts1 apply_defaults_example) as [_ Tin].
  destruct (Tin "ncosx"%string PNone) as (v & Hv & Hc); [in_list|].
  vm_compute in Hv. injection Hv as <-. exact Hc.
Defined.

Lemma setup_file_flag_is_true_or_default_witness :
  opts1 !! "dummy_day"%string = Some (PBool true).
Proof.
  apply (@setup_file_flag_is_true_or_default three_types opts0 opts1 cmd_line0
           defaults0 "dummy_day" (PBool true)
           (mkel "dummy_day" (Some "False"%string) (Some "bool"%string)));
    [ reflexivity
    | apply (bool_decide_unpack _); vm_compute; exact I
    | in_list
    | reflexivity | reflexivity | reflexivity
    | discriminate
    | exact apply_defaults_example ].
Defined.
